(** * Platform adapters of sociallagos: Facebook and Instagram

    A shallow embedding of [src/lib/social/platforms/facebook.platform.ts]
    and [src/lib/social/platforms/instagram.platform.ts], and the properties
    of the adapter layer stated over it.

    Conventions of the embedding.
    - Provider payloads are untyped in the source ([await res.json()] is
      [any]), so they are JavaScript values here; property reads, optional
      chaining, [??] and truthiness follow JavaScript, and a [typeof] test
      is a match on the constructor.
    - Numbers are IEEE 754 binary64 values, the primitive floats of Rocq:
      [+], [*], [/], [>] and [===] on numbers are the operations of
      [PrimFloat], with their rounding, infinities, signed zeros and [NaN].
    - The conversions of the language are partial where JavaScript raises:
      [ToPrimitive] of a payload object with an own [toString] key is a
      [TypeError], in a template literal, under [+], [*] and [>], and in a
      computed property key alike.  The runtime's [Number::toString] and
      [StringToNumber] are fields of the environment.
    - Strings are byte strings (UTF-8).
    - An [async] method is a state-and-exception computation over the list of
      HTTP requests issued so far and the console; the provider is a function
      from the requests seen so far and the current request to a reply. *)

From Stdlib Require Import ZArith Ascii String.
From Stdlib.Strings Require Import Byte.
From Stdlib.Floats Require Import PrimFloat SpecFloat FloatOps.
From stdpp Require Import base strings list gmap pretty.

Set Warnings "-register-all".
Open Scope string_scope.
Open Scope Z_scope.

(** ** JavaScript values *)

(** The fields of [VObj] are the own properties of the object in the order
    [Object.values] visits them, each key once. *)
Inductive value :=
| VUndef
| VNull
| VBool (b : bool)
| VNum (n : float)
| VStr (s : string)
| VArr (items : list value)
| VObj (fields : list (string * value)).

(** Exceptions an adapter call can end with.  [PlatformError] is the class of
    [@/lib/utils/errors], recorded by its constructor arguments
    [(platform, message, details)]; [details] is [VUndef] where the source
    passes two arguments.  [FetchError] is a rejected [fetch] or
    [res.json()]. *)
Inductive exn :=
| PlatformError (platform : string) (message : value) (details : value)
| TypeError
| FetchError (reason : string).

Inductive outcome (A : Type) :=
| Ok (a : A)
| Throw (e : exn).
Arguments Ok {A} a.
Arguments Throw {A} e.

#[export] Instance outcome_ret : MRet outcome := fun A a => Ok a.
#[export] Instance outcome_bind : MBind outcome := fun A B f m =>
  match m with
  | Ok a => f a
  | Throw e => Throw e
  end.

(** [+0], [-0] and [NaN] are the falsy numbers. *)
Definition truthy (v : value) : bool :=
  match v with
  | VUndef | VNull => false
  | VBool b => b
  | VNum n => negb (n =? 0)%float && negb (is_nan n)
  | VStr s => negb (String.eqb s "")
  | VArr _ | VObj _ => true
  end.

Definition nullish (v : value) : bool :=
  match v with
  | VUndef | VNull => true
  | _ => false
  end.

(** [v ?? d] *)
Definition coalesce (v d : value) : value := if nullish v then d else v.
Infix "??" := coalesce (at level 45, left associativity).

(** Own property [k] of an object literal; [VUndef] when it has none. *)
Fixpoint field (k : string) (fields : list (string * value)) : value :=
  match fields with
  | [] => VUndef
  | (k', v) :: rest => if String.eqb k k' then v else field k rest
  end.

(** [k] is an own key of the object. *)
Fixpoint has_key (k : string) (fields : list (string * value)) : bool :=
  match fields with
  | [] => false
  | (k', _) :: rest => String.eqb k k' || has_key k rest
  end.

(** [v.k] for a [v] that is neither [null] nor [undefined].  None of the names
    the adapters read is a data property of a string, number, boolean or
    array, or of [Object.prototype]; [values], which an array inherits as a
    method, is only ever indexed by [0], which the method lacks as the
    [VUndef] given here does. *)
Definition prop (v : value) (k : string) : value :=
  match v with
  | VObj fs => field k fs
  | _ => VUndef
  end.

(** [v.k] *)
Definition get (v : value) (k : string) : outcome value :=
  if nullish v then Throw TypeError else Ok (prop v k).

(** [v?.k] *)
Definition opt_get (v : value) (k : string) : value :=
  if nullish v then VUndef else prop v k.
Infix "?." := opt_get (at level 40, left associativity).

(** A byte that continues a UTF-8 sequence. *)
Definition continuation (c : ascii) : bool :=
  let n := N_of_ascii c in ((128 <=? n) && (n <? 192))%N.

(** The characters of a string, one code point each, as the string iterator
    yields them: [split_characters cur rest] closes the character [cur] at
    the next byte that starts a new one. *)
Fixpoint split_characters (cur rest : string) : list string :=
  match rest with
  | EmptyString => [cur]
  | String c rest' =>
      if continuation c then split_characters (cur +:+ String c EmptyString) rest'
      else cur :: split_characters (String c EmptyString) rest'
  end.

Definition characters (s : string) : list string :=
  match s with
  | EmptyString => []
  | String c rest => split_characters (String c EmptyString) rest
  end.

Definition chars (s : string) : list value := map VStr (characters s).

(** [v?.[i]].  The item of a string is a UTF-16 unit in JavaScript: the
    character itself, or for a character beyond the basic plane a surrogate
    half, which has no UTF-8 form and is the whole character here; the
    adapters test such an item for truthiness and read no property it has. *)
Definition opt_index (v : value) (i : nat) : value :=
  match v with
  | VArr l => nth i l VUndef
  | VStr s => nth i (chars s) VUndef
  | VObj fs => field (pretty i) fs
  | _ => VUndef
  end.

(** The items [for (const item of v)] visits; a payload that is not iterable
    raises [TypeError]. *)
Definition iterate (v : value) : outcome (list value) :=
  match v with
  | VArr l => Ok l
  | VStr s => Ok (chars s)
  | _ => Throw TypeError
  end.

(** [Object.values(v)] for a non-null [v] with [typeof v === "object"]. *)
Definition object_values (v : value) : list value :=
  match v with
  | VArr l => l
  | VObj fs => map snd fs
  | _ => []
  end.

(** [s.includes(needle)] on strings. *)
Fixpoint string_includes (needle s : string) : bool :=
  String.prefix needle s ||
  match s with
  | EmptyString => false
  | String _ rest => string_includes needle rest
  end.

Definition value_is_string (needle : string) (v : value) : bool :=
  match v with
  | VStr s => String.eqb s needle
  | _ => false
  end.

(** [v.includes(needle)] for a non-nullish [v]: the string and the array
    method; any other receiver has no such method and the call raises. *)
Definition js_includes (v : value) (needle : string) : outcome bool :=
  match v with
  | VStr s => Ok (string_includes needle s)
  | VArr l => Ok (existsb (value_is_string needle) l)
  | _ => Throw TypeError
  end.

(** ** Strings of the Node runtime *)

Definition hex_digit (n : N) : ascii :=
  match n with
  | 0%N => "0" | 1%N => "1" | 2%N => "2" | 3%N => "3"
  | 4%N => "4" | 5%N => "5" | 6%N => "6" | 7%N => "7"
  | 8%N => "8" | 9%N => "9" | 10%N => "a" | 11%N => "b"
  | 12%N => "c" | 13%N => "d" | 14%N => "e" | _ => "f"
  end%char.

Definition hex_of_byte (b : byte) : string :=
  String (hex_digit (Byte.to_N b / 16)) (String (hex_digit (Byte.to_N b mod 16)) EmptyString).

(** [buf.toString("hex")] *)
Fixpoint hex (bytes : list byte) : string :=
  match bytes with
  | [] => ""
  | b :: rest => hex_of_byte b +:+ hex rest
  end.

Definition upper_hex_digit (n : N) : ascii :=
  match n with
  | 10%N => "A" | 11%N => "B" | 12%N => "C"
  | 13%N => "D" | 14%N => "E" | 15%N => "F"
  | _ => hex_digit n
  end%char.

(** The characters [encodeURIComponent] leaves alone: letters, digits and
    [- _ . ! ~ * ' ( )]. *)
Definition uri_unreserved (c : ascii) : bool :=
  let n := N_of_ascii c in
  ((65 <=? n) && (n <=? 90) || (97 <=? n) && (n <=? 122) || (48 <=? n) && (n <=? 57)
   || (n =? 45) || (n =? 95) || (n =? 46) || (n =? 33) || (n =? 126)
   || (n =? 42) || (n =? 39) || (n =? 40) || (n =? 41))%N.

(** [encodeURIComponent(s)] on the UTF-8 bytes of [s]. *)
Fixpoint encodeURIComponent (s : string) : string :=
  match s with
  | EmptyString => ""
  | String c rest =>
      (if uri_unreserved c then String c EmptyString
       else String "%" (String (upper_hex_digit (N_of_ascii c / 16))
                          (String (upper_hex_digit (N_of_ascii c mod 16)) EmptyString)))
      +:+ encodeURIComponent rest
  end.

(** [h.startsWith("#") ? h : `#${h}`] *)
Definition hashtag (h : string) : string :=
  if String.prefix "#" h then h else "#" +:+ h.

(** The part of [s] after its first [c] ([None] when [c] does not occur). *)
Fixpoint after_first (c : ascii) (s : string) : option string :=
  match s with
  | EmptyString => None
  | String d rest => if Ascii.eqb d c then Some rest else after_first c rest
  end.

Fixpoint occurs (c : ascii) (s : string) : bool :=
  match s with
  | EmptyString => false
  | String d rest => Ascii.eqb d c || occurs c rest
  end.

(** The part of [s] after its last [c]; the whole of [s] when [c] does not
    occur, as [s.split(c).pop()] gives it. *)
Fixpoint after_last (c : ascii) (s : string) : string :=
  match s with
  | EmptyString => ""
  | String d rest =>
      if occurs c rest then after_last c rest
      else if Ascii.eqb d c then rest else s
  end.

Definition is_lower_hex (c : ascii) : bool :=
  let n := N_of_ascii c in
  ((48 <=? n) && (n <=? 57) || (97 <=? n) && (n <=? 102))%N.

Fixpoint all_chars (p : ascii -> bool) (s : string) : bool :=
  match s with
  | EmptyString => true
  | String d rest => p d && all_chars p rest
  end.

(** ** The process an adapter runs in *)

Inductive http_method := GET | POST.

(** A [fetch] call.  [req_body] is the object handed to [JSON.stringify],
    before serialisation; every [POST] of the adapters carries the header
    [Content-Type: application/json]. *)
Record request := {
  req_method : http_method;
  req_url : string;
  req_body : option (list (string * value))
}.

(** What [await fetch(..)] followed by [await res.json()] yields. *)
Inductive reply :=
| Rejected (reason : string)
| Json (payload : value).

(** The provider answers a request knowing the requests made before it. *)
Definition provider := list request -> request -> reply.

(** The [console.log] calls of [getPostMetrics], by call site and
    interpolated arguments; an argument that a template literal interpolates
    from the payload is the string it was converted to. *)
Inductive log_entry :=
| LogInsightsError (postId : string) (message : value) (code : string)
| LogInsights (postId : string) (impressions reach engaged : float)
| LogInsightsFailed (postId : string) (err : exn)
| LogRetry (postId : string)
| LogSocialError (postId : string) (message : value) (code : string)
| LogSocial (postId : string) (likes comments shares : string)
| LogSocialFailed (postId : string) (err : exn).

Record world := {
  trace : list request;
  console : list log_entry
}.

Definition start : world := {| trace := []; console := [] |}.

(** [process.env], the clock, the entropy source, the network, and two
    conversions of the runtime: [StringToNumber] (what [+], [*] and [>]
    apply to a string operand) and [Number::toString] (the shortest digits
    that round-trip).  The properties hold whatever the two functions are;
    [string_to_number] and [number_to_string] further down are those of the
    language, and the sample runs use them. *)
Record env := {
  META_APP_ID : option string;
  META_APP_SECRET : option string;
  Date_now : float;
  randomBytes16 : list byte;
  net : provider;
  StringToNumber : string -> float;
  NumberToString : float -> string
}.

Definition M (A : Type) : Type := world -> outcome A * world.

#[export] Instance M_ret : MRet M := fun A a w => (Ok a, w).
#[export] Instance M_bind : MBind M := fun A B f m w =>
  match m w with
  | (Ok a, w') => f a w'
  | (Throw e, w') => (Throw e, w')
  end.

Definition throw {A} (e : exn) : M A := fun w => (Throw e, w).

Definition lift {A} (o : outcome A) : M A := fun w => (o, w).

(** [try { body } catch (err) { handler }] *)
Definition try_catch {A} (body : M A) (handler : exn -> M A) : M A := fun w =>
  match body w with
  | (Ok a, w') => (Ok a, w')
  | (Throw e, w') => handler e w'
  end.

Definition console_log (l : log_entry) : M unit := fun w =>
  (Ok tt, {| trace := trace w; console := console w ++ [l] |}).

(** [await (await fetch(req)).json()] *)
Definition fetch (E : env) (req : request) : M value := fun w =>
  let w' := {| trace := trace w ++ [req]; console := console w |} in
  match net E (trace w) req with
  | Json v => (Ok v, w')
  | Rejected r => (Throw (FetchError r), w')
  end.

Definition http_get (url : string) : request :=
  {| req_method := GET; req_url := url; req_body := None |}.

Definition http_post (url : string) (body : list (string * value)) : request :=
  {| req_method := POST; req_url := url; req_body := Some body |}.

(** ** Conversions and arithmetic on untyped operands *)

(** [String(v)], as template literals and property keys apply it.  An object
    is converted by its [toString] method: a payload object inherits the one
    of [Object.prototype] unless it has an own [toString] key, whose value,
    coming from JSON, is not callable, and then no method yields a primitive
    and the conversion raises [TypeError].  An array is joined with commas,
    [null] and [undefined] items printing as nothing. *)
Definition to_string (E : env) : value -> outcome string :=
  fix to_string (v : value) : outcome string :=
    match v with
    | VUndef => Ok "undefined"
    | VNull => Ok "null"
    | VBool true => Ok "true"
    | VBool false => Ok "false"
    | VNum n => Ok (NumberToString E n)
    | VStr s => Ok s
    | VArr l =>
        (fix join (items : list value) : outcome string :=
           match items with
           | [] => Ok ""
           | x :: rest =>
               s ← match x with
                   | VUndef | VNull => Ok ""
                   | _ => to_string x
                   end;
               match rest with
               | [] => Ok s
               | _ :: _ => t ← join rest; Ok (s +:+ "," +:+ t)
               end
           end) l
    | VObj fs => if has_key "toString" fs then Throw TypeError else Ok "[object Object]"
    end.

(** [ToPrimitive(v)].  [valueOf] of a payload object or array never yields a
    primitive, so the result is that of [toString] under either hint. *)
Definition to_primitive (E : env) (v : value) : outcome value :=
  match v with
  | VArr _ | VObj _ => s ← to_string E v; Ok (VStr s)
  | _ => Ok v
  end.

(** [ToNumber(p)] of a primitive [p]; the last case is never reached after
    [to_primitive]. *)
Definition to_number (E : env) (p : value) : float :=
  match p with
  | VUndef => nan
  | VNull => 0
  | VBool b => if b then 1 else 0
  | VNum n => n
  | VStr s => StringToNumber E s
  | VArr _ | VObj _ => nan
  end.

(** [a + b]: concatenation as soon as one primitive is a string. *)
Definition js_add (E : env) (a b : value) : outcome value :=
  pa ← to_primitive E a;
  pb ← to_primitive E b;
  match pa, pb with
  | VStr _, _ | _, VStr _ =>
      sa ← to_string E pa;
      sb ← to_string E pb;
      Ok (VStr (sa +:+ sb))
  | _, _ => Ok (VNum (to_number E pa + to_number E pb))
  end.

(** [a * z] and [a > z] for a numeric literal [z]. *)
Definition js_mul (E : env) (a : value) (z : float) : outcome float :=
  pa ← to_primitive E a;
  Ok (to_number E pa * z)%float.

Definition js_gt (E : env) (a : value) (z : float) : outcome bool :=
  pa ← to_primitive E a;
  Ok (z <? to_number E pa)%float.

(** The integral part of [t], for [abs t] up to [8.64e15].  Below [2^52]
    adding and subtracting [2^52] rounds to the nearest integer, which is
    the integral part or one above it; from [2^52] on every number is an
    integer. *)
Definition truncate (t : float) : float :=
  let a := abs t in
  let r := (a + 4503599627370496 - 4503599627370496)%float in
  let f := if (a <? 4503599627370496)%float
           then (if (a <? r)%float then (r - 1)%float else r)
           else a in
  if (t <? 0)%float then (- f)%float else f.

(** [TimeClip(t)], the time value of [new Date(t)] for a number [t]: [NaN]
    (an invalid date) beyond 8.64e15 milliseconds either side of the epoch,
    and the integral part of [t], never [-0], within. *)
Definition time_clip (t : float) : float :=
  if (abs t <=? 8640000000000000)%float then (truncate t + 0)%float else nan.

(** ** The canonical data model ([base.platform]) *)

Record OAuthUrl := {
  url : string;
  state : string
}.

(** [expiresAt] is the time value of the [Date]: milliseconds since the
    epoch, [NaN] for an invalid date. *)
Record TokenPair := {
  accessToken : value;
  expiresAt : float;
  scopes : list string
}.

Record PlatformAccount := {
  platformAccountId : value;
  accountName : value;
  accountType : string;
  avatarUrl : value;
  pageAccessToken : value
}.

Record PlatformContent := {
  caption : string;
  hashtags : list string;
  mediaUrl : option string;
  mediaType : option string;
  accountId : option string
}.

Record PublishResult := {
  platformPostId : value;
  platformPostUrl : string
}.

Record PostMetrics := {
  views : value;
  likes : value;
  comments : value;
  shares : value;
  saves : value;
  watchTimeSeconds : value;
  avgWatchPercent : value;
  reachUnique : value;
  impressions : value;
  engagementRate : float
}.

Record AccountMetrics := {
  followers : value;
  followersGrowth : value;
  totalViews : value;
  totalWatchMinutes : value;
  avgEngagementRate : value
}.

Definition zero : value := VNum 0.

Definition META_API_BASE : string := "https://graph.facebook.com/v21.0".

(** [`${content.caption}\n\n${content.hashtags.map(..).join(" ")}`] *)
Definition render_caption (content : PlatformContent) : string :=
  caption content +:+ String "010" (String "010" EmptyString)
  +:+ String.concat " " (map hashtag (hashtags content)).

(** Truthiness of an optional string: present and not empty. *)
Definition present (s : option string) : bool :=
  match s with
  | Some x => negb (String.eqb x "")
  | None => false
  end.

Definition is_kind (kind : string) (t : option string) : bool :=
  match t with
  | Some x => String.eqb x kind
  | None => false
  end.

(** The getters [appId] and [appSecret]. *)
Definition appId (platform : string) (E : env) : M string :=
  if present (META_APP_ID E)
  then mret (default "" (META_APP_ID E))
  else throw (PlatformError platform (VStr "META_APP_ID no configurado") VUndef).

Definition appSecret (platform : string) (E : env) : M string :=
  if present (META_APP_SECRET E)
  then mret (default "" (META_APP_SECRET E))
  else throw (PlatformError platform (VStr "META_APP_SECRET no configurado") VUndef).

(** [new Date(Date.now() + (hint ?? 5184000) * 1000)] *)
Definition expiry (E : env) (hint : value) : outcome float :=
  ms ← js_mul E (hint ?? VNum 5184000) 1000;
  Ok (time_clip (Date_now E + ms)).

(** [(engagedUsers / reach) * 100] *)
Definition engagement (engagedUsers reach : float) : float :=
  (engagedUsers / reach * 100)%float.

(** [`${META_API_BASE}/oauth/access_token?grant_type=fb_exchange_token&..`] *)
Definition exchange_url (id secret token : string) : string :=
  META_API_BASE +:+ "/oauth/access_token?" +:+ "grant_type=fb_exchange_token"
  +:+ "&client_id=" +:+ id +:+ "&client_secret=" +:+ secret
  +:+ "&fb_exchange_token=" +:+ token.

(** [`${META_API_BASE}/oauth/access_token?client_id=..&code=..`] *)
Definition code_url (id secret redirectUri code : string) : string :=
  META_API_BASE +:+ "/oauth/access_token?" +:+ "client_id=" +:+ id
  +:+ "&client_secret=" +:+ secret
  +:+ "&redirect_uri=" +:+ encodeURIComponent redirectUri
  +:+ "&code=" +:+ code.

(** [`https://www.facebook.com/v21.0/dialog/oauth?client_id=..`] *)
Definition dialog_url (id redirectUri st scopes : string) : string :=
  "https://www.facebook.com/v21.0/dialog/oauth?" +:+ "client_id=" +:+ id
  +:+ "&redirect_uri=" +:+ encodeURIComponent redirectUri
  +:+ "&state=" +:+ st +:+ "&scope=" +:+ scopes +:+ "&response_type=code".

(** ** [FacebookPlatform] *)

Module Facebook.

Definition platform : string := "facebook".

Definition getAuthUrl (E : env) (userId redirectUri : string) : M OAuthUrl :=
  let st := hex (randomBytes16 E) +:+ ":" +:+ userId in
  let scopes :=
    String.concat ","
      ["public_profile"; "pages_show_list"; "pages_read_engagement"; "pages_manage_posts"] in
  id ← appId platform E;
  mret {| url := dialog_url id redirectUri st scopes; state := st |}.

Definition handleCallback (E : env) (code redirectUri : string) : M TokenPair :=
  id ← appId platform E;
  secret ← appSecret platform E;
  data ← fetch E (http_get (code_url id secret redirectUri code));
  err ← lift (get data "error");
  if truthy err then throw (PlatformError platform (prop err "message") err)
  else
    (* Exchange for long-lived token *)
    id ← appId platform E;
    secret ← appSecret platform E;
    token ← lift (to_string E (prop data "access_token"));
    longData ← fetch E (http_get (exchange_url id secret token));
    err ← lift (get longData "error");
    if truthy err then throw (PlatformError platform (prop err "message") VUndef)
    else
      expires ← lift (expiry E (prop longData "expires_in"));
      mret {| accessToken := prop longData "access_token";
              expiresAt := expires;
              scopes := ["pages_manage_posts"; "pages_read_engagement"; "read_insights"] |}.

Definition refreshToken (E : env) (refreshToken : string) : M TokenPair :=
  id ← appId platform E;
  secret ← appSecret platform E;
  data ← fetch E (http_get (exchange_url id secret refreshToken));
  err ← lift (get data "error");
  if truthy err then throw (PlatformError platform (prop err "message") VUndef)
  else
    expires ← lift (expiry E (prop data "expires_in"));
    mret {| accessToken := prop data "access_token";
            expiresAt := expires;
            scopes := ["pages_manage_posts"; "pages_read_engagement"] |}.

Definition pages_url (accessToken : string) : string :=
  META_API_BASE +:+ "/me/accounts?fields=id,name,category,picture,access_token&access_token="
  +:+ accessToken.

Definition profile_url (accessToken : string) : string :=
  META_API_BASE +:+ "/me?fields=id,name,picture.width(200)&access_token=" +:+ accessToken.

Definition getAccount (E : env) (accessToken : string) : M PlatformAccount :=
  (* Try to get user's pages first *)
  pagesData ← fetch E (http_get (pages_url accessToken));
  err ← lift (get pagesData "error");
  if truthy err then throw (PlatformError platform (prop err "message") VUndef)
  else
    let page := opt_index (prop pagesData "data") 0 in
    if truthy page then
      mret {| platformAccountId := prop page "id";
              accountName := prop page "name";
              accountType := "page";
              avatarUrl := prop page "picture" ?. "data" ?. "url";
              pageAccessToken := prop page "access_token" |}
    else
      (* No pages found - connect with user profile instead *)
      profile ← fetch E (http_get (profile_url accessToken));
      err ← lift (get profile "error");
      if truthy err then throw (PlatformError platform (prop err "message") VUndef)
      else
        name ← lift (js_add E (prop profile "name") (VStr " (perfil)"));
        mret {| platformAccountId := prop profile "id";
                accountName := name;
                accountType := "profile";
                avatarUrl := prop profile "picture" ?. "data" ?. "url";
                pageAccessToken := VUndef |}.

(** The endpoint and body [publishContent] chooses. *)
Definition publish_request (accessToken : string) (content : PlatformContent) : request :=
  let caption := render_caption content in
  (* Use the page ID for endpoint *)
  let target := default "me" (accountId content) in
  if present (mediaUrl content) && is_kind "image" (mediaType content) then
    http_post (META_API_BASE +:+ "/" +:+ target +:+ "/photos")
      [("url", VStr (default "" (mediaUrl content)));
       ("message", VStr caption);
       ("access_token", VStr accessToken)]
  else if present (mediaUrl content) && is_kind "video" (mediaType content) then
    http_post (META_API_BASE +:+ "/" +:+ target +:+ "/videos")
      [("file_url", VStr (default "" (mediaUrl content)));
       ("description", VStr caption);
       ("access_token", VStr accessToken)]
  else
    http_post (META_API_BASE +:+ "/" +:+ target +:+ "/feed")
      [("message", VStr caption);
       ("access_token", VStr accessToken)].

Definition publishContent (E : env) (accessToken : string) (content : PlatformContent)
  : M PublishResult :=
  data ← fetch E (publish_request accessToken content);
  err ← lift (get data "error");
  if truthy err then throw (PlatformError platform (prop err "message") err)
  else
    let postId := prop data "id" ?? prop data "post_id" in
    id ← lift (to_string E postId);
    mret {| platformPostId := postId;
            platformPostUrl := "https://www.facebook.com/" +:+ id |}.

(** [Object.values(val).reduce((sum, v) => sum + (typeof v === "number" ? v : 0), 0)] *)
Definition sum_numbers (vals : list value) : float :=
  fold_left (fun sum v => (sum + match v with VNum n => n | _ => 0 end)%float)
    vals 0%float.

(** [metrics[name] = n] for a number [n] on the plain object [metrics].  The
    key is [name] converted to a string.  The key [__proto__] is not stored:
    it reaches the setter of [Object.prototype], which ignores a value that
    is not an object.  Every other key becomes an own property. *)
Definition assign (E : env) (metrics : gmap string float) (name : value) (n : float)
  : outcome (gmap string float) :=
  key ← to_string E name;
  Ok (if String.eqb key "__proto__" then metrics else <[key := n]> metrics).

(** One turn of [for (const item of data.data)]: a number
    ([typeof val === "number"]) is stored as it is, a breakdown
    ([typeof val === "object" && val !== null]) as the sum of its numeric
    entries, and anything else leaves [metrics] alone. *)
Definition record_metric (E : env) (metrics : gmap string float) (item : value)
  : outcome (gmap string float) :=
  values ← get item "values";
  let val := opt_index values 0 ?. "value" in
  match val with
  | VNum n => assign E metrics (prop item "name") n
  | VArr _ | VObj _ => assign E metrics (prop item "name") (sum_numbers (object_values val))
  | _ => Ok metrics
  end.

Definition collect_metrics (E : env) : list value -> gmap string float -> outcome (gmap string float) :=
  fix collect (items : list value) (metrics : gmap string float) : outcome (gmap string float) :=
    match items with
    | [] => Ok metrics
    | item :: rest => metrics' ← record_metric E metrics item; collect rest metrics'
    end.

(** [metrics.k ?? 0], for a name [k] that [Object.prototype] does not
    define. *)
Definition metric (metrics : gmap string float) (k : string) : float :=
  default 0%float (metrics !! k).

Definition insights_url (accessToken postId : string) : string :=
  META_API_BASE +:+ "/" +:+ postId +:+ "/insights?metric="
  +:+ "post_impressions,post_impressions_unique,post_engaged_users"
  +:+ "&access_token=" +:+ accessToken.

Definition no_insights : float * float * float := (0, 0, 0)%float.

(** The first [try] block of [getPostMetrics]: the values of [impressions],
    [reach] and [engagedUsers] once it is left. *)
Definition insights (E : env) (accessToken postId : string) : M (float * float * float) :=
  try_catch
    (data ← fetch E (http_get (insights_url accessToken postId));
     err ← lift (get data "error");
     if truthy err then
       code ← lift (to_string E (prop err "code"));
       _ ← console_log (LogInsightsError postId (prop err "message") code);
       mret no_insights
     else if truthy (prop data "data") then
       items ← lift (iterate (prop data "data"));
       metrics ← lift (collect_metrics E items ∅);
       let impressions := metric metrics "post_impressions" in
       let reach := metric metrics "post_impressions_unique" in
       let engagedUsers := metric metrics "post_engaged_users" in
       _ ← console_log (LogInsights postId impressions reach engagedUsers);
       mret (impressions, reach, engagedUsers)
     else mret no_insights)
    (fun err =>
       _ ← console_log (LogInsightsFailed postId err);
       mret no_insights).

Definition fieldsWithShares : string :=
  "reactions.limit(0).summary(true),comments.limit(0).summary(true),shares".

Definition fieldsNoShares : string :=
  "reactions.limit(0).summary(true),comments.limit(0).summary(true)".

Definition social_url (accessToken postId fields : string) : string :=
  META_API_BASE +:+ "/" +:+ postId +:+ "?fields=" +:+ fields
  +:+ "&access_token=" +:+ accessToken.

Definition no_social : value * value * value := (zero, zero, zero).

(** [socialData.error?.message?.includes("nonexisting field")], as the [if]
    reads it. *)
Definition shares_unsupported (socialData : value) : outcome bool :=
  err ← get socialData "error";
  let message := err ?. "message" in
  if nullish message then Ok false else js_includes message "nonexisting field".

(** [likes], [comments] and [shares] read off an error-free payload. *)
Definition social_counts (socialData : value) : value * value * value :=
  (prop socialData "reactions" ?. "summary" ?. "total_count" ?? zero,
   prop socialData "comments" ?. "summary" ?. "total_count" ?? zero,
   prop socialData "shares" ?. "count" ?? zero).

(** The second [try] block of [getPostMetrics]: the values of [likes],
    [comments] and [shares] once it is left.  The last log line converts the
    three counts after they have been assigned, so an exception it raises
    is caught with the counts in place: that is the inner [try_catch]. *)
Definition social (E : env) (accessToken postId : string) (isPagePost : bool)
  : M (value * value * value) :=
  try_catch
    (first ← fetch E (http_get (social_url accessToken postId
                                  (if isPagePost then fieldsWithShares else fieldsNoShares)));
     retry ← lift (shares_unsupported first);
     (* If shares field fails, retry without it *)
     socialData ← (if retry : bool then
                     _ ← console_log (LogRetry postId);
                     fetch E (http_get (social_url accessToken postId fieldsNoShares))
                   else mret first);
     err ← lift (get socialData "error");
     if truthy err then
       code ← lift (to_string E (prop err "code"));
       _ ← console_log (LogSocialError postId (prop err "message") code);
       mret no_social
     else
       let '(likes, comments, shares) := social_counts socialData in
       try_catch
         (l ← lift (to_string E likes);
          c ← lift (to_string E comments);
          s ← lift (to_string E shares);
          _ ← console_log (LogSocial postId l c s);
          mret (likes, comments, shares))
         (fun err =>
            _ ← console_log (LogSocialFailed postId err);
            mret (likes, comments, shares)))
    (fun err =>
       _ ← console_log (LogSocialFailed postId err);
       mret no_social).

(** The tail of [getPostMetrics], from [const totalInteractions] on; the
    additions are outside both [try] blocks. *)
Definition summarise (E : env) (impressions reach engagedUsers : float)
    (likes comments shares : value) : outcome PostMetrics :=
  (* Use social interactions as fallback view count if insights unavailable *)
  sum ← js_add E likes comments;
  totalInteractions ← js_add E sum shares;
  fallback ← (if (impressions =? 0)%float then js_gt E totalInteractions 0 else Ok false);
  let impressions' := if fallback : bool then totalInteractions else VNum impressions in
  Ok {| views := impressions';
        likes := likes;
        comments := comments;
        shares := shares;
        saves := zero;
        watchTimeSeconds := zero;
        avgWatchPercent := zero;
        reachUnique := VNum reach;
        impressions := impressions';
        engagementRate := if (0 <? reach)%float then engagement engagedUsers reach
                          else 0%float |}.

Definition getPostMetrics (E : env) (accessToken postId : string) : M PostMetrics :=
  (* Determine if this is a Page post (PAGEID_POSTID) or standalone *)
  let isPagePost := string_includes "_" postId in
  '(impressions, reach, engagedUsers) ←
    (if isPagePost then insights E accessToken postId else mret no_insights);
  '(likes, comments, shares) ← social E accessToken postId isPagePost;
  lift (summarise E impressions reach engagedUsers likes comments shares).

Definition getAccountMetrics (E : env) (accessToken accountId : string) : M AccountMetrics :=
  data ← fetch E (http_get (META_API_BASE +:+ "/" +:+ accountId
                              +:+ "?fields=followers_count,fan_count&access_token="
                              +:+ accessToken));
  err ← lift (get data "error");
  if truthy err then throw (PlatformError platform (prop err "message") VUndef)
  else
    mret {| followers := prop data "followers_count" ?? prop data "fan_count" ?? zero;
            followersGrowth := zero;
            totalViews := zero;
            totalWatchMinutes := zero;
            avgEngagementRate := zero |}.

End Facebook.

(** ** [InstagramPlatform] *)

Module Instagram.

Definition platform : string := "instagram".

Definition getAuthUrl (E : env) (userId redirectUri : string) : M OAuthUrl :=
  let st := hex (randomBytes16 E) +:+ ":" +:+ userId in
  let scopes :=
    String.concat "," ["public_profile"; "pages_show_list"; "pages_read_engagement"] in
  id ← appId platform E;
  mret {| url := dialog_url id redirectUri st scopes; state := st |}.

Definition handleCallback (E : env) (code redirectUri : string) : M TokenPair :=
  (* Same OAuth flow as Facebook (Meta Graph API) *)
  id ← appId platform E;
  secret ← appSecret platform E;
  data ← fetch E (http_get (code_url id secret redirectUri code));
  err ← lift (get data "error");
  if truthy err then throw (PlatformError platform (prop err "message") VUndef)
  else
    (* Exchange for long-lived token *)
    id ← appId platform E;
    secret ← appSecret platform E;
    token ← lift (to_string E (prop data "access_token"));
    longData ← fetch E (http_get (exchange_url id secret token));
    longToken ← lift (get longData "access_token");
    expires ← lift (expiry E (prop longData "expires_in"));
    mret {| accessToken := longToken ?? prop data "access_token";
            expiresAt := expires;
            scopes := ["instagram_basic"; "instagram_content_publish";
                       "instagram_manage_insights"] |}.

Definition refreshToken (E : env) (refreshTokenStr : string) : M TokenPair :=
  id ← appId platform E;
  secret ← appSecret platform E;
  data ← fetch E (http_get (exchange_url id secret refreshTokenStr));
  err ← lift (get data "error");
  if truthy err then throw (PlatformError platform (prop err "message") VUndef)
  else
    expires ← lift (expiry E (prop data "expires_in"));
    mret {| accessToken := prop data "access_token";
            expiresAt := expires;
            scopes := ["instagram_basic"; "instagram_content_publish"] |}.

Definition pages_url (accessToken : string) : string :=
  META_API_BASE
  +:+ "/me/accounts?fields=id,name,instagram_business_account{id,username,profile_picture_url}&access_token="
  +:+ accessToken.

Definition no_business_account : string :=
  "No se encontró una cuenta de Instagram Business conectada a tus páginas de Facebook.".

(** The account [getAccount] returns for a page that carries [ig]. *)
Definition business_account (page ig : value) : PlatformAccount :=
  {| platformAccountId := prop ig "id";
     accountName := prop ig "username" ?? prop page "name";
     accountType := "business";
     avatarUrl := prop ig "profile_picture_url";
     pageAccessToken := VUndef |}.

(** [for (const page of pagesData.data ?? [])]: the account of the first page
    with an [instagram_business_account], if the loop returns. *)
Fixpoint first_business (pages : list value) : outcome (option PlatformAccount) :=
  match pages with
  | [] => Ok None
  | page :: rest =>
      ig ← get page "instagram_business_account";
      if truthy ig then Ok (Some (business_account page ig)) else first_business rest
  end.

Definition getAccount (E : env) (accessToken : string) : M PlatformAccount :=
  (* Get IG Business Account via Facebook Page *)
  pagesData ← fetch E (http_get (pages_url accessToken));
  err ← lift (get pagesData "error");
  if truthy err then throw (PlatformError platform (prop err "message") VUndef)
  else
    pages ← lift (iterate (prop pagesData "data" ?? VArr []));
    found ← lift (first_business pages);
    match found with
    | Some account => mret account
    | None => throw (PlatformError platform (VStr no_business_account) VUndef)
    end.

Definition media_required : string :=
  "Instagram requiere un media (imagen o video) para publicar.".

(** [containerParams] once the media branch is taken; the third branch
    throws. *)
Definition containerParams (accessToken : string) (content : PlatformContent)
  : outcome (list (string * value)) :=
  let caption := render_caption content in
  if present (mediaUrl content) && is_kind "video" (mediaType content) then
    Ok [("caption", VStr caption);
        ("access_token", VStr accessToken);
        ("media_type", VStr "REELS");
        ("video_url", VStr (default "" (mediaUrl content)))]
  else if present (mediaUrl content) then
    Ok [("caption", VStr caption);
        ("access_token", VStr accessToken);
        ("image_url", VStr (default "" (mediaUrl content)))]
  else Throw (PlatformError platform (VStr media_required) VUndef).

Definition publishContent (E : env) (accessToken : string) (content : PlatformContent)
  : M PublishResult :=
  (* Get IG account ID *)
  account ← getAccount E accessToken;
  let igId := platformAccountId account in
  (* Step 1: Create media container *)
  params ← lift (containerParams accessToken content);
  id ← lift (to_string E igId);
  containerData ← fetch E (http_post (META_API_BASE +:+ "/" +:+ id +:+ "/media") params);
  err ← lift (get containerData "error");
  if truthy err then throw (PlatformError platform (prop err "message") VUndef)
  else
    let containerId := prop containerData "id" in
    (* Step 2: Publish the container *)
    id ← lift (to_string E igId);
    publishData ← fetch E (http_post (META_API_BASE +:+ "/" +:+ id +:+ "/media_publish")
                             [("creation_id", containerId);
                              ("access_token", VStr accessToken)]);
    err ← lift (get publishData "error");
    if truthy err then throw (PlatformError platform (prop err "message") VUndef)
    else
      shortcode ← lift (to_string E (prop publishData "id"));
      mret {| platformPostId := prop publishData "id";
              platformPostUrl := "https://www.instagram.com/p/" +:+ shortcode |}.

(** The plain object [metrics]: its own properties, and the payload value a
    row named [__proto__] has installed as its prototype, if any; without
    one the prototype is [Object.prototype]. *)
Record plain_object := {
  own : gmap string value;
  proto : option value
}.

Definition empty_object : plain_object := {| own := ∅; proto := None |}.

(** [metrics.k], for a name [k] that [Object.prototype] and
    [Array.prototype] do not define: the own property, or else the one of
    the installed prototype. *)
Definition read (metrics : plain_object) (k : string) : value :=
  match own metrics !! k with
  | Some v => v
  | None =>
      match proto metrics with
      | Some p => prop p k
      | None => VUndef
      end
  end.

(** An assignment to the key [__proto__] finds a data property of that name
    before it reaches the accessor of [Object.prototype]: on [metrics]
    itself, or on an installed prototype that came from JSON with such a
    key. *)
Definition proto_shadowed (metrics : plain_object) : bool :=
  match own metrics !! "__proto__" with
  | Some _ => true
  | None =>
      match proto metrics with
      | Some (VObj fs) => has_key "__proto__" fs
      | _ => false
      end
  end.

(** [metrics[key] = v].  The accessor [__proto__] of [Object.prototype]
    installs an object as the prototype of [metrics] and ignores any other
    value; every other assignment makes an own property. *)
Definition assign (metrics : plain_object) (key : string) (v : value) : plain_object :=
  if String.eqb key "__proto__" && negb (proto_shadowed metrics) then
    match v with
    | VArr _ | VObj _ => {| own := own metrics; proto := Some v |}
    | _ => metrics
    end
  else {| own := <[key := v]> (own metrics); proto := proto metrics |}.

(** One turn of [for (const item of data.data ?? [])]. *)
Definition record_metric (E : env) (metrics : plain_object) (item : value)
  : outcome plain_object :=
  name ← get item "name";
  key ← to_string E name;
  Ok (assign metrics key (opt_index (prop item "values") 0 ?. "value" ?? zero)).

Definition collect_metrics (E : env) : list value -> plain_object -> outcome (plain_object) :=
  fix collect (items : list value) (metrics : plain_object) : outcome (plain_object) :=
    match items with
    | [] => Ok metrics
    | item :: rest => metrics' ← record_metric E metrics item; collect rest metrics'
    end.

(** [metrics.k ?? 0] *)
Definition metric (metrics : plain_object) (k : string) : value :=
  read metrics k ?? zero.

Definition insights_url (accessToken postId : string) : string :=
  META_API_BASE +:+ "/" +:+ postId
  +:+ "/insights?metric=impressions,reach,likes,comments,shares,saved&access_token="
  +:+ accessToken.

Definition getPostMetrics (E : env) (accessToken postId : string) : M PostMetrics :=
  data ← fetch E (http_get (insights_url accessToken postId));
  rows ← lift (get data "data");
  items ← lift (iterate (rows ?? VArr []));
  metrics ← lift (collect_metrics E items empty_object);
  mret {| views := metric metrics "impressions";
          likes := metric metrics "likes";
          comments := metric metrics "comments";
          shares := metric metrics "shares";
          saves := metric metrics "saved";
          watchTimeSeconds := zero;
          avgWatchPercent := zero;
          reachUnique := metric metrics "reach";
          impressions := metric metrics "impressions";
          engagementRate := 0%float |}.

Definition getAccountMetrics (E : env) (accessToken accountId : string) : M AccountMetrics :=
  data ← fetch E (http_get (META_API_BASE +:+ "/" +:+ accountId
                              +:+ "?fields=followers_count,media_count&access_token="
                              +:+ accessToken));
  count ← lift (get data "followers_count");
  mret {| followers := count ?? zero;
          followersGrowth := zero;
          totalViews := zero;
          totalWatchMinutes := zero;
          avgEngagementRate := zero |}.

End Instagram.

(** ** Vocabulary of the statements *)

(** [payload] is the provider's reply to the last request of a run that ended
    in [w']. *)
Definition last_reply (E : env) (w' : world) (payload : value) : Prop :=
  exists seen req, trace w' = (seen ++ [req])%list /\ net E seen req = Json payload.

(** What the social block leaves in [likes], [comments] and [shares] when
    its last request is answered by [r]. *)
Definition counts_of (r : reply) : value * value * value :=
  match r with
  | Rejected _ => Facebook.no_social
  | Json socialData =>
      if nullish socialData then Facebook.no_social
      else if truthy (prop socialData "error") then Facebook.no_social
      else Facebook.social_counts socialData
  end.

(** [likes + comments + shares] *)
Definition interactions (E : env) (counts : value * value * value) : outcome value :=
  let '(likes, comments, shares) := counts in
  sum ← js_add E likes comments;
  js_add E sum shares.

(** [v] is a primitive value. *)
Definition primitive (v : value) : bool :=
  match v with
  | VArr _ | VObj _ => false
  | _ => true
  end.

(** [totalInteractions > 0], for the primitive the additions leave. *)
Definition positive (E : env) (total : value) : bool := (0 <? to_number E total)%float.

(** The record [summarise] builds around the sum [total] of the counts. *)
Definition summary_record (E : env) (impressions reach engagedUsers : float)
    (likes comments shares total : value) : PostMetrics :=
  let impressions' :=
    if (impressions =? 0)%float && positive E total then total else VNum impressions in
  {| views := impressions';
     likes := likes;
     comments := comments;
     shares := shares;
     saves := zero;
     watchTimeSeconds := zero;
     avgWatchPercent := zero;
     reachUnique := VNum reach;
     impressions := impressions';
     engagementRate := if (0 <? reach)%float then engagement engagedUsers reach
                       else 0%float |}.

(** [content] with its [mediaUrl] left out. *)
Definition without_media (content : PlatformContent) : PlatformContent :=
  {| caption := caption content;
     hashtags := hashtags content;
     mediaUrl := None;
     mediaType := mediaType content;
     accountId := accountId content |}.

(** The text post of [content] on the feed of its target. *)
Definition feed_post (accessToken : string) (content : PlatformContent) : request :=
  http_post (META_API_BASE +:+ "/" +:+ default "me" (accountId content) +:+ "/feed")
    [("message", VStr (render_caption content));
     ("access_token", VStr accessToken)].

(** The page [getAccount] of the Instagram adapter settles on: the first one
    with an [instagram_business_account]. *)
Definition has_business (page : value) : bool :=
  truthy (prop page "instagram_business_account").

(** A sub-query fails: the request is rejected, or its payload carries an
    error. *)
Definition failed (r : reply) : Prop :=
  match r with
  | Rejected _ => True
  | Json payload => truthy (prop payload "error") = true
  end.

(** The record of a post about which nothing could be fetched. *)
Definition no_metrics : PostMetrics :=
  {| views := zero; likes := zero; comments := zero; shares := zero; saves := zero;
     watchTimeSeconds := zero; avgWatchPercent := zero; reachUnique := zero;
     impressions := zero; engagementRate := 0%float |}.

Definition account_metrics (count : value) : AccountMetrics :=
  {| followers := count; followersGrowth := zero; totalViews := zero;
     totalWatchMinutes := zero; avgEngagementRate := zero |}.

(** A request to the Graph API: its URL starts with [META_API_BASE]. *)
Definition graph_request (r : request) : Prop :=
  String.prefix META_API_BASE (req_url r) = true.

(** Whatever the provider answers and however the computation ends, [m]
    adds at most [n] requests to the trace, all of them to the Graph API. *)
Definition issues {A} (n : nat) (m : M A) : Prop :=
  forall w, exists reqs,
    trace (snd (m w)) = (trace w ++ reqs)%list /\
    (length reqs <= n)%nat /\
    Forall graph_request reqs.

(** [E] with other application credentials in [process.env]. *)
Definition with_credentials (E : env) (id secret : option string) : env :=
  {| META_APP_ID := id;
     META_APP_SECRET := secret;
     Date_now := Date_now E;
     randomBytes16 := randomBytes16 E;
     net := net E;
     StringToNumber := StringToNumber E;
     NumberToString := NumberToString E |}.

(** [content] with other hashtags. *)
Definition with_hashtags (content : PlatformContent) (tags : list string) : PlatformContent :=
  {| caption := caption content;
     hashtags := tags;
     mediaUrl := mediaUrl content;
     mediaType := mediaType content;
     accountId := accountId content |}.

(** The reply names a field the node does not have: it is a payload whose
    [error.message] is a string in which "nonexisting field" occurs, or an
    array that holds that very string. *)
Definition names_nonexisting_field (r : reply) : bool :=
  match r with
  | Json payload =>
      match prop (prop payload "error") "message" with
      | VStr msg => string_includes "nonexisting field" msg
      | VArr l => existsb (value_is_string "nonexisting field") l
      | _ => false
      end
  | Rejected _ => false
  end.

(** [v] converts to a string. *)
Definition printable (E : env) (v : value) : bool :=
  match to_string E v with
  | Ok _ => true
  | Throw _ => false
  end.

(** The characters a component encoded by [encodeURIComponent] is made of. *)
Definition uri_safe (c : ascii) : bool := uri_unreserved c || Ascii.eqb c "%".

(** The row of an insights reply is named [k]. *)
Definition row_named (E : env) (k : string) (item : value) : bool :=
  match to_string E (prop item "name") with
  | Ok s => String.eqb s k
  | Throw _ => false
  end.

(** The name of a row has a string form, and it is not [__proto__]. *)
Definition plainly_named (E : env) (item : value) : bool :=
  match to_string E (prop item "name") with
  | Ok s => negb (String.eqb s "__proto__")
  | Throw _ => false
  end.

(** The figure the Instagram adapter reads off a row. *)
Definition row_value (item : value) : value :=
  opt_index (prop item "values") 0 ?. "value" ?? zero.

(** The figure the Facebook adapter reads off a row, if it reads one. *)
Definition row_figure (item : value) : option float :=
  match opt_index (prop item "values") 0 ?. "value" with
  | VNum n => Some n
  | VArr l => Some (Facebook.sum_numbers l)
  | VObj fs => Some (Facebook.sum_numbers (map snd fs))
  | _ => None
  end.

Definition has_figure (item : value) : bool :=
  match row_figure item with
  | Some _ => true
  | None => false
  end.

(** The last row named [k] that satisfies [p]. *)
Definition last_row (E : env) (p : value -> bool) (k : string) (items : list value)
  : option value :=
  find (fun item => row_named E k item && p item) (rev items).

(** The value of a lower-case hexadecimal digit, and the byte two of them
    spell. *)
Definition unhex_digit (c : ascii) : N :=
  let n := N_of_ascii c in
  (if n <? 58 then n - 48 else n - 87)%N.

Definition unhex_byte (s : string) : option byte :=
  match s with
  | String hi (String lo EmptyString) => Byte.of_N (16 * unhex_digit hi + unhex_digit lo)
  | _ => None
  end.

(** ** The number conversions of the runtime *)

(** [Number::toString(x)] in radix 10 *)

Definition ceil_div (n d : Z) : Z := - ((- n) / d).

(** [b * 2^e2 / 10^p] as a fraction. *)
Definition scaled_num (b e2 p : Z) : Z := b * 2 ^ Z.max e2 0 * 10 ^ Z.max (- p) 0.
Definition scaled_den (e2 p : Z) : Z := 2 ^ Z.max (- e2) 0 * 10 ^ Z.max p 0.

(** The shortest decimal [s * 10^p] that rounds to the double [m * 2^e],
    and among the shortest the closest to it: the search goes down from an
    exponent [p] that is too large to the first one at which an integer [s]
    falls between the midpoints to the neighbouring doubles. *)
Fixpoint shortest_decimal (fuel : nat) (m e p : Z) : Z * Z :=
  match fuel with
  | O => (0, 0)
  | S fuel' =>
      let narrow := (m =? 2 ^ 52) && (-1074 <? e) in
      let d := scaled_den (e - 2) p in
      let lo := scaled_num (if narrow then 4 * m - 1 else 4 * m - 2) (e - 2) p in
      let hi := scaled_num (4 * m + 2) (e - 2) p in
      let v := scaled_num (4 * m) (e - 2) p in
      let s_min := if Z.even m then ceil_div lo d else lo / d + 1 in
      let s_max := if Z.even m then hi / d else ceil_div hi d - 1 in
      if s_min <=? s_max then
        let f := v / d in
        let c := if v mod d =? 0 then f else f + 1 in
        let within t := (s_min <=? t) && (t <=? s_max) in
        let s :=
          if within f && within c then
            if v - f * d <? c * d - v then f
            else if c * d - v <? v - f * d then c
            else if Z.even f then f else c
          else if within f then f else c in
        (s, p)
      else shortest_decimal fuel' m e (p - 1)
  end.

Fixpoint zeros (n : nat) : string :=
  match n with
  | O => ""
  | S n' => String "0" (zeros n')
  end.

(** The notation of [s * 10^(n - k)], [k] the number of digits of [s]. *)
Definition decimal_notation (s n : Z) : string :=
  let digits := pretty s in
  let k := Z.of_nat (String.length digits) in
  if (k <=? n) && (n <=? 21) then digits +:+ zeros (Z.to_nat (n - k))
  else if (0 <? n) && (n <=? 21) then
    String.substring 0 (Z.to_nat n) digits +:+ "."
    +:+ String.substring (Z.to_nat n) (Z.to_nat (k - n)) digits
  else if (-6 <? n) && (n <=? 0) then "0." +:+ zeros (Z.to_nat (- n)) +:+ digits
  else
    let exponent := (if n - 1 <? 0 then "-" else "+") +:+ pretty (Z.abs (n - 1)) in
    if k =? 1 then digits +:+ "e" +:+ exponent
    else String.substring 0 1 digits +:+ "."
         +:+ String.substring 1 (Z.to_nat (k - 1)) digits +:+ "e" +:+ exponent.

Definition number_to_string (x : float) : string :=
  match Prim2SF x with
  | S754_nan => "NaN"
  | S754_zero _ => "0"
  | S754_infinity s => if s then "-Infinity" else "Infinity"
  | S754_finite sign m e =>
      let start := (Z.log2 (Z.pos m) + e + 1) * 30103 / 100000 + 2 in
      let '(s, p) := shortest_decimal 400 (Z.pos m) e start in
      (if sign then "-" else "")
      +:+ decimal_notation s (p + Z.of_nat (String.length (pretty s)))
  end.

Fixpoint span (p : ascii -> bool) (s : string) : string * string :=
  match s with
  | EmptyString => (EmptyString, EmptyString)
  | String c rest =>
      if p c then let '(a, b) := span p rest in (String c a, b)
      else (EmptyString, s)
  end.

Definition code_between (lo hi : N) (c : ascii) : bool :=
  let n := N_of_ascii c in ((lo <=? n) && (n <=? hi))%N.

Definition is_decimal_digit : ascii -> bool := code_between 48 57.

Definition is_hex_digit (c : ascii) : bool :=
  code_between 48 57 c || code_between 97 102 c || code_between 65 70 c.

Definition digit_value (c : ascii) : Z :=
  let n := Z.of_N (N_of_ascii c) in
  if code_between 48 57 c then n - 48
  else if code_between 97 102 c then n - 87
  else n - 55.

(** The integer a string of digits denotes in [base]. *)
Definition digits_value (base : Z) (s : string) : Z :=
  fold_left (fun acc c => acc * base + digit_value c) (list_ascii_of_string s) 0.

Definition utf8 (bytes : list N) : string :=
  string_of_list_ascii (map ascii_of_N bytes).

(** [WhiteSpace] and [LineTerminator]: TAB, LF, VT, FF, CR, SP, NBSP, the
    space separators U+1680, U+2000 to U+200A, U+202F, U+205F, U+3000, the
    separators U+2028 and U+2029, and U+FEFF. *)
Definition white_space (c : string) : bool :=
  existsb (String.eqb c)
    (map utf8 [[9]; [10]; [11]; [12]; [13]; [32]; [194; 160]; [225; 154; 128];
               [226; 128; 128]; [226; 128; 129]; [226; 128; 130]; [226; 128; 131];
               [226; 128; 132]; [226; 128; 133]; [226; 128; 134]; [226; 128; 135];
               [226; 128; 136]; [226; 128; 137]; [226; 128; 138]; [226; 128; 168];
               [226; 128; 169]; [226; 128; 175]; [226; 129; 159]; [227; 128; 128];
               [239; 187; 191]]%N).

Fixpoint drop_while {A} (p : A -> bool) (l : list A) : list A :=
  match l with
  | [] => []
  | x :: rest => if p x then drop_while p rest else l
  end.

Definition trim (s : string) : string :=
  String.concat ""
    (rev (drop_while white_space (rev (drop_while white_space (characters s))))).

(** The double nearest to [num / den], ties to even, for positive [num]
    and [den]. *)
Definition nearest_double (negative : bool) (num den : Z) : float :=
  let b := Z.log2 num - Z.log2 den in
  let scale e := (num * 2 ^ Z.max (- e) 0, den * 2 ^ Z.max e 0) in
  let e0 := Z.max (b - 52) (-1074) in
  let e := if fst (scale e0) / snd (scale e0) <? 2 ^ 52
           then Z.max (e0 - 1) (-1074) else e0 in
  let '(n, d) := scale e in
  let q := n / d in
  let r := n mod d in
  let m := if (d <? 2 * r) || ((2 * r =? d) && Z.odd q) then q + 1 else q in
  let magnitude :=
    if m =? 0 then 0%float
    else if 1024 <=? Z.log2 m + e then infinity
    else SF2Prim (S754_finite false (Z.to_pos m) e) in
  if negative then (- magnitude)%float else magnitude.

(** The double nearest to [n * 10^q], for a natural [n]. *)
Definition decimal_value (negative : bool) (n q : Z) : float :=
  if n =? 0 then (if negative then (-0)%float else 0%float)
  else if 400 <? q then (if negative then neg_infinity else infinity)
  else if q + (Z.log2 n + 1) / 3 + 1 <? -330
       then (if negative then (-0)%float else 0%float)
  else nearest_double negative (n * 10 ^ Z.max q 0) (10 ^ Z.max (- q) 0).

(** [ExponentPart], if [s] is one: the exponent it denotes. *)
Definition exponent_part (s : string) : option Z :=
  match s with
  | EmptyString => Some 0
  | String c rest =>
      if Ascii.eqb c "e" || Ascii.eqb c "E" then
        let '(negative, digits) :=
          match rest with
          | String "+" digits => (false, digits)
          | String "-" digits => (true, digits)
          | _ => (false, rest)
          end in
        let '(ds, tail) := span is_decimal_digit digits in
        match ds, tail with
        | String _ _, EmptyString =>
            Some (if negative then - digits_value 10 ds else digits_value 10 ds)
        | _, _ => None
        end
      else None
  end.

(** [StrUnsignedDecimalLiteral] *)
Definition unsigned_decimal (negative : bool) (s : string) : float :=
  if String.eqb s "Infinity" then (if negative then neg_infinity else infinity)
  else
    let '(whole, after) := span is_decimal_digit s in
    let '(fraction, tail) :=
      match after with
      | String "." rest => span is_decimal_digit rest
      | _ => (EmptyString, after)
      end in
    match whole +:+ fraction, exponent_part tail with
    | String _ _ as digits, Some e =>
        decimal_value negative (digits_value 10 digits)
          (e - Z.of_nat (String.length fraction))
    | _, _ => nan
    end.

(** [NonDecimalIntegerLiteral] without its prefix. *)
Definition non_decimal (base : Z) (digit : ascii -> bool) (s : string) : float :=
  match span digit s with
  | (String _ _ as digits, EmptyString) => decimal_value false (digits_value base digits) 0
  | _ => nan
  end.

(** [StringToNumber(s)] *)
Definition string_to_number (s : string) : float :=
  match trim s with
  | EmptyString => 0%float
  | String "0" (String "x" digits) | String "0" (String "X" digits) =>
      non_decimal 16 is_hex_digit digits
  | String "0" (String "o" digits) | String "0" (String "O" digits) =>
      non_decimal 8 (code_between 48 55) digits
  | String "0" (String "b" digits) | String "0" (String "B" digits) =>
      non_decimal 2 (code_between 48 49) digits
  | String "+" rest => unsigned_decimal false rest
  | String "-" rest => unsigned_decimal true rest
  | t => unsigned_decimal false t
  end.

(** ** Sample processes *)

(** The provider that answers the n-th request of a call with the n-th reply
    of a script, and stops answering after it. *)
Definition scripted (replies : list reply) : provider :=
  fun seen _ => nth (length seen) replies (Rejected "offline").

(** The provider that gives every request the same reply. *)
Definition constant (r : reply) : provider := fun _ _ => r.

Definition sample_bytes : list byte :=
  [x00; x11; x22; x33; x44; x55; x66; x77; x88; x99; xaa; xbb; xcc; xdd; xee; xff]%byte.

(** A runtime with both credentials, a fixed clock and fixed entropy. *)
Definition node (p : provider) : env :=
  {| META_APP_ID := Some "app";
     META_APP_SECRET := Some "secret";
     Date_now := 1700000000000;
     randomBytes16 := sample_bytes;
     net := p;
     StringToNumber := string_to_number;
     NumberToString := number_to_string |}.

(** Payloads of the token endpoint. *)
Definition short_lived : value :=
  VObj [("access_token", VStr "short-lived"); ("token_type", VStr "bearer")].

Definition long_lived : value :=
  VObj [("access_token", VStr "long-lived"); ("token_type", VStr "bearer");
        ("expires_in", VNum 5183944)].

Definition no_expiry_hint : value :=
  VObj [("access_token", VStr "long-lived"); ("token_type", VStr "bearer")].

Definition expires_now : value :=
  VObj [("access_token", VStr "long-lived"); ("expires_in", VNum 0)].

Definition oauth_error : value :=
  VObj [("error",
         VObj [("message", VStr "Invalid OAuth access token.");
               ("type", VStr "OAuthException");
               ("code", VNum 190)])].

(** Payloads of [/me/accounts] and [/me]. *)
Definition bakery_page : value :=
  VObj [("id", VStr "1001"); ("name", VStr "Lagos Bakery");
        ("access_token", VStr "page-token")].

Definition studio_page : value :=
  VObj [("id", VStr "1002"); ("name", VStr "Lagos Studio");
        ("instagram_business_account",
         VObj [("id", VStr "17841400000000000"); ("username", VStr "lagosstudio")])].

Definition pages_of (pages : list value) : value := VObj [("data", VArr pages)].

Definition text_only : PlatformContent :=
  {| caption := "Hello"; hashtags := ["launch"];
     mediaUrl := None; mediaType := None; accountId := None |}.

(** Payloads of the insights and node-fields endpoints. *)
Definition insight (name : string) (v : value) : value :=
  VObj [("name", VStr name); ("period", VStr "lifetime");
        ("values", VArr [VObj [("value", v)]])].

Definition post_insights (impressions reach engaged : float) : value :=
  VObj [("data",
         VArr [insight "post_impressions" (VNum impressions);
               insight "post_impressions_unique" (VNum reach);
               insight "post_engaged_users" (VNum engaged)])].

Definition media_insights (impressions reach : float) : value :=
  VObj [("data",
         VArr [insight "impressions" (VNum impressions);
               insight "reach" (VNum reach);
               insight "likes" (VNum 12)])].

Definition summary (n : value) : value :=
  VObj [("data", VArr []); ("summary", VObj [("total_count", n)])].

Definition post_counts (reactions comments : float) : value :=
  VObj [("reactions", summary (VNum reactions)); ("comments", summary (VNum comments));
        ("id", VStr "1001_55")].

Definition nonexisting_field : value :=
  VObj [("error",
         VObj [("message",
                VStr "(#100) Tried accessing nonexisting field (shares) on node type (Photo)");
               ("type", VStr "OAuthException");
               ("code", VNum 100)])].

Definition gif_post : PlatformContent :=
  {| caption := "Hello"; hashtags := ["launch"; "#lagos"];
     mediaUrl := Some "https://cdn.example/clip.gif"; mediaType := Some "gif";
     accountId := Some "1001" |}.

Definition published : value := VObj [("id", VStr "1001_77")].

Definition profile_payload : value :=
  VObj [("id", VStr "42"); ("name", VStr "Ada")].

Definition breakdown_insights : value :=
  VObj [("data",
         VArr [insight "post_impressions"
                 (VObj [("paid", VNum 40); ("organic", VNum 60);
                        ("note", VStr "partial")]);
               insight "post_impressions_unique" (VNum 50)])].

Definition rows_of (rows : list value) : value := VObj [("data", VArr rows)].

Definition fans_only : value := VObj [("fan_count", VNum 340); ("id", VStr "1001")].

Definition reel : PlatformContent :=
  {| caption := "Hello"; hashtags := ["launch"];
     mediaUrl := Some "https://cdn.example/clip.mp4"; mediaType := Some "video";
     accountId := None |}.

Definition spoiled_rows : list value :=
  [insight "post_impressions" (VNum 120); VNull].

(** A payload value that no conversion to a primitive accepts: an object
    with an own [toString] key. *)
Definition unprintable : value := VObj [("toString", VNum 1)].

(** * Properties *)

(** ** Sample runs *)

Example caption_hashtags :
  render_caption {| caption := "Hello"; hashtags := ["foo"; "#bar"];
                    mediaUrl := None; mediaType := None; accountId := None |}
  = "Hello" +:+ String "010" (String "010" "#foo #bar").
Proof. reflexivity. Qed.

Example authorize_url :
  fst (Facebook.getAuthUrl (node (scripted [])) "user-42" "https://app/cb" start)
  = Ok {| url :=
            "https://www.facebook.com/v21.0/dialog/oauth?client_id=app"
            +:+ "&redirect_uri=https%3A%2F%2Fapp%2Fcb"
            +:+ "&state=00112233445566778899aabbccddeeff:user-42"
            +:+ "&scope=public_profile,pages_show_list,pages_read_engagement,pages_manage_posts"
            +:+ "&response_type=code";
          state := "00112233445566778899aabbccddeeff:user-42" |}.
Proof. vm_compute. reflexivity. Qed.

Example unconfigured :
  fst (Instagram.getAuthUrl
         (with_credentials (node (scripted [])) None (Some "secret"))
         "user-42" "https://app/cb" start)
  = Throw (PlatformError "instagram" (VStr "META_APP_ID no configurado") VUndef).
Proof. reflexivity. Qed.

Example callback_long_lived :
  Facebook.handleCallback (node (scripted [Json short_lived; Json long_lived]))
    "code" "https://app/cb" start
  = (Ok {| accessToken := VStr "long-lived";
           expiresAt := 1705183944000;
           scopes := ["pages_manage_posts"; "pages_read_engagement"; "read_insights"] |},
     {| trace :=
          [http_get (code_url "app" "secret" "https://app/cb" "code");
           http_get (exchange_url "app" "secret" "short-lived")];
        console := [] |}).
Proof. vm_compute. reflexivity. Qed.

Example profile_fallback :
  fst (Facebook.getAccount (node (scripted [Json (pages_of []); Json profile_payload]))
         "token" start)
  = Ok {| platformAccountId := VStr "42";
          accountName := VStr "Ada (perfil)";
          accountType := "profile";
          avatarUrl := VUndef;
          pageAccessToken := VUndef |}.
Proof. vm_compute. reflexivity. Qed.

(** A post id without "_" is not a page post: the insights query is skipped
    and the social query asks for no shares. *)
Example photo_skips_insights :
  trace (snd (Facebook.getPostMetrics (node (scripted [Json (post_counts 5 2)]))
                "token" "55" start))
  = [http_get (Facebook.social_url "token" "55" Facebook.fieldsNoShares)].
Proof. vm_compute. reflexivity. Qed.

(** A breakdown map is summed over its numeric entries. *)
Example breakdown_summed :
  fst (Facebook.insights (node (scripted [Json breakdown_insights])) "token" "1001_55" start)
  = Ok (100, 50, 0)%float.
Proof. vm_compute. reflexivity. Qed.

Example two_phase_publish :
  Instagram.publishContent
    (node (scripted [Json (pages_of [studio_page]);
                     Json (VObj [("id", VStr "container-1")]);
                     Json (VObj [("id", VStr "18000000000000000")])]))
    "token"
    {| caption := "Hello"; hashtags := ["launch"];
       mediaUrl := Some "https://cdn.example/clip.mp4"; mediaType := Some "video";
       accountId := None |} start
  = (Ok {| platformPostId := VStr "18000000000000000";
           platformPostUrl := "https://www.instagram.com/p/18000000000000000" |},
     {| trace :=
          [http_get (Instagram.pages_url "token");
           http_post "https://graph.facebook.com/v21.0/17841400000000000/media"
             [("caption", VStr ("Hello" +:+ String "010" (String "010" "#launch")));
              ("access_token", VStr "token");
              ("media_type", VStr "REELS");
              ("video_url", VStr "https://cdn.example/clip.mp4")];
           http_post "https://graph.facebook.com/v21.0/17841400000000000/media_publish"
             [("creation_id", VStr "container-1"); ("access_token", VStr "token")]];
        console := [] |}).
Proof. vm_compute. reflexivity. Qed.

(** The conversions raise where JavaScript does: an object with an own
    [toString] key has no string form, alone or inside an array, and cannot
    be added or multiplied. *)
Example unprintable_conversions :
  to_string (node (scripted [])) unprintable = Throw TypeError /\
  to_string (node (scripted [])) (VArr [VNum 1; VArr [unprintable]]) = Throw TypeError /\
  to_string (node (scripted [])) (VArr [VNum 1; VNull; VArr [VStr "a"; VObj []]])
  = Ok "1,,a,[object Object]" /\
  js_add (node (scripted [])) (VNum 1) unprintable = Throw TypeError /\
  js_mul (node (scripted [])) unprintable 1000 = Throw TypeError.
Proof. repeat split; vm_compute; reflexivity. Qed.

(** Numbers are doubles: sums round beyond [2^53], the rate of 7 engaged
    users over a reach of 100 is not 7, and [new Date] clips. *)
Example double_arithmetic :
  js_add (node (scripted [])) (VNum 9007199254740992) (VNum 1) = Ok (VNum 9007199254740992) /\
  engagement 7 100 = 0x1.c000000000001p+2%float /\
  (7 <? engagement 7 100)%float = true /\
  time_clip 1700000000000 = 1700000000000%float /\
  time_clip 0x1.8bcfe568008p+40 = 1700000000000%float /\
  time_clip (-1.5) = (-1)%float /\
  time_clip 8640000000000001 = nan.
Proof. repeat split; vm_compute; reflexivity. Qed.

(** A short-lived token with no string form stops [handleCallback] at the
    template literal of the second URL, after one request. *)
Example unprintable_token :
  Facebook.handleCallback
    (node (scripted [Json (VObj [("access_token", unprintable)]); Json long_lived]))
    "code" "https://app/cb" start
  = (Throw TypeError,
     {| trace := [http_get (code_url "app" "secret" "https://app/cb" "code")];
        console := [] |}).
Proof. vm_compute. reflexivity. Qed.

(** An [expires_in] beyond the range of [Date] gives an invalid date. *)
Example invalid_date :
  fst (Facebook.refreshToken
         (node (scripted [Json (VObj [("access_token", VStr "long-lived");
                                      ("expires_in", VNum 9007199254740)])]))
         "long-lived" start)
  = Ok {| accessToken := VStr "long-lived";
          expiresAt := nan;
          scopes := ["pages_manage_posts"; "pages_read_engagement"] |}.
Proof. vm_compute. reflexivity. Qed.

(** A row named [__proto__] with an object value becomes the prototype of
    the Instagram [metrics] object, and its figures are read through it; the
    Facebook loop stores numbers only, which the same key ignores. *)
Example prototype_row :
  (exists m,
     fst (Instagram.getPostMetrics
            (node (scripted [Json (rows_of [insight "__proto__"
                                              (VObj [("impressions", VNum 999)])])]))
            "token" "17900000000000000" start) = Ok m /\
     views m = VNum 999 /\ likes m = zero) /\
  fst (Facebook.insights
         (node (scripted [Json (rows_of [insight "__proto__" (VNum 7);
                                         insight "post_impressions" (VNum 3)])]))
         "token" "1001_55" start)
  = Ok (3, 0, 0)%float.
Proof. split; [eexists; split; [vm_compute; reflexivity|split; reflexivity]|vm_compute; reflexivity]. Qed.

(** Counts with no string form end [getPostMetrics] of the Facebook adapter
    with the [TypeError] of the addition, after the social query. *)
Example unprintable_count :
  fst (Facebook.getPostMetrics
         (node (scripted [Json (VObj [("reactions", summary unprintable)])]))
         "token" "55" start)
  = Throw TypeError.
Proof. vm_compute. reflexivity. Qed.

(** A pages list that starts with [null] sends [getAccount] of the Facebook
    adapter to the profile, whatever follows the [null]. *)
Example null_first_page :
  Facebook.getAccount
    (node (scripted [Json (pages_of [VNull; bakery_page]); Json profile_payload]))
    "token" start
  = (Ok {| platformAccountId := VStr "42";
           accountName := VStr "Ada (perfil)";
           accountType := "profile";
           avatarUrl := VUndef;
           pageAccessToken := VUndef |},
     {| trace := [http_get (Facebook.pages_url "token");
                  http_get (Facebook.profile_url "token")];
        console := [] |}).
Proof. vm_compute. reflexivity. Qed.

(** The runtime prints a number with the fewest digits that read back as the
    same double, and reads a numeric string as the nearest double. *)
Example number_conversions :
  map number_to_string
    [0; -0; 7; -12; 0.5; 0x1.999999999999ap-4; 0x1.3333333333334p-2;
     0x1.c000000000001p+2; 18446744073709551616; 1e21; 0x1.ad7f29abcaf48p-24;
     nan; infinity; neg_infinity]%float
  = ["0"; "0"; "7"; "-12"; "0.5"; "0.1"; "0.30000000000000004";
     "7.000000000000001"; "18446744073709552000"; "1e+21"; "1e-7";
     "NaN"; "Infinity"; "-Infinity"] /\
  map string_to_number
    ["500"; " 12 "; ""; "0x1F"; "1.5e3"; ".5"; "5."; "9007199254740993"; "1e400";
     "Infinity"; "12px"; "."]
  = [500; 12; 0; 31; 1500; 0.5; 5; 9007199254740992; infinity;
     infinity; nan; nan]%float.
Proof. split; vm_compute; reflexivity. Qed.

(** A post id beyond [2^53] is printed as JavaScript prints it. *)
Example large_post_id :
  fst (Facebook.publishContent
         (node (scripted [Json (VObj [("post_id", VNum 18446744073709551616)])]))
         "page-token" text_only start)
  = Ok {| platformPostId := VNum 18446744073709551616;
          platformPostUrl := "https://www.facebook.com/18446744073709552000" |}.
Proof. vm_compute. reflexivity. Qed.

(** Counts are added as JavaScript adds them: numbers as doubles, and a
    count that is a string by concatenation, the text being read as a number
    where it is compared with 0. *)
Example untyped_counts :
  (exists m,
     fst (Facebook.getPostMetrics
            (node (scripted [Json (post_counts 9007199254740992 1)])) "token" "55" start)
     = Ok m /\ impressions m = VNum 9007199254740992) /\
  (exists m,
     fst (Facebook.getPostMetrics
            (node (scripted [Json (VObj [("reactions", summary (VStr "5"))])]))
            "token" "55" start)
     = Ok m /\ impressions m = VStr "500" /\ likes m = VStr "5").
Proof.
  split; eexists; (split; [vm_compute; reflexivity|]); [reflexivity|split; reflexivity].
Qed.

(** ** Running computations *)

Lemma bind_run {A B} (m : M A) (k : A -> M B) (w : world) :
  (m ≫= k) w = match m w with
               | (Ok a, w') => k a w'
               | (Throw e, w') => (Throw e, w')
               end.
Proof. reflexivity. Qed.

Lemma appId_configured p E w :
  present (META_APP_ID E) = true ->
  appId p E w = (Ok (default "" (META_APP_ID E)), w).
Proof. intros H. unfold appId. now rewrite H. Qed.

Lemma appSecret_configured p E w :
  present (META_APP_SECRET E) = true ->
  appSecret p E w = (Ok (default "" (META_APP_SECRET E)), w).
Proof. intros H. unfold appSecret. now rewrite H. Qed.

(** ** The anti-forgery state *)

Lemma hex_of_byte_lower b : all_chars is_lower_hex (hex_of_byte b) = true.
Proof. destruct b; reflexivity. Qed.

Lemma all_chars_app p s t :
  all_chars p (s +:+ t) = all_chars p s && all_chars p t.
Proof.
  induction s as [|c s IH]; simpl; [reflexivity|].
  rewrite IH. now rewrite andb_assoc.
Qed.

Lemma hex_lower bytes : all_chars is_lower_hex (hex bytes) = true.
Proof.
  induction bytes as [|b bytes IH]; simpl; [reflexivity|].
  rewrite all_chars_app, IH. apply hex_of_byte_lower.
Qed.

Lemma hex_length bytes : String.length (hex bytes) = (2 * length bytes)%nat.
Proof.
  induction bytes as [|b bytes IH]; [reflexivity|].
  change (String.length (hex (b :: bytes))) with (S (S (String.length (hex bytes)))).
  rewrite IH. simpl length. lia.
Qed.

Lemma lower_hex_no_colon s :
  all_chars is_lower_hex s = true -> occurs ":" s = false.
Proof.
  induction s as [|c s IH]; simpl; [reflexivity|].
  intros [Hc Hs]%andb_true_iff. rewrite (IH Hs), orb_false_r.
  destruct (Ascii.eqb c ":") eqn:Heq; [|reflexivity].
  apply Ascii.eqb_eq in Heq. subst c. discriminate Hc.
Qed.

Lemma occurs_app c s t : occurs c (s +:+ t) = occurs c s || occurs c t.
Proof.
  induction s as [|d s IH]; simpl; [reflexivity|].
  now rewrite IH, orb_assoc.
Qed.

Lemma after_first_app c s t :
  occurs c s = false -> after_first c (s +:+ String c t) = Some t.
Proof.
  induction s as [|d s IH]; simpl.
  - now rewrite Ascii.eqb_refl.
  - intros [Hd Hs]%orb_false_iff. rewrite Hd. now apply IH.
Qed.

Lemma after_last_app c s t :
  occurs c t = false -> after_last c (s +:+ String c t) = t.
Proof.
  intros Ht. induction s as [|d s IH]; simpl.
  - now rewrite Ht, Ascii.eqb_refl.
  - rewrite occurs_app. simpl. rewrite Ascii.eqb_refl, orb_true_r. exact IH.
Qed.

Lemma state_shape nonce userId :
  all_chars is_lower_hex nonce = true ->
  after_first ":" (nonce +:+ ":" +:+ userId) = Some userId /\
  (occurs ":" userId = false -> after_last ":" (nonce +:+ ":" +:+ userId) = userId).
Proof.
  intros Hn. split.
  - apply (after_first_app ":"%char). now apply lower_hex_no_colon.
  - intros Hu. now apply (after_last_app ":"%char).
Qed.

(** C3, as amended.  With the application id configured, [getAuthUrl] of
    either adapter returns the state [<hex of the 16 random bytes>:<userId>]:
    32 lower-case hexadecimal digits, a colon, the user id.  The text after
    the first colon of the state is the user id, whatever the user id is; the
    text after the last colon is the user id when the user id holds no
    colon. *)
Theorem getAuthUrl_state E userId redirectUri w :
  present (META_APP_ID E) = true ->
  length (randomBytes16 E) = 16%nat ->
  let nonce := hex (randomBytes16 E) in
  (String.length nonce = 32%nat /\ all_chars is_lower_hex nonce = true) /\
  forall run, run = Facebook.getAuthUrl \/ run = Instagram.getAuthUrl ->
    exists o, run E userId redirectUri w = (Ok o, w) /\
      state o = nonce +:+ ":" +:+ userId /\
      after_first ":" (state o) = Some userId /\
      (occurs ":" userId = false -> after_last ":" (state o) = userId).
Proof.
  intros Hid Hlen nonce. split.
  - split; [|apply hex_lower]. unfold nonce. rewrite hex_length, Hlen. reflexivity.
  - intros run Hrun.
    destruct (state_shape nonce userId (hex_lower _)) as [Hfirst Hlast].
    destruct Hrun as [-> | ->];
      [unfold Facebook.getAuthUrl | unfold Instagram.getAuthUrl];
      rewrite bind_run, appId_configured by exact Hid;
      eexists; (split; [reflexivity|]); simpl state; auto.
Qed.

Lemma getAuthUrl_state_witness :
  present (META_APP_ID (node (scripted []))) = true /\
  exists o, Instagram.getAuthUrl (node (scripted [])) "user-42" "https://app/cb" start
            = (Ok o, start) /\
            state o = "00112233445566778899aabbccddeeff:user-42" /\
            after_last ":" (state o) = "user-42".
Proof.
  split; [reflexivity|].
  destruct (getAuthUrl_state (node (scripted [])) "user-42" "https://app/cb" start
              eq_refl eq_refl) as [_ H].
  destruct (H Instagram.getAuthUrl (or_intror eq_refl)) as (o & Hrun & Hst & _ & Hlast).
  exists o. split; [exact Hrun|]. split; [exact Hst|]. apply Hlast. reflexivity.
Defined.

(** C3, as stated, fails for a user id that holds a colon: the text after
    the last colon of the state is then only the tail of the user id. *)
Lemma state_suffix_counterexample :
  exists o, Facebook.getAuthUrl (node (scripted [])) "team:7" "https://app/cb" start
            = (Ok o, start) /\
            state o = "00112233445566778899aabbccddeeff:team:7" /\
            after_last ":" (state o) = "7" /\
            after_last ":" (state o) <> "team:7".
Proof.
  eexists. split; [reflexivity|]. split; [reflexivity|]. split; [reflexivity|].
  discriminate.
Qed.

(** ** Property reads *)

Lemma truthy_not_nullish v : truthy v = true -> nullish v = false.
Proof. destruct v; simpl; congruence. Qed.

Lemma prop_not_nullish v k : nullish (prop v k) = false -> nullish v = false.
Proof. destruct v; simpl; congruence. Qed.

Lemma prop_truthy v k : truthy (prop v k) = true -> nullish v = false.
Proof. intros H. eapply prop_not_nullish, truthy_not_nullish, H. Qed.

Lemma get_defined v k : nullish v = false -> get v k = Ok (prop v k).
Proof. intros H. unfold get. now rewrite H. Qed.

Lemma fetch_json E req w v :
  net E (trace w) req = Json v ->
  fetch E req w = (Ok v, {| trace := trace w ++ [req]; console := console w |}).
Proof. intros H. unfold fetch. now rewrite H. Qed.

Lemma fetch_rejected E req w r :
  net E (trace w) req = Rejected r ->
  fetch E req w = (Throw (FetchError r), {| trace := trace w ++ [req]; console := console w |}).
Proof. intros H. unfold fetch. now rewrite H. Qed.

Lemma lift_run {A} (o : outcome A) w : lift o w = (o, w).
Proof. reflexivity. Qed.

Lemma ret_run {A} (a : A) (w : world) : (mret a : M A) w = (Ok a, w).
Proof. reflexivity. Qed.

Lemma throw_run {A} e (w : world) : (throw e : M A) w = (Throw e, w).
Proof. reflexivity. Qed.

(** One step of a run: sequencing, the configuration getters, a [fetch] whose
    reply is known, a property read of a defined value, a conversion whose
    result is known. *)
Ltac run_step :=
  first
    [ rewrite bind_run
    | match goal with
      | H : ?x = Ok _ |- context [lift ?x] => rewrite H
      | H : ?x = Throw _ |- context [lift ?x] => rewrite H
      end
    | rewrite lift_run
    | rewrite ret_run
    | rewrite throw_run
    | rewrite appId_configured by assumption
    | rewrite appSecret_configured by assumption
    | match goal with
      | H : net ?E _ ?req = Json ?v |- context [fetch ?E ?req ?w] =>
          rewrite (fetch_json E req w v H)
      | H : net ?E _ ?req = Rejected ?r |- context [fetch ?E ?req ?w] =>
          rewrite (fetch_rejected E req w r H)
      end
    | rewrite get_defined by eauto using prop_truthy, truthy_not_nullish
    | progress cbv beta iota ].

Ltac run := repeat run_step.
(** ** Token exchange *)

Section Callback.

Variable E : env.
Variables code redirectUri : string.
Variable w : world.
Hypothesis Hid : present (META_APP_ID E) = true.
Hypothesis Hsecret : present (META_APP_SECRET E) = true.

Let id := default "" (META_APP_ID E).
Let secret := default "" (META_APP_SECRET E).

(** The two requests of [handleCallback], the second for the string [token]
    the short-lived token of the first payload converts to. *)
Let first := http_get (code_url id secret redirectUri code).
Let second (token : string) := http_get (exchange_url id secret token).
Let after_first_request := {| trace := trace w ++ [first]; console := console w |}.
Let after_second_request (token : string) :=
  {| trace := (trace w ++ [first]) ++ [second token]; console := console w |}.

Ltac unlet :=
  unfold after_second_request, after_first_request, second, first, secret, id in *.

Lemma facebook_callback_first_error data :
  net E (trace w) first = Json data ->
  truthy (prop data "error") = true ->
  Facebook.handleCallback E code redirectUri w =
    (Throw (PlatformError "facebook" (prop (prop data "error") "message") (prop data "error")),
     after_first_request).
Proof.
  intros Hnet Herr. unlet. unfold Facebook.handleCallback.
  run. now rewrite Herr.
Qed.

Lemma instagram_callback_first_error data :
  net E (trace w) first = Json data ->
  truthy (prop data "error") = true ->
  Instagram.handleCallback E code redirectUri w =
    (Throw (PlatformError "instagram" (prop (prop data "error") "message") VUndef),
     after_first_request).
Proof.
  intros Hnet Herr. unlet. unfold Instagram.handleCallback.
  run. now rewrite Herr.
Qed.

Lemma callback_token_unprintable data e :
  net E (trace w) first = Json data ->
  nullish data = false ->
  truthy (prop data "error") = false ->
  to_string E (prop data "access_token") = Throw e ->
  Facebook.handleCallback E code redirectUri w = (Throw e, after_first_request) /\
  Instagram.handleCallback E code redirectUri w = (Throw e, after_first_request).
Proof.
  intros Hnet Hdata Herr Htoken. unlet.
  unfold Facebook.handleCallback, Instagram.handleCallback.
  split; run; rewrite Herr; run; reflexivity.
Qed.

Lemma facebook_callback_second data token longData :
  net E (trace w) first = Json data ->
  nullish data = false ->
  truthy (prop data "error") = false ->
  to_string E (prop data "access_token") = Ok token ->
  net E (trace w ++ [first])%list (second token) = Json longData ->
  nullish longData = false ->
  Facebook.handleCallback E code redirectUri w =
    (if truthy (prop longData "error")
     then Throw (PlatformError "facebook" (prop (prop longData "error") "message") VUndef)
     else expires ← expiry E (prop longData "expires_in");
          Ok {| accessToken := prop longData "access_token";
                expiresAt := expires;
                scopes := ["pages_manage_posts"; "pages_read_engagement"; "read_insights"] |},
     after_second_request token).
Proof.
  intros Hnet Hdata Herr Htoken Hnet2 Hlong. unlet. unfold Facebook.handleCallback.
  run. rewrite Herr. run. destruct (truthy (prop longData "error")); [reflexivity|].
  run. now destruct (expiry E (prop longData "expires_in")).
Qed.

Lemma instagram_callback_second data token longData :
  net E (trace w) first = Json data ->
  nullish data = false ->
  truthy (prop data "error") = false ->
  to_string E (prop data "access_token") = Ok token ->
  net E (trace w ++ [first])%list (second token) = Json longData ->
  nullish longData = false ->
  Instagram.handleCallback E code redirectUri w =
    (expires ← expiry E (prop longData "expires_in");
     Ok {| accessToken := prop longData "access_token" ?? prop data "access_token";
           expiresAt := expires;
           scopes := ["instagram_basic"; "instagram_content_publish";
                      "instagram_manage_insights"] |},
     after_second_request token).
Proof.
  intros Hnet Hdata Herr Htoken Hnet2 Hlong. unlet. unfold Instagram.handleCallback.
  run. rewrite Herr. run. now destruct (expiry E (prop longData "expires_in")).
Qed.

(** X25.  With the application credentials configured: an error object in
    the payload of the code exchange makes [handleCallback] of either adapter
    fail, after that one request, with a [PlatformError] tagged with the
    adapter's name and carrying the provider's message.  When that payload
    carries no error and its [access_token] converts to the string [token],
    an error object in the payload of the long-lived exchange for [token]
    makes the Facebook adapter fail in the same way, after the two requests;
    the Instagram adapter does not look at it and goes on to build a token
    pair from the error payload: its access token is the payload's
    [access_token], or else the short-lived token. *)
Theorem callback_provider_error data :
  net E (trace w) first = Json data ->
  (truthy (prop data "error") = true ->
   Facebook.handleCallback E code redirectUri w =
     (Throw (PlatformError "facebook" (prop (prop data "error") "message")
               (prop data "error")), after_first_request) /\
   Instagram.handleCallback E code redirectUri w =
     (Throw (PlatformError "instagram" (prop (prop data "error") "message") VUndef),
      after_first_request)) /\
  (nullish data = false ->
   truthy (prop data "error") = false ->
   forall token longData,
     to_string E (prop data "access_token") = Ok token ->
     net E (trace w ++ [first])%list (second token) = Json longData ->
     truthy (prop longData "error") = true ->
     Facebook.handleCallback E code redirectUri w =
       (Throw (PlatformError "facebook" (prop (prop longData "error") "message") VUndef),
        after_second_request token) /\
     Instagram.handleCallback E code redirectUri w =
       (expires ← expiry E (prop longData "expires_in");
        Ok {| accessToken := prop longData "access_token" ?? prop data "access_token";
              expiresAt := expires;
              scopes := ["instagram_basic"; "instagram_content_publish";
                         "instagram_manage_insights"] |},
        after_second_request token)).
Proof.
  intros Hnet. split.
  - intros Herr. split.
    + now apply facebook_callback_first_error.
    + now apply instagram_callback_first_error.
  - intros Hdata Herr token longData Htoken Hnet2 Hlong.
    pose proof (prop_truthy _ _ Hlong) as Hdefined. split.
    + rewrite (facebook_callback_second data token longData) by assumption.
      now rewrite Hlong.
    + now apply instagram_callback_second.
Qed.

End Callback.

Lemma callback_provider_error_witness :
  net (node (scripted [Json short_lived; Json oauth_error])) []
    (http_get (code_url "app" "secret" "https://app/cb" "code")) = Json short_lived /\
  fst (Facebook.handleCallback (node (scripted [Json short_lived; Json oauth_error]))
         "code" "https://app/cb" start)
  = Throw (PlatformError "facebook" (VStr "Invalid OAuth access token.") VUndef).
Proof.
  split; [reflexivity|].
  destruct (callback_provider_error
              (node (scripted [Json short_lived; Json oauth_error]))
              "code" "https://app/cb" start eq_refl eq_refl short_lived eq_refl)
    as [_ H].
  destruct (H eq_refl eq_refl "short-lived" oauth_error eq_refl eq_refl eq_refl) as [HF _].
  rewrite HF. reflexivity.
Defined.

(** C1.  The code departs from the claim on the Instagram adapter.  The
    provider answers the code exchange with a short-lived token and the
    long-lived exchange with an error object: [handleCallback] of the
    Instagram adapter returns, after both requests, a token pair built on the
    short-lived token with the default expiry of 60 days, where
    [handleCallback] of the Facebook adapter, given the same replies, fails
    with the provider's message tagged "facebook", and [refreshToken] of the
    Instagram adapter itself, given the same error object, fails with it
    tagged "instagram". *)
Theorem instagram_callback_unchecked :
  Instagram.handleCallback (node (scripted [Json short_lived; Json oauth_error]))
    "code" "https://app/cb" start
  = (Ok {| accessToken := VStr "short-lived";
           expiresAt := 1705184000000;
           scopes := ["instagram_basic"; "instagram_content_publish";
                      "instagram_manage_insights"] |},
     {| trace :=
          [http_get (code_url "app" "secret" "https://app/cb" "code");
           http_get (exchange_url "app" "secret" "short-lived")];
        console := [] |}) /\
  fst (Facebook.handleCallback (node (scripted [Json short_lived; Json oauth_error]))
         "code" "https://app/cb" start)
  = Throw (PlatformError "facebook" (VStr "Invalid OAuth access token.") VUndef) /\
  fst (Instagram.refreshToken (node (scripted [Json oauth_error])) "short-lived" start)
  = Throw (PlatformError "instagram" (VStr "Invalid OAuth access token.") VUndef).
Proof. repeat split; vm_compute; reflexivity. Qed.

(** Inversion of a run that is known to have ended: unfold the plumbing, then
    split on the configuration, the replies, the conversions and the tests of
    the source. *)
Ltac unfold_run H :=
  unfold appId, appSecret, fetch in H;
  unfold mbind, M_bind, mret, M_ret, lift, throw, get in H;
  cbn [trace console] in H.

Ltac split_run H :=
  repeat (cbn [trace console] in H;
          match type of H with
          | context [if ?b then _ else _] => destruct b eqn:?; try discriminate H
          | context [match net ?E ?t ?r with _ => _ end] =>
              destruct (net E t r) eqn:?; try discriminate H
          | context [match to_string ?E ?v with _ => _ end] =>
              destruct (to_string E v) eqn:?; try discriminate H
          | context [match expiry ?E ?v with _ => _ end] =>
              destruct (expiry E v) eqn:?; try discriminate H
          end).

Ltac last_reply_found :=
  eexists; split; [eexists _, _; split; [reflexivity|eassumption] | eassumption].

Lemma facebook_handleCallback_ok E code redirectUri w tp w' :
  Facebook.handleCallback E code redirectUri w = (Ok tp, w') ->
  exists longData, last_reply E w' longData /\
    expiry E (prop longData "expires_in") = Ok (expiresAt tp).
Proof.
  intros H. unfold Facebook.handleCallback in H. unfold_run H. split_run H.
  injection H as <- <-. last_reply_found.
Qed.

Lemma instagram_handleCallback_ok E code redirectUri w tp w' :
  Instagram.handleCallback E code redirectUri w = (Ok tp, w') ->
  exists longData, last_reply E w' longData /\
    expiry E (prop longData "expires_in") = Ok (expiresAt tp).
Proof.
  intros H. unfold Instagram.handleCallback in H. unfold_run H. split_run H.
  injection H as <- <-. last_reply_found.
Qed.

Lemma facebook_refreshToken_ok E token w tp w' :
  Facebook.refreshToken E token w = (Ok tp, w') ->
  exists data, last_reply E w' data /\
    expiry E (prop data "expires_in") = Ok (expiresAt tp).
Proof.
  intros H. unfold Facebook.refreshToken in H. unfold_run H. split_run H.
  injection H as <- <-. last_reply_found.
Qed.

Lemma instagram_refreshToken_ok E token w tp w' :
  Instagram.refreshToken E token w = (Ok tp, w') ->
  exists data, last_reply E w' data /\
    expiry E (prop data "expires_in") = Ok (expiresAt tp).
Proof.
  intros H. unfold Instagram.refreshToken in H. unfold_run H. split_run H.
  injection H as <- <-. last_reply_found.
Qed.

Lemma expiry_default E hint :
  nullish hint = true -> expiry E hint = Ok (time_clip (Date_now E + 5184000000)).
Proof. intros H. unfold expiry, coalesce. now rewrite H. Qed.

Lemma expiry_hint E n : expiry E (VNum n) = Ok (time_clip (Date_now E + n * 1000)).
Proof. reflexivity. Qed.

(** C8, as amended.  A token pair returned by [handleCallback] or
    [refreshToken] of either adapter expires at
    [new Date(Date.now() + (expires_in ?? 5184000) * 1000)], where
    [expires_in] is read from the provider's reply to the last request of
    the call, the arithmetic is that of doubles and the [Date] constructor
    clips its argument: the clock reading plus 5184000000 milliseconds (60
    days) when the hint is absent or null, the clock reading plus [n * 1000]
    when the hint is the number [n]. *)
Theorem token_expiry E w tp w' :
  (exists code redirectUri,
     Facebook.handleCallback E code redirectUri w = (Ok tp, w') \/
     Instagram.handleCallback E code redirectUri w = (Ok tp, w')) \/
  (exists token,
     Facebook.refreshToken E token w = (Ok tp, w') \/
     Instagram.refreshToken E token w = (Ok tp, w')) ->
  exists payload, last_reply E w' payload /\
    expiry E (prop payload "expires_in") = Ok (expiresAt tp) /\
    (nullish (prop payload "expires_in") = true ->
     expiresAt tp = time_clip (Date_now E + 5184000000)) /\
    (forall n, prop payload "expires_in" = VNum n ->
       expiresAt tp = time_clip (Date_now E + n * 1000)).
Proof.
  intros H.
  assert (exists payload, last_reply E w' payload /\
            expiry E (prop payload "expires_in") = Ok (expiresAt tp))
    as (payload & Hlast & Hexp).
  { destruct H as [(code & uri & [H | H]) | (token & [H | H])].
    - eapply facebook_handleCallback_ok, H.
    - eapply instagram_handleCallback_ok, H.
    - eapply facebook_refreshToken_ok, H.
    - eapply instagram_refreshToken_ok, H. }
  exists payload. split; [exact Hlast|]. split; [exact Hexp|]. split.
  - intros Hnull. rewrite (expiry_default _ _ Hnull) in Hexp. congruence.
  - intros n Hn. rewrite Hn, expiry_hint in Hexp. congruence.
Qed.

Lemma token_expiry_witness :
  exists tp w',
    Instagram.refreshToken (node (scripted [Json no_expiry_hint])) "long-lived" start
    = (Ok tp, w') /\
    expiresAt tp = 1705184000000%float /\
    (Date_now (node (scripted [Json no_expiry_hint])) <? expiresAt tp)%float = true /\
    exists payload,
      last_reply (node (scripted [Json no_expiry_hint])) w' payload /\
      expiry (node (scripted [Json no_expiry_hint])) (prop payload "expires_in")
      = Ok (expiresAt tp).
Proof.
  eexists _, _. split; [reflexivity|]. split; [reflexivity|]. split; [reflexivity|].
  destruct (token_expiry (node (scripted [Json no_expiry_hint])) start _ _
              (or_intror (ex_intro _ "long-lived" (or_intror eq_refl))))
    as (payload & Hlast & Hexp & _).
  exists payload. split; assumption.
Defined.

(** C8, as stated, fails when the provider's hint is not positive: with
    [expires_in: 0] the pair expires at the clock reading itself. *)
Lemma token_expiry_counterexample :
  exists tp w',
    Facebook.refreshToken (node (scripted [Json expires_now])) "long-lived" start
    = (Ok tp, w') /\
    expiresAt tp = Date_now (node (scripted [Json expires_now])) /\
    (Date_now (node (scripted [Json expires_now])) <? expiresAt tp)%float = false.
Proof. eexists _, _. split; [reflexivity|]. split; reflexivity. Qed.

(** ** Publishing on Instagram *)

Lemma instagram_getAccount_world E accessToken w :
  snd (Instagram.getAccount E accessToken w)
  = {| trace := trace w ++ [http_get (Instagram.pages_url accessToken)];
       console := console w |}.
Proof.
  unfold Instagram.getAccount. rewrite bind_run. unfold fetch.
  destruct (net E (trace w) _) as [r|pagesData]; [reflexivity|].
  run. destruct (get pagesData "error") as [err|e]; [|reflexivity].
  run. destruct (truthy err); [reflexivity|].
  run. destruct (iterate _) as [pages|e]; [|reflexivity].
  run. destruct (Instagram.first_business pages) as [[account|]|e]; reflexivity.
Qed.

(** C2, as amended.  For content whose [mediaUrl] is absent or empty,
    [publishContent] of the Instagram adapter never returns a result and
    issues exactly one request, the account lookup of [getAccount]: no media
    container is created and nothing is published.  When that lookup finds an
    account, the failure is the validation error. *)
Theorem instagram_publish_without_media E accessToken content w :
  present (mediaUrl content) = false ->
  exists e w',
    Instagram.publishContent E accessToken content w = (Throw e, w') /\
    w' = {| trace := trace w ++ [http_get (Instagram.pages_url accessToken)];
            console := console w |} /\
    (forall account w1,
       Instagram.getAccount E accessToken w = (Ok account, w1) ->
       e = PlatformError "instagram" (VStr Instagram.media_required) VUndef).
Proof.
  intros Hmedia. unfold Instagram.publishContent. rewrite bind_run.
  pose proof (instagram_getAccount_world E accessToken w) as Hworld.
  destruct (Instagram.getAccount E accessToken w) as [[account|e] w1]; simpl in Hworld.
  - run. unfold Instagram.containerParams. rewrite Hmedia. simpl.
    eexists _, _. split; [reflexivity|]. split; [exact Hworld|]. reflexivity.
  - eexists _, _. split; [reflexivity|]. split; [exact Hworld|].
    intros account w2 H. discriminate H.
Qed.

Lemma instagram_publish_without_media_witness :
  present (mediaUrl text_only) = false /\
  exists w',
    Instagram.publishContent (node (scripted [Json (pages_of [studio_page])]))
      "token" text_only start
    = (Throw (PlatformError "instagram" (VStr Instagram.media_required) VUndef), w').
Proof.
  split; [reflexivity|].
  destruct (instagram_publish_without_media
              (node (scripted [Json (pages_of [studio_page])])) "token" text_only start
              eq_refl) as (e & w' & Hrun & _ & Herr).
  exists w'. rewrite Hrun. f_equal. f_equal. eapply Herr. reflexivity.
Defined.

(** C2, as stated, fails: the validation error is raised after the account
    lookup has gone out over the network. *)
Lemma instagram_publish_counterexample :
  exists w',
    Instagram.publishContent (node (scripted [Json (pages_of [studio_page])]))
      "token" text_only start
    = (Throw (PlatformError "instagram" (VStr Instagram.media_required) VUndef), w') /\
    trace w' = [http_get (Instagram.pages_url "token")] /\
    trace w' <> [].
Proof.
  eexists. split; [reflexivity|]. split; [reflexivity|]. discriminate.
Qed.
(** ** Conversions *)

(** The only exception a conversion raises is [TypeError]. *)
Lemma to_string_error E v e : to_string E v = Throw e -> e = TypeError.
Proof.
  revert v e. fix IH 1. intros [| |[|]|n|s|l|fs] e; simpl; try discriminate.
  - induction l as [|x rest IHl]; [discriminate|].
    assert (forall e', match x with
                       | VUndef | VNull => Ok ""
                       | _ => to_string E x
                       end = Throw e' -> e' = TypeError) as Hx.
    { intros e' H. apply (IH x). destruct x; try discriminate H; exact H. }
    destruct (match x with VUndef | VNull => Ok "" | _ => to_string E x end) as [sx|ex].
    + cbn [mbind outcome_bind]. destruct rest as [|y rest']; [discriminate|].
      unfold mbind, outcome_bind in *.
      match goal with
      | |- context [match ?j with Ok _ => _ | Throw _ => _ end] => destruct j eqn:Hj
      end; [discriminate|].
      intros H. injection H as <-. now apply IHl.
    + intros H. injection H as <-. now apply Hx.
  - destruct (has_key "toString" fs); [|discriminate]. congruence.
Qed.

Lemma to_primitive_error E v e : to_primitive E v = Throw e -> e = TypeError.
Proof.
  destruct v; unfold to_primitive; try discriminate; unfold mbind, outcome_bind;
    match goal with
    | |- context [to_string E ?x] => destruct (to_string E x) eqn:H
    end; try discriminate; intros H'; injection H' as <-; eapply to_string_error, H.
Qed.

Lemma to_primitive_primitive E v p : to_primitive E v = Ok p -> primitive p = true.
Proof.
  destruct v; unfold to_primitive; try (intros H; injection H as <-; reflexivity);
    unfold mbind, outcome_bind;
    match goal with
    | |- context [to_string E ?x] => destruct (to_string E x)
    end; try discriminate; intros H; injection H as <-; reflexivity.
Qed.

Lemma primitive_to_primitive E p : primitive p = true -> to_primitive E p = Ok p.
Proof. destruct p; try discriminate; reflexivity. Qed.

Lemma primitive_printable E p : primitive p = true -> exists s, to_string E p = Ok s.
Proof. destruct p as [| |[|]| | | |]; try discriminate; eexists; reflexivity. Qed.

Lemma js_add_error E a b e : js_add E a b = Throw e -> e = TypeError.
Proof.
  unfold js_add, mbind, outcome_bind.
  destruct (to_primitive E a) as [pa|ea] eqn:Ha;
    [|intros H; injection H as <-; eapply to_primitive_error, Ha].
  destruct (to_primitive E b) as [pb|eb] eqn:Hb;
    [|intros H; injection H as <-; eapply to_primitive_error, Hb].
  destruct (primitive_printable E pa (to_primitive_primitive _ _ _ Ha)) as (sa & Hsa).
  destruct (primitive_printable E pb (to_primitive_primitive _ _ _ Hb)) as (sb & Hsb).
  rewrite Hsa, Hsb. destruct pa, pb; discriminate.
Qed.

Lemma js_add_primitive E a b t : js_add E a b = Ok t -> primitive t = true.
Proof.
  unfold js_add, mbind, outcome_bind.
  destruct (to_primitive E a) as [pa|ea] eqn:Ha; [|discriminate].
  destruct (to_primitive E b) as [pb|eb] eqn:Hb; [|discriminate].
  destruct (primitive_printable E pa (to_primitive_primitive _ _ _ Ha)) as (sa & Hsa).
  destruct (primitive_printable E pb (to_primitive_primitive _ _ _ Hb)) as (sb & Hsb).
  rewrite Hsa, Hsb. destruct pa, pb; intros H; injection H as <-; reflexivity.
Qed.

Lemma js_add_numbers E x y : js_add E (VNum x) (VNum y) = Ok (VNum (x + y)).
Proof. reflexivity. Qed.

Lemma js_gt_primitive E p z :
  primitive p = true -> js_gt E p z = Ok (z <? to_number E p)%float.
Proof. intros H. unfold js_gt. now rewrite (primitive_to_primitive _ _ H). Qed.

Lemma interactions_error E counts e : interactions E counts = Throw e -> e = TypeError.
Proof.
  destruct counts as [[l c] s]. unfold interactions, mbind, outcome_bind.
  destruct (js_add E l c) as [sum|e'] eqn:Hsum.
  - apply js_add_error.
  - intros H. injection H as <-. eapply js_add_error, Hsum.
Qed.

Lemma interactions_primitive E counts total :
  interactions E counts = Ok total -> primitive total = true.
Proof.
  destruct counts as [[l c] s]. unfold interactions, mbind, outcome_bind.
  destruct (js_add E l c) as [sum|e'] eqn:Hsum; [|discriminate].
  apply js_add_primitive.
Qed.

Lemma interactions_numbers E l c s :
  interactions E (VNum l, VNum c, VNum s) = Ok (VNum (l + c + s)).
Proof. reflexivity. Qed.

Lemma interactions_none E : interactions E Facebook.no_social = Ok zero.
Proof. reflexivity. Qed.

(** Two numerals are different numbers. *)
Ltac floats_differ :=
  let H := fresh in
  intros H;
  match type of H with
  | VNum _ = VNum ?b =>
      apply (f_equal (fun v => match v with VNum x => (x =? b)%float | _ => false end)) in H
  | _ = ?b => apply (f_equal (fun x => (x =? b)%float)) in H
  end;
  vm_compute in H; discriminate H.

(** ** Metrics on Facebook *)

(** Case analysis of a run in the goal: unfold the plumbing, then split on
    the innermost test or reply until none is left. *)
Ltac unfold_goal :=
  unfold try_catch, console_log, appId, appSecret, fetch;
  unfold mbind, M_bind, outcome_bind, mret, M_ret, lift, throw, get;
  cbn [trace console].

Ltac split_goal :=
  repeat (cbn [trace console fst snd];
          match goal with
          | |- context [match ?x with _ => _ end] =>
              lazymatch x with
              | context [match _ with _ => _ end] => fail
              | _ => destruct x eqn:?
              end
          end).

Ltac split_hyp H :=
  repeat (cbn [trace console fst snd] in H;
          match type of H with
          | context [match ?x with _ => _ end] =>
              lazymatch x with
              | context [match _ with _ => _ end] => fail
              | _ => destruct x eqn:?; try discriminate H
              end
          end).

Lemma try_catch_run {A} (body : M A) handler w :
  try_catch body handler w = match body w with
                             | (Ok a, w') => (Ok a, w')
                             | (Throw e, w') => handler e w'
                             end.
Proof. reflexivity. Qed.

Lemma insights_total E accessToken postId w :
  exists r w1, Facebook.insights E accessToken postId w = (Ok r, w1) /\
    trace w1 = (trace w ++ [http_get (Facebook.insights_url accessToken postId)])%list.
Proof.
  unfold Facebook.insights. unfold_goal. split_goal.
  all: eexists _, _; split; reflexivity.
Qed.

Lemma social_total E accessToken postId isPagePost w :
  exists counts w2, Facebook.social E accessToken postId isPagePost w = (Ok counts, w2).
Proof.
  unfold Facebook.social, Facebook.shares_unsupported. unfold_goal. split_goal.
  all: eexists _, _; reflexivity.
Qed.

(** [getPostMetrics] is its two [try] blocks followed by [summarise]; neither
    block lets an exception out. *)
Lemma getPostMetrics_phases E accessToken postId w :
  exists impressions reach engagedUsers w1 likes comments shares w2,
    (if string_includes "_" postId
     then Facebook.insights E accessToken postId
     else mret Facebook.no_insights) w
    = (Ok (impressions, reach, engagedUsers), w1) /\
    trace w1 = (trace w ++
                if string_includes "_" postId
                then [http_get (Facebook.insights_url accessToken postId)]
                else [])%list /\
    Facebook.social E accessToken postId (string_includes "_" postId) w1
    = (Ok (likes, comments, shares), w2) /\
    Facebook.getPostMetrics E accessToken postId w
    = (Facebook.summarise E impressions reach engagedUsers likes comments shares, w2).
Proof.
  unfold Facebook.getPostMetrics. rewrite bind_run.
  assert (exists r w1,
            (if string_includes "_" postId
             then Facebook.insights E accessToken postId
             else mret Facebook.no_insights) w = (Ok r, w1) /\
            trace w1 = (trace w ++
                        if string_includes "_" postId
                        then [http_get (Facebook.insights_url accessToken postId)]
                        else [])%list) as ([[imp reach] eng] & w1 & Hins & Htrace).
  { destruct (string_includes "_" postId).
    - apply insights_total.
    - eexists _, _. split; [reflexivity|]. simpl. now rewrite app_nil_r. }
  destruct (social_total E accessToken postId (string_includes "_" postId) w1)
    as ([[l c] s] & w2 & Hsoc).
  exists imp, reach, eng, w1, l, c, s, w2.
  rewrite Hins. cbv beta iota. rewrite bind_run, Hsoc. auto.
Qed.

(** [summarise] fails exactly when the counts cannot be added, and builds
    its record around their sum when they can. *)
Lemma summarise_interactions E impressions reach engagedUsers likes comments shares :
  Facebook.summarise E impressions reach engagedUsers likes comments shares
  = total ← interactions E (likes, comments, shares);
    Ok (summary_record E impressions reach engagedUsers likes comments shares total).
Proof.
  unfold Facebook.summarise, interactions, mbind, outcome_bind.
  destruct (js_add E likes comments) as [sum|e]; [|reflexivity].
  destruct (js_add E sum shares) as [total|e] eqn:Htotal; [|reflexivity].
  rewrite (js_gt_primitive E total 0 (js_add_primitive _ _ _ _ Htotal)).
  unfold summary_record, positive.
  destruct (impressions =? 0)%float; reflexivity.
Qed.

Lemma summarise_ok E impressions reach engagedUsers likes' comments' shares' m :
  Facebook.summarise E impressions reach engagedUsers likes' comments' shares' = Ok m ->
  exists total,
    interactions E (likes', comments', shares') = Ok total /\
    m = summary_record E impressions reach engagedUsers likes' comments' shares' total.
Proof.
  rewrite summarise_interactions. unfold mbind, outcome_bind.
  destruct (interactions E (likes', comments', shares')) as [total|e]; [|discriminate].
  intros H. injection H as <-. now exists total.
Qed.

Lemma summarise_error E impressions reach engagedUsers likes comments shares e :
  Facebook.summarise E impressions reach engagedUsers likes comments shares = Throw e ->
  e = TypeError /\ interactions E (likes, comments, shares) = Throw TypeError.
Proof.
  rewrite summarise_interactions. unfold mbind, outcome_bind.
  destruct (interactions E (likes, comments, shares)) as [total|e'] eqn:H; [discriminate|].
  intros H'. injection H' as <-. pose proof (interactions_error _ _ _ H) as ->. auto.
Qed.

Lemma shares_unsupported_message socialData msg :
  prop (prop socialData "error") "message" = VStr msg ->
  Facebook.shares_unsupported socialData = Ok (string_includes "nonexisting field" msg).
Proof.
  intros Hmsg.
  assert (nullish (prop socialData "error") = false) as Herr.
  { apply (prop_not_nullish _ "message"). now rewrite Hmsg. }
  unfold Facebook.shares_unsupported.
  rewrite (get_defined socialData) by (eapply prop_not_nullish, Herr).
  unfold mbind, outcome_bind, opt_get. rewrite Herr, Hmsg. reflexivity.
Qed.

Lemma social_retry E accessToken postId (isPagePost : bool) w socialData msg :
  let first := http_get (Facebook.social_url accessToken postId
                           (if isPagePost then Facebook.fieldsWithShares
                            else Facebook.fieldsNoShares)) in
  let retry := http_get (Facebook.social_url accessToken postId Facebook.fieldsNoShares) in
  net E (trace w) first = Json socialData ->
  prop (prop socialData "error") "message" = VStr msg ->
  string_includes "nonexisting field" msg = true ->
  exists w',
    Facebook.social E accessToken postId isPagePost w
    = (Ok (counts_of (net E (trace w ++ [first])%list retry)), w') /\
    trace w' = (trace w ++ [first; retry])%list.
Proof.
  intros first retry Hnet Hmsg Hincl. subst first retry.
  unfold Facebook.social. rewrite try_catch_run.
  rewrite bind_run, (fetch_json _ _ _ _ Hnet). cbv beta iota.
  rewrite bind_run, lift_run, (shares_unsupported_message _ _ Hmsg), Hincl. cbv beta iota.
  unfold counts_of. unfold_goal. split_goal.
  all: eexists; split; [reflexivity | simpl trace; now rewrite <- app_assoc].
Qed.

(** C6.  In [getPostMetrics] of the Facebook adapter, when the reply to the
    social-engagement request carries an error whose message includes
    "nonexisting field", exactly one more request follows it, the same query
    without the shares field, however the call ends.  A record the call
    returns has its likes, comments and shares read from the reply to that
    retry, or zero when the retry is rejected or is answered with an error;
    the call returns one whenever those counts can be added, as they can when
    they are zero; and the only exception the call can end with is the
    [TypeError] of adding counts that have no primitive form, never the
    provider's error. *)
Theorem facebook_shares_retry E accessToken postId w socialData msg :
  let isPagePost := string_includes "_" postId in
  let before :=
    (trace w ++ if isPagePost
                then [http_get (Facebook.insights_url accessToken postId)]
                else [])%list in
  let first := http_get (Facebook.social_url accessToken postId
                           (if isPagePost then Facebook.fieldsWithShares
                            else Facebook.fieldsNoShares)) in
  let retry := http_get (Facebook.social_url accessToken postId Facebook.fieldsNoShares) in
  let counts := counts_of (net E (before ++ [first])%list retry) in
  net E before first = Json socialData ->
  prop (prop socialData "error") "message" = VStr msg ->
  string_includes "nonexisting field" msg = true ->
  trace (snd (Facebook.getPostMetrics E accessToken postId w))
  = (before ++ [first; retry])%list /\
  (forall m, fst (Facebook.getPostMetrics E accessToken postId w) = Ok m ->
     (likes m, comments m, shares m) = counts) /\
  (forall total, interactions E counts = Ok total ->
     exists m, fst (Facebook.getPostMetrics E accessToken postId w) = Ok m) /\
  (failed (net E (before ++ [first])%list retry) ->
   exists m, fst (Facebook.getPostMetrics E accessToken postId w) = Ok m /\
     (likes m, comments m, shares m) = Facebook.no_social) /\
  (forall e, fst (Facebook.getPostMetrics E accessToken postId w) = Throw e ->
     e = TypeError /\ interactions E counts = Throw TypeError).
Proof.
  intros isPagePost before first retry counts Hnet Hmsg Hincl.
  destruct (getPostMetrics_phases E accessToken postId w)
    as (imp & reach & eng & w1 & l & c & s & w2 & _ & Htrace & Hsoc & Hrun).
  fold isPagePost in Htrace, Hsoc. fold before in Htrace.
  rewrite <- Htrace in Hnet.
  destruct (social_retry E accessToken postId isPagePost w1 socialData msg Hnet Hmsg Hincl)
    as (w' & Hretry & Htrace').
  rewrite Hsoc in Hretry. injection Hretry as Hcounts <-.
  rewrite Htrace in Hcounts. fold first retry before in Hcounts. fold counts in Hcounts.
  rewrite Hrun. cbn [fst snd].
  assert (forall m, Facebook.summarise E imp reach eng l c s = Ok m ->
            (likes m, comments m, shares m) = counts) as Hread.
  { intros m Hm. apply summarise_ok in Hm as (total & _ & ->). now rewrite <- Hcounts. }
  assert (forall total, interactions E counts = Ok total ->
            exists m, Facebook.summarise E imp reach eng l c s = Ok m) as Hreturns.
  { intros total Htotal. rewrite summarise_interactions, Hcounts, Htotal.
    eexists. reflexivity. }
  split; [|split; [|split; [|split]]].
  - rewrite Htrace', Htrace. reflexivity.
  - exact Hread.
  - exact Hreturns.
  - intros Hfailed.
    assert (counts = Facebook.no_social) as Hnone.
    { unfold counts, counts_of. destruct (net E _ retry) as [r|payload]; [reflexivity|].
      simpl in Hfailed. rewrite (prop_truthy _ _ Hfailed), Hfailed. reflexivity. }
    destruct (Hreturns zero) as (m & Hm).
    { rewrite Hnone. apply interactions_none. }
    exists m. split; [exact Hm|]. rewrite <- Hnone. now apply Hread.
  - intros e He. apply summarise_error in He. now rewrite Hcounts in He.
Qed.

Lemma facebook_shares_retry_witness :
  exists m w',
    Facebook.getPostMetrics
      (node (scripted [Json (post_insights 120 80 20); Json nonexisting_field;
                       Json (post_counts 5 2)]))
      "page-token" "1001_55" start = (Ok m, w') /\
    length (trace w') = 3%nat /\
    (likes m, comments m, shares m) = (VNum 5, VNum 2, VNum 0).
Proof.
  destruct (facebook_shares_retry
              (node (scripted [Json (post_insights 120 80 20); Json nonexisting_field;
                               Json (post_counts 5 2)]))
              "page-token" "1001_55" start nonexisting_field _ eq_refl eq_refl eq_refl)
    as (Htrace & Hcounts & _).
  eexists _, _. split; [reflexivity|]. split.
  - change (length (trace (snd (Facebook.getPostMetrics
              (node (scripted [Json (post_insights 120 80 20); Json nonexisting_field;
                               Json (post_counts 5 2)]))
              "page-token" "1001_55" start))) = 3%nat).
    rewrite Htrace. reflexivity.
  - rewrite (Hcounts _ eq_refl). reflexivity.
Defined.

(** The insights block of a page post, or the initial zeros of the three
    variables for any other post, and the sum of the counts of a record the
    call returns. *)
Lemma getPostMetrics_inversion E accessToken postId w m w' :
  Facebook.getPostMetrics E accessToken postId w = (Ok m, w') ->
  exists impressions reach engagedUsers w1 total,
    (if string_includes "_" postId
     then Facebook.insights E accessToken postId
     else mret Facebook.no_insights) w
    = (Ok (impressions, reach, engagedUsers), w1) /\
    interactions E (likes m, comments m, shares m) = Ok total /\
    m = summary_record E impressions reach engagedUsers (likes m) (comments m) (shares m)
          total.
Proof.
  intros H.
  destruct (getPostMetrics_phases E accessToken postId w)
    as (imp & reach & eng & w1 & l & c & s & w2 & Hins & _ & _ & Hrun).
  rewrite Hrun in H. injection H as H <-.
  apply summarise_ok in H as (total & Htotal & ->).
  exists imp, reach, eng, w1, total. split; [exact Hins|]. split; [exact Htotal|reflexivity].
Qed.

(** The three variables after an insights reply that carries rows. *)
Lemma insights_of_payload E accessToken postId w data items metrics :
  net E (trace w) (http_get (Facebook.insights_url accessToken postId)) = Json data ->
  nullish data = false ->
  truthy (prop data "error") = false ->
  truthy (prop data "data") = true ->
  iterate (prop data "data") = Ok items ->
  Facebook.collect_metrics E items ∅ = Ok metrics ->
  fst (Facebook.insights E accessToken postId w)
  = Ok (Facebook.metric metrics "post_impressions",
        Facebook.metric metrics "post_impressions_unique",
        Facebook.metric metrics "post_engaged_users").
Proof.
  intros Hnet Hdata Herr Hrows Hiter Hcollect.
  unfold Facebook.insights, try_catch. run. rewrite Herr, Hrows. run. reflexivity.
Qed.

(** C7, as amended.  In [getPostMetrics] of the Facebook adapter the returned
    impressions (and views) are decided by the value [native] the insights
    step leaves in [impressions] - the native figure of the insights reply,
    or 0 when the step is skipped, fails or finds none - and by
    [likes + comments + shares]: a non-zero [native] is returned unchanged;
    when [native] is 0 and the sum is positive the sum is returned, and for
    numeric counts the sum is the sum of doubles, taken from the left. *)
Theorem facebook_impressions_fallback E accessToken postId w m w' :
  Facebook.getPostMetrics E accessToken postId w = (Ok m, w') ->
  exists native reach engagedUsers w1 total,
    (if string_includes "_" postId
     then Facebook.insights E accessToken postId
     else mret Facebook.no_insights) w
    = (Ok (native, reach, engagedUsers), w1) /\
    interactions E (likes m, comments m, shares m) = Ok total /\
    views m = impressions m /\
    ((native =? 0)%float = false -> impressions m = VNum native) /\
    ((native =? 0)%float = true -> positive E total = true -> impressions m = total) /\
    ((native =? 0)%float = true -> positive E total = false ->
     impressions m = VNum native) /\
    (forall l c s, likes m = VNum l -> comments m = VNum c -> shares m = VNum s ->
                   total = VNum (l + c + s)) /\
    (forall data items metrics,
       string_includes "_" postId = true ->
       net E (trace w) (http_get (Facebook.insights_url accessToken postId)) = Json data ->
       nullish data = false ->
       truthy (prop data "error") = false ->
       truthy (prop data "data") = true ->
       iterate (prop data "data") = Ok items ->
       Facebook.collect_metrics E items ∅ = Ok metrics ->
       native = Facebook.metric metrics "post_impressions").
Proof.
  intros H.
  destruct (getPostMetrics_inversion _ _ _ _ _ _ H)
    as (native & reach & eng & w1 & total & Hins & Htotal & Hm).
  exists native, reach, eng, w1, total. split; [exact Hins|]. split; [exact Htotal|].
  assert (impressions m
          = if (native =? 0)%float && positive E total then total else VNum native)
    as Himp.
  { rewrite Hm at 1. reflexivity. }
  split; [rewrite Hm; reflexivity|]. repeat split.
  - intros Hnz. now rewrite Himp, Hnz.
  - intros Hz Hgt. now rewrite Himp, Hz, Hgt.
  - intros Hz Hgt. now rewrite Himp, Hz, Hgt.
  - intros l c s Hl Hc Hs. rewrite Hl, Hc, Hs, interactions_numbers in Htotal. congruence.
  - intros data items metrics Hpage Hnet Hdata Herr Hrows Hiter Hcollect.
    rewrite Hpage in Hins.
    pose proof (insights_of_payload _ _ _ _ _ _ _ Hnet Hdata Herr Hrows Hiter Hcollect) as Hp.
    rewrite Hins in Hp. simpl in Hp. congruence.
Qed.

Lemma facebook_impressions_fallback_witness :
  exists m w',
    Facebook.getPostMetrics
      (node (scripted [Json (post_insights 120 80 20); Json (post_counts 5 2)]))
      "page-token" "1001_55" start = (Ok m, w') /\
    impressions m = VNum 120.
Proof.
  eexists _, _. split; [reflexivity|].
  destruct (facebook_impressions_fallback
              (node (scripted [Json (post_insights 120 80 20); Json (post_counts 5 2)]))
              "page-token" "1001_55" start _ _ eq_refl)
    as (native & reach & eng & w1 & total & Hins & _ & _ & Hkeep & _).
  vm_compute in Hins. injection Hins as <- _ _ _.
  apply Hkeep. reflexivity.
Defined.

(** C7, as stated, fails when the insights reply carries a native impressions
    figure of 0 and the post has interactions: the figure is present in the
    reply, and the call returns the interaction count in its place. *)
Lemma facebook_impressions_counterexample :
  exists metrics m w',
    Facebook.collect_metrics (node (scripted []))
      [insight "post_impressions" (VNum 0);
       insight "post_impressions_unique" (VNum 0);
       insight "post_engaged_users" (VNum 0)] ∅ = Ok metrics /\
    metrics !! "post_impressions" = Some 0%float /\
    Facebook.getPostMetrics
      (node (scripted [Json (post_insights 0 0 0); Json (post_counts 5 2)]))
      "page-token" "1001_55" start = (Ok m, w') /\
    impressions m = VNum 7 /\
    impressions m <> VNum 0.
Proof.
  eexists _, _, _. split; [reflexivity|]. split; [vm_compute; reflexivity|].
  split; [reflexivity|]. split; [vm_compute; reflexivity|].
  vm_compute. floats_differ.
Qed.

Lemma instagram_getPostMetrics_rate E accessToken postId w m w' :
  Instagram.getPostMetrics E accessToken postId w = (Ok m, w') ->
  engagementRate m = 0%float.
Proof.
  intros H. unfold Instagram.getPostMetrics in H.
  unfold fetch in H. unfold mbind, M_bind, outcome_bind, mret, M_ret, lift, get in H.
  split_hyp H. injection H as <- _. reflexivity.
Qed.

(** C9, as amended.  In [getPostMetrics] of the Facebook adapter the
    engagement rate is computed from the [reach] and [engagedUsers] the
    insights step leaves (the [post_impressions_unique] and
    [post_engaged_users] figures of the insights reply): it is the double
    [engagedUsers / reach * 100] when [reach > 0] and exactly 0 otherwise,
    whatever [engagedUsers] is, and [reach] is the returned [reachUnique].
    In [getPostMetrics] of the Instagram adapter the engagement rate is the
    constant 0. *)
Theorem engagement_rate E accessToken postId w m w' :
  (Facebook.getPostMetrics E accessToken postId w = (Ok m, w') ->
   exists native reach engagedUsers w1,
     (if string_includes "_" postId
      then Facebook.insights E accessToken postId
      else mret Facebook.no_insights) w
     = (Ok (native, reach, engagedUsers), w1) /\
     reachUnique m = VNum reach /\
     ((0 <? reach)%float = true ->
      engagementRate m = (engagedUsers / reach * 100)%float) /\
     ((0 <? reach)%float = false -> engagementRate m = 0%float) /\
     (forall data items metrics,
        string_includes "_" postId = true ->
        net E (trace w) (http_get (Facebook.insights_url accessToken postId)) = Json data ->
        nullish data = false ->
        truthy (prop data "error") = false ->
        truthy (prop data "data") = true ->
        iterate (prop data "data") = Ok items ->
        Facebook.collect_metrics E items ∅ = Ok metrics ->
        reach = Facebook.metric metrics "post_impressions_unique" /\
        engagedUsers = Facebook.metric metrics "post_engaged_users")) /\
  (Instagram.getPostMetrics E accessToken postId w = (Ok m, w') ->
   engagementRate m = 0%float).
Proof.
  split; [|apply instagram_getPostMetrics_rate].
  intros H.
  destruct (getPostMetrics_inversion _ _ _ _ _ _ H)
    as (native & reach & eng & w1 & total & Hins & _ & Hm).
  exists native, reach, eng, w1. split; [exact Hins|].
  assert (engagementRate m
          = if (0 <? reach)%float then engagement eng reach else 0%float) as Hrate.
  { rewrite Hm at 1. reflexivity. }
  split; [rewrite Hm; reflexivity|]. split; [|split].
  - intros Hr. now rewrite Hrate, Hr.
  - intros Hle. now rewrite Hrate, Hle.
  - intros data items metrics Hpage Hnet Hdata Herr Hrows Hiter Hcollect.
    pose proof (insights_of_payload _ _ _ _ _ _ _ Hnet Hdata Herr Hrows Hiter Hcollect) as Hp.
    rewrite Hpage in Hins. rewrite Hins in Hp. simpl in Hp.
    split; congruence.
Qed.

Lemma engagement_rate_witness :
  exists m w',
    Facebook.getPostMetrics
      (node (scripted [Json (post_insights 120 80 20); Json (post_counts 5 2)]))
      "page-token" "1001_55" start = (Ok m, w') /\
    engagementRate m = 25%float.
Proof.
  eexists _, _. split; [reflexivity|].
  destruct (proj1 (engagement_rate
                     (node (scripted [Json (post_insights 120 80 20);
                                      Json (post_counts 5 2)]))
                     "page-token" "1001_55" start _ _) eq_refl)
    as (native & reach & eng & w1 & Hins & _ & Hrate & _).
  vm_compute in Hins. injection Hins as _ <- <- _.
  rewrite Hrate; reflexivity.
Defined.

(** C9, as stated, fails on the Instagram adapter: the insights reply gives a
    reach of 200, and the returned engagement rate is 0, where the Facebook
    adapter, given the same reach and 30 engaged users, returns 15. *)
Lemma instagram_rate_counterexample :
  (exists m w',
     Instagram.getPostMetrics (node (scripted [Json (media_insights 450 200)]))
       "token" "17900000000000000" start = (Ok m, w') /\
     reachUnique m = VNum 200 /\
     engagementRate m = 0%float) /\
  (exists m w',
     Facebook.getPostMetrics
       (node (scripted [Json (post_insights 450 200 30); Json (post_counts 5 2)]))
       "page-token" "1001_55" start = (Ok m, w') /\
     reachUnique m = VNum 200 /\
     engagementRate m = 15%float).
Proof.
  split; eexists _, _; (split; [reflexivity|]); split; vm_compute; reflexivity.
Qed.

(** ** Publishing on Facebook *)

Lemma facebook_publishContent_world E accessToken content w :
  snd (Facebook.publishContent E accessToken content w)
  = {| trace := trace w ++ [Facebook.publish_request accessToken content];
       console := console w |}.
Proof.
  unfold Facebook.publishContent. unfold_goal. split_goal; reflexivity.
Qed.

(** C10.  In [publishContent] of the Facebook adapter, content that carries a
    [mediaUrl] while its [mediaType] is neither "image" nor "video" (absent,
    or any other value) is sent to the feed endpoint of its target with
    exactly the rendered caption and the access token in the body; that is
    the only request of the call, and the call ends as it does for the same
    content without the [mediaUrl]. *)
Theorem facebook_publish_drops_media E accessToken content w url :
  mediaUrl content = Some url ->
  is_kind "image" (mediaType content) = false ->
  is_kind "video" (mediaType content) = false ->
  Facebook.publish_request accessToken content = feed_post accessToken content /\
  req_body (Facebook.publish_request accessToken content)
  = Some [("message", VStr (render_caption content)); ("access_token", VStr accessToken)] /\
  trace (snd (Facebook.publishContent E accessToken content w))
  = (trace w ++ [feed_post accessToken content])%list /\
  Facebook.publishContent E accessToken content w
  = Facebook.publishContent E accessToken (without_media content) w.
Proof.
  intros Hurl Himage Hvideo.
  assert (Facebook.publish_request accessToken content = feed_post accessToken content)
    as Hreq.
  { unfold Facebook.publish_request. rewrite Himage, Hvideo, !andb_false_r. reflexivity. }
  split; [exact Hreq|]. split; [now rewrite Hreq|]. split.
  - rewrite facebook_publishContent_world, Hreq. reflexivity.
  - unfold Facebook.publishContent. rewrite Hreq. reflexivity.
Qed.

Lemma facebook_publish_drops_media_witness :
  mediaUrl gif_post = Some "https://cdn.example/clip.gif" /\
  Facebook.publishContent (node (scripted [Json published])) "page-token" gif_post start
  = (Ok {| platformPostId := VStr "1001_77";
           platformPostUrl := "https://www.facebook.com/1001_77" |},
     {| trace :=
          [http_post "https://graph.facebook.com/v21.0/1001/feed"
             [("message", VStr ("Hello" +:+ String "010" (String "010" "#launch #lagos")));
              ("access_token", VStr "page-token")]];
        console := [] |}).
Proof.
  split; [reflexivity|].
  destruct (facebook_publish_drops_media (node (scripted [Json published])) "page-token"
              gif_post start _ eq_refl eq_refl eq_refl) as (_ & _ & _ & Hsame).
  rewrite Hsame. reflexivity.
Defined.

(** ** Account resolution *)


Section Accounts.

Variable E : env.
Variable accessToken : string.
Variable w : world.






End Accounts.



(** ** Best-effort metrics *)





Section Metrics.

Variable E : env.
Variables accessToken id : string.
Variable w : world.

Let isPagePost := string_includes "_" id.
Let insights_request := http_get (Facebook.insights_url accessToken id).
Let before := (trace w ++ if isPagePost then [insights_request] else [])%list.
Let first := http_get (Facebook.social_url accessToken id
                         (if isPagePost then Facebook.fieldsWithShares
                          else Facebook.fieldsNoShares)).
Let retry := http_get (Facebook.social_url accessToken id Facebook.fieldsNoShares).


End Metrics.



(** * Further properties of the adapters *)

(** ** Requests issued *)

Lemma prefix_app a b : String.prefix a (a +:+ b) = true.
Proof.
  induction a as [|c a IH]; simpl; [now destruct b|].
  destruct (ascii_dec c c); [exact IH|congruence].
Qed.

Lemma issues_ret {A} n (a : A) : issues n (mret a).
Proof. intros w. exists []. simpl. rewrite app_nil_r. split; [reflexivity|]. split; [lia|constructor]. Qed.

Lemma issues_throw {A} n e : issues n (throw e : M A).
Proof. intros w. exists []. simpl. rewrite app_nil_r. split; [reflexivity|]. split; [lia|constructor]. Qed.

Lemma issues_lift {A} n (o : outcome A) : issues n (lift o).
Proof. intros w. exists []. simpl. rewrite app_nil_r. split; [reflexivity|]. split; [lia|constructor]. Qed.

Lemma issues_log n l : issues n (console_log l).
Proof. intros w. exists []. simpl. rewrite app_nil_r. split; [reflexivity|]. split; [lia|constructor]. Qed.

Lemma issues_appId n p E : issues n (appId p E).
Proof. unfold appId. destruct (present _); [apply issues_ret|apply issues_throw]. Qed.

Lemma issues_appSecret n p E : issues n (appSecret p E).
Proof. unfold appSecret. destruct (present _); [apply issues_ret|apply issues_throw]. Qed.

Lemma issues_fetch n E req : graph_request req -> issues (S n) (fetch E req).
Proof.
  intros Hreq w. exists [req]. unfold fetch.
  destruct (net E (trace w) req); simpl; (split; [reflexivity|]); (split; [lia|]);
    repeat constructor; exact Hreq.
Qed.

Lemma issues_bind {A B} n k (m : M A) (f : A -> M B) :
  issues n m -> (forall a, issues k (f a)) -> issues (n + k) (m ≫= f).
Proof.
  intros Hm Hf w. rewrite bind_run.
  destruct (Hm w) as (reqs & Htrace & Hlen & Hall).
  destruct (m w) as [[a|e] w1]; simpl in Htrace.
  - destruct (Hf a w1) as (reqs' & Htrace' & Hlen' & Hall').
    exists (reqs ++ reqs')%list. rewrite Htrace', Htrace, app_assoc.
    split; [reflexivity|]. split; [rewrite length_app; lia|].
    apply Forall_app. split; assumption.
  - exists reqs. split; [exact Htrace|]. split; [lia|exact Hall].
Qed.

Lemma issues_try {A} n (body : M A) (handler : exn -> M A) :
  issues n body -> (forall e, issues 0 (handler e)) -> issues n (try_catch body handler).
Proof.
  intros Hbody Hhandler w. unfold try_catch.
  destruct (Hbody w) as (reqs & Htrace & Hlen & Hall).
  destruct (body w) as [[a|e] w1]; simpl in Htrace.
  - exists reqs. auto.
  - destruct (Hhandler e w1) as (reqs' & Htrace' & Hlen' & _).
    destruct reqs'; [|simpl in Hlen'; lia]. rewrite app_nil_r in Htrace'.
    exists reqs. rewrite Htrace'. auto.
Qed.

Lemma issues_weaken {A} n k (m : M A) : (n <= k)%nat -> issues n m -> issues k m.
Proof.
  intros Hle Hm w. destruct (Hm w) as (reqs & Htrace & Hlen & Hall).
  exists reqs. split; [exact Htrace|]. split; [lia|exact Hall].
Qed.

(** Walks down a method: sequencing, tests and replies, with one unit of the
    budget spent at each [fetch]. *)
Ltac budget :=
  repeat match goal with
         | |- issues _ (mret _) => apply issues_ret
         | |- issues _ (throw _) => apply issues_throw
         | |- issues _ (lift _) => apply issues_lift
         | |- issues _ (try_catch _ _) => apply issues_try; [|intros]
         | |- issues ?n (lift _ ≫= _) =>
             apply (issues_bind 0 n); [apply issues_lift|intros]
         | |- issues ?n (console_log _ ≫= _) =>
             apply (issues_bind 0 n); [apply issues_log|intros]
         | |- issues ?n (appId _ _ ≫= _) =>
             apply (issues_bind 0 n); [apply issues_appId|intros]
         | |- issues ?n (appSecret _ _ ≫= _) =>
             apply (issues_bind 0 n); [apply issues_appSecret|intros]
         | |- issues (S ?n) (fetch _ _ ≫= _) =>
             apply (issues_bind 1 n); [apply issues_fetch, prefix_app|intros]
         | |- issues (S _) (fetch _ _) => apply issues_fetch, prefix_app
         | |- issues _ (if ?b then _ else _) => destruct b
         | |- issues _ (match ?x with _ => _ end) => destruct x
         end.

Lemma facebook_publish_request_graph accessToken content :
  graph_request (Facebook.publish_request accessToken content).
Proof.
  unfold Facebook.publish_request.
  destruct (_ && _); [apply prefix_app|]. destruct (_ && _); apply prefix_app.
Qed.

Lemma facebook_insights_budget E accessToken postId :
  issues 1 (Facebook.insights E accessToken postId).
Proof.
  unfold Facebook.insights. apply issues_try; [|intros; budget]. budget.
Qed.

Lemma facebook_social_budget E accessToken postId isPagePost :
  issues 2 (Facebook.social E accessToken postId isPagePost).
Proof.
  unfold Facebook.social. apply issues_try; [|intros; budget]. budget.
  apply (issues_bind 1 0); [budget|intros; budget].
Qed.

Lemma instagram_getAccount_budget E accessToken :
  issues 1 (Instagram.getAccount E accessToken).
Proof. unfold Instagram.getAccount. budget. Qed.

(** X8.  Every request an adapter method issues goes to the Graph API base
    URL, and a call is bounded in the requests it makes, whatever the
    provider answers and however the call ends: none for [getAuthUrl], one
    for [refreshToken], [getAccountMetrics], the Instagram [getAccount] and
    [getPostMetrics] and the Facebook [publishContent], two for
    [handleCallback] and the Facebook [getAccount], three for the Facebook
    [getPostMetrics] and the Instagram [publishContent]. *)
Theorem request_budget E (a b : string) (content : PlatformContent) :
  (issues 0 (Facebook.getAuthUrl E a b) /\
   issues 2 (Facebook.handleCallback E a b) /\
   issues 1 (Facebook.refreshToken E a) /\
   issues 2 (Facebook.getAccount E a) /\
   issues 1 (Facebook.publishContent E a content) /\
   issues 3 (Facebook.getPostMetrics E a b) /\
   issues 1 (Facebook.getAccountMetrics E a b)) /\
  (issues 0 (Instagram.getAuthUrl E a b) /\
   issues 2 (Instagram.handleCallback E a b) /\
   issues 1 (Instagram.refreshToken E a) /\
   issues 1 (Instagram.getAccount E a) /\
   issues 3 (Instagram.publishContent E a content) /\
   issues 1 (Instagram.getPostMetrics E a b) /\
   issues 1 (Instagram.getAccountMetrics E a b)).
Proof.
  split; repeat split.
  - unfold Facebook.getAuthUrl. budget.
  - unfold Facebook.handleCallback. budget.
  - unfold Facebook.refreshToken. budget.
  - unfold Facebook.getAccount. budget.
  - unfold Facebook.publishContent.
    apply (issues_bind 1 0); [apply issues_fetch, facebook_publish_request_graph|].
    intros. budget.
  - unfold Facebook.getPostMetrics. apply (issues_bind 1 2).
    + destruct (string_includes "_" b);
        [apply facebook_insights_budget|apply issues_ret].
    + intros [[imp reach] eng]. apply (issues_bind 2 0);
        [apply facebook_social_budget|].
      intros [[l c] s]. budget.
  - unfold Facebook.getAccountMetrics. budget.
  - unfold Instagram.getAuthUrl. budget.
  - unfold Instagram.handleCallback. budget.
  - unfold Instagram.refreshToken. budget.
  - apply instagram_getAccount_budget.
  - unfold Instagram.publishContent. apply (issues_bind 1 2);
      [apply instagram_getAccount_budget|].
    intros. budget.
  - unfold Instagram.getPostMetrics. budget.
  - unfold Instagram.getAccountMetrics. budget.
Qed.

(** ** Configuration *)

(** X1.  With [META_APP_ID] missing or empty, [getAuthUrl], [handleCallback]
    and [refreshToken] of either adapter fail with the adapter-tagged
    configuration error before anything else happens: no request is issued
    and nothing is logged. *)
Theorem missing_app_id E (a b : string) w :
  present (META_APP_ID E) = false ->
  forall platform getAuthUrl handleCallback refreshToken,
    (platform, getAuthUrl, handleCallback, refreshToken)
    = ("facebook", Facebook.getAuthUrl, Facebook.handleCallback, Facebook.refreshToken) \/
    (platform, getAuthUrl, handleCallback, refreshToken)
    = ("instagram", Instagram.getAuthUrl, Instagram.handleCallback,
       Instagram.refreshToken) ->
    let failure {A} : outcome A * world :=
      (Throw (PlatformError platform (VStr "META_APP_ID no configurado") VUndef), w) in
    getAuthUrl E a b w = failure /\
    handleCallback E a b w = failure /\
    refreshToken E a w = failure.
Proof.
  intros Hid platform f g h [Heq | Heq]; injection Heq as -> -> -> ->; cbv zeta.
  all: unfold Facebook.getAuthUrl, Facebook.handleCallback, Facebook.refreshToken,
         Instagram.getAuthUrl, Instagram.handleCallback, Instagram.refreshToken.
  all: rewrite !bind_run; unfold appId; rewrite Hid; auto.
Qed.

Lemma missing_app_id_witness :
  Instagram.handleCallback (with_credentials (node (scripted [Json short_lived])) (Some "") None)
    "code" "https://app/cb" start
  = (Throw (PlatformError "instagram" (VStr "META_APP_ID no configurado") VUndef), start).
Proof.
  destruct (missing_app_id
              (with_credentials (node (scripted [Json short_lived])) (Some "") None)
              "code" "https://app/cb" start eq_refl _ _ _ _ (or_intror eq_refl))
    as (_ & H & _).
  exact H.
Defined.

(** X2.  With [META_APP_ID] set and [META_APP_SECRET] missing or empty,
    [handleCallback] and [refreshToken] of either adapter fail with the
    adapter-tagged configuration error without issuing a request, while
    [getAuthUrl], which never reads the secret, still returns its URL. *)
Theorem missing_app_secret E (a b : string) w :
  present (META_APP_ID E) = true ->
  present (META_APP_SECRET E) = false ->
  forall platform getAuthUrl handleCallback refreshToken,
    (platform, getAuthUrl, handleCallback, refreshToken)
    = ("facebook", Facebook.getAuthUrl, Facebook.handleCallback, Facebook.refreshToken) \/
    (platform, getAuthUrl, handleCallback, refreshToken)
    = ("instagram", Instagram.getAuthUrl, Instagram.handleCallback,
       Instagram.refreshToken) ->
    let failure {A} : outcome A * world :=
      (Throw (PlatformError platform (VStr "META_APP_SECRET no configurado") VUndef), w) in
    handleCallback E a b w = failure /\
    refreshToken E a w = failure /\
    exists o, getAuthUrl E a b w = (Ok o, w).
Proof.
  intros Hid Hsecret platform f g h [Heq | Heq]; injection Heq as -> -> -> ->; cbv zeta.
  all: unfold Facebook.getAuthUrl, Facebook.handleCallback, Facebook.refreshToken,
         Instagram.getAuthUrl, Instagram.handleCallback, Instagram.refreshToken.
  all: rewrite !bind_run, !appId_configured by assumption.
  all: rewrite !bind_run; unfold appSecret; rewrite Hsecret.
  all: split; [reflexivity|]; split; [reflexivity|]; eexists; reflexivity.
Qed.

Lemma missing_app_secret_witness :
  Facebook.refreshToken (with_credentials (node (scripted [Json long_lived])) (Some "app") None)
    "long-lived" start
  = (Throw (PlatformError "facebook" (VStr "META_APP_SECRET no configurado") VUndef), start).
Proof.
  destruct (missing_app_secret
              (with_credentials (node (scripted [Json long_lived])) (Some "app") None)
              "long-lived" "" start eq_refl eq_refl _ _ _ _ (or_introl eq_refl))
    as (_ & H & _).
  exact H.
Defined.

(** X3.  [getAccount], [publishContent], [getPostMetrics] and
    [getAccountMetrics] of either adapter never read the application
    credentials: a call behaves the same under any [META_APP_ID] and
    [META_APP_SECRET], missing ones included. *)
Theorem credentials_unused E id secret (a b : string) (content : PlatformContent) :
  (Facebook.getAccount (with_credentials E id secret) a = Facebook.getAccount E a /\
   Facebook.publishContent (with_credentials E id secret) a content
   = Facebook.publishContent E a content /\
   Facebook.getPostMetrics (with_credentials E id secret) a b
   = Facebook.getPostMetrics E a b /\
   Facebook.getAccountMetrics (with_credentials E id secret) a b
   = Facebook.getAccountMetrics E a b) /\
  (Instagram.getAccount (with_credentials E id secret) a = Instagram.getAccount E a /\
   Instagram.publishContent (with_credentials E id secret) a content
   = Instagram.publishContent E a content /\
   Instagram.getPostMetrics (with_credentials E id secret) a b
   = Instagram.getPostMetrics E a b /\
   Instagram.getAccountMetrics (with_credentials E id secret) a b
   = Instagram.getAccountMetrics E a b).
Proof. repeat split. Qed.

(** ** Captions *)

Lemma hashtag_prefixed h : String.prefix "#" (hashtag h) = true.
Proof.
  unfold hashtag. destruct (String.prefix "#" h) eqn:Hh; [exact Hh|].
  simpl. destruct (ascii_dec "#" "#"); [now destruct h|congruence].
Qed.

Lemma hashtag_idempotent h : hashtag (hashtag h) = hashtag h.
Proof. unfold hashtag at 1. now rewrite hashtag_prefixed. Qed.

(** X4.  In the caption both adapters publish, every hashtag starts with
    exactly the "#" the caller gave or, failing that, one added "#": a tag
    that has its "#" is kept as it is, so the caption is the same whether or
    not the caller wrote the "#".  The caption is the text, two newlines, and
    the tags joined by single spaces; with no hashtags it still ends in the
    two newlines. *)
Theorem caption_hashtags_normalised content :
  Forall (fun h => String.prefix "#" h = true) (map hashtag (hashtags content)) /\
  (forall h, String.prefix "#" h = true -> hashtag h = h) /\
  (forall h, String.prefix "#" h = false -> hashtag h = "#" +:+ h) /\
  render_caption (with_hashtags content (map hashtag (hashtags content)))
  = render_caption content /\
  render_caption content
  = caption content +:+ String "010" (String "010" EmptyString)
    +:+ String.concat " " (map hashtag (hashtags content)) /\
  (hashtags content = [] ->
   render_caption content = caption content +:+ String "010" (String "010" EmptyString)).
Proof.
  split; [|split; [|split; [|split; [|split]]]].
  - apply Forall_forall. intros h Hin. apply list_elem_of_In, in_map_iff in Hin.
    destruct Hin as (x & <- & _). apply hashtag_prefixed.
  - intros h Hh. unfold hashtag. now rewrite Hh.
  - intros h Hh. unfold hashtag. now rewrite Hh.
  - unfold render_caption, with_hashtags. simpl. f_equal. f_equal. f_equal.
    rewrite map_map. apply map_ext. intros h. apply hashtag_idempotent.
  - reflexivity.
  - intros Hnone. unfold render_caption. rewrite Hnone. reflexivity.
Qed.

(** ** Transport failures and malformed payloads *)

(** Runs a method against a provider whose every reply is given by [H]. *)
Ltac answered_by H :=
  unfold try_catch, console_log, fetch;
  unfold mbind, M_bind, outcome_bind, mret, M_ret, lift, throw, get;
  repeat first
    [ rewrite H
    | progress cbv beta iota zeta delta [Facebook.no_insights Facebook.no_social]
    | progress cbn [trace console nullish] ].

Section Unavailable.

Variable E : env.
Variables a b : string.
Variable content : PlatformContent.
Variable w : world.
Hypothesis Hid : present (META_APP_ID E) = true.
Hypothesis Hsecret : present (META_APP_SECRET E) = true.

(** X5.  Against a provider that rejects every request, with the credentials
    configured, every method that goes to the network ends with the rejection
    itself, not with an adapter-tagged [PlatformError] - except
    [getPostMetrics] of the Facebook adapter, which returns the all-zero
    record. *)
Theorem transport_failure reason :
  (forall seen req, net E seen req = Rejected reason) ->
  (fst (Facebook.handleCallback E a b w) = Throw (FetchError reason) /\
   fst (Facebook.refreshToken E a w) = Throw (FetchError reason) /\
   fst (Facebook.getAccount E a w) = Throw (FetchError reason) /\
   fst (Facebook.publishContent E a content w) = Throw (FetchError reason) /\
   fst (Facebook.getAccountMetrics E a b w) = Throw (FetchError reason) /\
   fst (Facebook.getPostMetrics E a b w) = Ok no_metrics) /\
  (fst (Instagram.handleCallback E a b w) = Throw (FetchError reason) /\
   fst (Instagram.refreshToken E a w) = Throw (FetchError reason) /\
   fst (Instagram.getAccount E a w) = Throw (FetchError reason) /\
   fst (Instagram.publishContent E a content w) = Throw (FetchError reason) /\
   fst (Instagram.getAccountMetrics E a b w) = Throw (FetchError reason) /\
   fst (Instagram.getPostMetrics E a b w) = Throw (FetchError reason)).
Proof.
  intros Hoff. split; repeat split.
  all: unfold Facebook.handleCallback, Facebook.refreshToken, Facebook.getAccount,
         Facebook.publishContent, Facebook.getAccountMetrics, Facebook.getPostMetrics,
         Facebook.insights, Facebook.social,
         Instagram.handleCallback, Instagram.refreshToken, Instagram.publishContent,
         Instagram.getAccount, Instagram.getAccountMetrics, Instagram.getPostMetrics.
  all: unfold appId, appSecret; rewrite ?Hid, ?Hsecret.
  all: try destruct (string_includes "_" b).
  all: answered_by Hoff; reflexivity.
Qed.

(** X6.  Against a provider whose every payload is the JSON value [null],
    with the credentials configured, every method that goes to the network
    ends with the [TypeError] of reading a property of [null] - except
    [getPostMetrics] of the Facebook adapter, which returns the all-zero
    record. *)
Theorem null_payload :
  (forall seen req, net E seen req = Json VNull) ->
  (fst (Facebook.handleCallback E a b w) = Throw TypeError /\
   fst (Facebook.refreshToken E a w) = Throw TypeError /\
   fst (Facebook.getAccount E a w) = Throw TypeError /\
   fst (Facebook.publishContent E a content w) = Throw TypeError /\
   fst (Facebook.getAccountMetrics E a b w) = Throw TypeError /\
   fst (Facebook.getPostMetrics E a b w) = Ok no_metrics) /\
  (fst (Instagram.handleCallback E a b w) = Throw TypeError /\
   fst (Instagram.refreshToken E a w) = Throw TypeError /\
   fst (Instagram.getAccount E a w) = Throw TypeError /\
   fst (Instagram.publishContent E a content w) = Throw TypeError /\
   fst (Instagram.getAccountMetrics E a b w) = Throw TypeError /\
   fst (Instagram.getPostMetrics E a b w) = Throw TypeError).
Proof.
  intros Hnull. split; repeat split.
  all: unfold Facebook.handleCallback, Facebook.refreshToken, Facebook.getAccount,
         Facebook.publishContent, Facebook.getAccountMetrics, Facebook.getPostMetrics,
         Facebook.insights, Facebook.social, Facebook.shares_unsupported,
         Instagram.handleCallback, Instagram.refreshToken, Instagram.publishContent,
         Instagram.getAccount, Instagram.getAccountMetrics, Instagram.getPostMetrics.
  all: unfold appId, appSecret; rewrite ?Hid, ?Hsecret.
  all: try destruct (string_includes "_" b).
  all: answered_by Hnull; reflexivity.
Qed.

End Unavailable.

Lemma transport_failure_witness :
  fst (Instagram.publishContent (node (scripted [])) "token" text_only start)
  = Throw (FetchError "offline").
Proof.
  destruct (transport_failure (node (scripted [])) "token" "" text_only start
              eq_refl eq_refl "offline") as [_ (_ & _ & _ & H & _)].
  - intros seen req. unfold node, scripted. simpl. now destruct (length seen).
  - exact H.
Defined.

Lemma null_payload_witness :
  fst (Facebook.getAccount (node (constant (Json VNull))) "token" start) = Throw TypeError.
Proof.
  destruct (null_payload (node (constant (Json VNull))) "token" "" text_only start
              eq_refl eq_refl (fun _ _ => eq_refl)) as [(_ & _ & H & _) _].
  exact H.
Defined.
(** ** The requests of [getPostMetrics] *)

(** The test of the retry, read off the payload. *)
Lemma shares_unsupported_names socialData :
  match Facebook.shares_unsupported socialData with
  | Ok true => true
  | _ => false
  end = names_nonexisting_field (Json socialData).
Proof.
  unfold Facebook.shares_unsupported, names_nonexisting_field, get, opt_get.
  destruct (nullish socialData) eqn:Hdata.
  - destruct socialData; try discriminate Hdata; reflexivity.
  - unfold mbind, outcome_bind.
    destruct (nullish (prop socialData "error")) eqn:Herr.
    + destruct (prop socialData "error"); try discriminate Herr; reflexivity.
    + destruct (prop (prop socialData "error") "message") as [| |b|n|s|l|fs];
        try reflexivity; simpl.
      * now destruct (string_includes "nonexisting field" s).
      * now destruct (existsb (value_is_string "nonexisting field") l).
Qed.

Lemma social_requests E accessToken postId (isPagePost : bool) w :
  let first := http_get (Facebook.social_url accessToken postId
                           (if isPagePost then Facebook.fieldsWithShares
                            else Facebook.fieldsNoShares)) in
  let retry := http_get (Facebook.social_url accessToken postId Facebook.fieldsNoShares) in
  trace (snd (Facebook.social E accessToken postId isPagePost w))
  = (trace w ++ first :: if names_nonexisting_field (net E (trace w) first)
                         then [retry] else [])%list.
Proof.
  intros first retry. subst first retry.
  unfold Facebook.social. rewrite try_catch_run, bind_run. unfold fetch at 1.
  destruct (net E (trace w) _) as [reason|socialData]; [reflexivity|].
  cbv beta iota zeta. rewrite bind_run, lift_run.
  rewrite <- shares_unsupported_names.
  destruct (Facebook.shares_unsupported socialData) as [[|]|e]; [| |reflexivity].
  - unfold_goal. split_goal.
    all: simpl trace; rewrite <- ?app_assoc; reflexivity.
  - unfold_goal. split_goal.
    all: simpl trace; rewrite <- ?app_assoc; reflexivity.
Qed.

Lemma getPostMetrics_trace E accessToken postId w :
  let isPagePost := string_includes "_" postId in
  let before :=
    (trace w ++ if isPagePost
                then [http_get (Facebook.insights_url accessToken postId)]
                else [])%list in
  let first := http_get (Facebook.social_url accessToken postId
                           (if isPagePost then Facebook.fieldsWithShares
                            else Facebook.fieldsNoShares)) in
  let retry := http_get (Facebook.social_url accessToken postId Facebook.fieldsNoShares) in
  trace (snd (Facebook.getPostMetrics E accessToken postId w))
  = (before ++ first :: if names_nonexisting_field (net E before first)
                        then [retry] else [])%list.
Proof.
  intros isPagePost before first retry.
  destruct (getPostMetrics_phases E accessToken postId w)
    as (imp & reach & eng & w1 & l & c & s & w2 & _ & Htrace & Hsoc & Hrun).
  fold isPagePost in Htrace, Hsoc. fold before in Htrace.
  rewrite Hrun. cbn [snd].
  pose proof (social_requests E accessToken postId isPagePost w1) as Hreq.
  rewrite Hsoc in Hreq. simpl in Hreq. rewrite Hreq, Htrace. reflexivity.
Qed.

(** X7.  The requests of a call to [getPostMetrics] of the Facebook adapter
    are, in this order and however the call ends: the insights query, only
    for a post id that contains "_"; the social query, asking for shares only
    for such a post id; and the same query without shares, only when the
    reply to the social query is a payload whose [error.message] is a string
    in which "nonexisting field" occurs (or an array holding that string).
    A rejection, a payload whose [error] is absent or falsy, and an error
    whose message is a string without that text are not retried. *)
Theorem getPostMetrics_requests E accessToken postId w :
  let isPagePost := string_includes "_" postId in
  let before :=
    (trace w ++ if isPagePost
                then [http_get (Facebook.insights_url accessToken postId)]
                else [])%list in
  let first := http_get (Facebook.social_url accessToken postId
                           (if isPagePost then Facebook.fieldsWithShares
                            else Facebook.fieldsNoShares)) in
  let retry := http_get (Facebook.social_url accessToken postId Facebook.fieldsNoShares) in
  let requests := trace (snd (Facebook.getPostMetrics E accessToken postId w)) in
  requests
  = (before ++ first :: if names_nonexisting_field (net E before first)
                        then [retry] else [])%list /\
  (forall reason, net E before first = Rejected reason ->
     requests = (before ++ [first])%list) /\
  (forall payload, net E before first = Json payload ->
     truthy (prop payload "error") = false ->
     requests = (before ++ [first])%list) /\
  (forall payload msg, net E before first = Json payload ->
     prop (prop payload "error") "message" = VStr msg ->
     requests = (before ++ first :: if string_includes "nonexisting field" msg
                                    then [retry] else [])%list).
Proof.
  intros isPagePost before first retry requests.
  pose proof (getPostMetrics_trace E accessToken postId w) as Htrace.
  cbv zeta in Htrace. fold isPagePost before first retry requests in Htrace.
  split; [exact Htrace|]. split; [|split].
  - intros reason Hnet. now rewrite Htrace, Hnet.
  - intros payload Hnet Herr. rewrite Htrace, Hnet. unfold names_nonexisting_field.
    destruct (prop payload "error") as [| |[|]|n|s|l|fs]; try discriminate Herr;
      try reflexivity.
  - intros payload msg Hnet Hmsg. rewrite Htrace, Hnet. unfold names_nonexisting_field.
    now rewrite Hmsg.
Qed.

(** X9.  For a post id without "_" (a photo or video, not a page post),
    [getPostMetrics] of the Facebook adapter never asks for insights: its
    first request is the social query without shares, and any further request
    repeats it.  In a record the call returns, reach and engagement rate are
    0, and impressions and views are likes + comments + shares when that sum
    is positive and 0 otherwise; the call ends without a record only with the
    [TypeError] of that sum. *)
Theorem standalone_post_metrics E accessToken postId w :
  string_includes "_" postId = false ->
  let first := http_get (Facebook.social_url accessToken postId Facebook.fieldsNoShares) in
  (exists rest,
     trace (snd (Facebook.getPostMetrics E accessToken postId w))
     = (trace w ++ first :: rest)%list /\
     Forall (fun r => r = first) rest) /\
  (forall m, fst (Facebook.getPostMetrics E accessToken postId w) = Ok m ->
     reachUnique m = zero /\
     engagementRate m = 0%float /\
     views m = impressions m /\
     exists total,
       interactions E (likes m, comments m, shares m) = Ok total /\
       impressions m = if positive E total then total else zero) /\
  (forall e, fst (Facebook.getPostMetrics E accessToken postId w) = Throw e ->
     e = TypeError).
Proof.
  intros Hpage first. split; [|split].
  - pose proof (getPostMetrics_trace E accessToken postId w) as Htrace.
    cbv zeta in Htrace. rewrite Hpage, app_nil_r in Htrace.
    eexists. split; [exact Htrace|].
    destruct (names_nonexisting_field _); repeat constructor.
  - intros m Hm.
    destruct (Facebook.getPostMetrics E accessToken postId w) as [o w'] eqn:Hrun.
    cbn [fst] in Hm. subst o.
    destruct (getPostMetrics_inversion _ _ _ _ _ _ Hrun)
      as (imp & reach & eng & w1 & total & Hins & Htotal & Hm).
    rewrite Hpage, ret_run in Hins. injection Hins as <- <- <- <-.
    split; [rewrite Hm; reflexivity|]. split; [rewrite Hm; reflexivity|].
    split; [rewrite Hm; reflexivity|].
    exists total. split; [exact Htotal|]. rewrite Hm at 1. reflexivity.
  - intros e He.
    destruct (getPostMetrics_phases E accessToken postId w)
      as (imp & reach & eng & w1 & l & c & s & w2 & _ & _ & _ & Hrun).
    rewrite Hrun in He. cbn [fst] in He. now apply summarise_error in He.
Qed.

Lemma standalone_post_metrics_witness :
  exists m w',
    Facebook.getPostMetrics (node (scripted [Json (post_counts 5 2)])) "token" "55" start
    = (Ok m, w') /\
    impressions m = VNum 7 /\
    engagementRate m = 0%float.
Proof.
  destruct (standalone_post_metrics (node (scripted [Json (post_counts 5 2)]))
              "token" "55" start eq_refl) as (_ & Hrecord & _).
  eexists _, _. split; [reflexivity|].
  destruct (Hrecord _ eq_refl) as (_ & Hrate & _ & total & Htotal & Himp).
  split; [|exact Hrate].
  rewrite Himp. vm_compute in Htotal. injection Htotal as <-. reflexivity.
Defined.

(** ** Rows of the insights replies *)

Lemma sum_numbers_snoc vals v :
  Facebook.sum_numbers (vals ++ [v])
  = (Facebook.sum_numbers vals + match v with VNum n => n | _ => 0 end)%float.
Proof. unfold Facebook.sum_numbers. now rewrite fold_left_app. Qed.

(** X10.  A row of the Facebook insights reply whose value is a breakdown map
    is recorded under the row's name, converted to a string, as the sum of
    the map's entries: a sum of doubles that starts from 0 and adds the
    entries in order, a number as it is and anything else as 0.  Reading the
    name back gives the sum and no other name is affected - unless the name
    is [__proto__], which is not recorded at all.  A name with no string form
    ends the turn with the [TypeError] of the conversion. *)
Theorem breakdown_recorded E metrics item entries :
  nullish item = false ->
  opt_index (prop item "values") 0 ?. "value" = VObj entries ->
  (forall name, to_string E (prop item "name") = Ok name ->
     exists metrics',
       Facebook.record_metric E metrics item = Ok metrics' /\
       (name <> "__proto__" ->
        Facebook.metric metrics' name = Facebook.sum_numbers (map snd entries) /\
        forall k, k <> name -> Facebook.metric metrics' k = Facebook.metric metrics k) /\
       (name = "__proto__" -> metrics' = metrics)) /\
  (forall e, to_string E (prop item "name") = Throw e ->
     Facebook.record_metric E metrics item = Throw e /\ e = TypeError) /\
  Facebook.sum_numbers [] = 0%float /\
  (forall vals n, Facebook.sum_numbers (vals ++ [VNum n])
                  = (Facebook.sum_numbers vals + n)%float) /\
  (forall vals v, (forall n, v <> VNum n) ->
     Facebook.sum_numbers (vals ++ [v]) = (Facebook.sum_numbers vals + 0)%float).
Proof.
  intros Hitem Hval.
  assert (Facebook.record_metric E metrics item
          = Facebook.assign E metrics (prop item "name")
              (Facebook.sum_numbers (map snd entries))) as Hturn.
  { unfold Facebook.record_metric. rewrite (get_defined _ _ Hitem).
    unfold mbind, outcome_bind. now rewrite Hval. }
  rewrite Hturn. unfold Facebook.assign, mbind, outcome_bind.
  split; [|split; [|split; [|split]]].
  - intros name ->. eexists. split; [reflexivity|]. split.
    + intros Hname. apply String.eqb_neq in Hname. rewrite Hname.
      unfold Facebook.metric. split.
      * now rewrite lookup_insert_eq.
      * intros k Hk. now rewrite lookup_insert_ne.
    + intros ->. reflexivity.
  - intros e He. rewrite He. split; [reflexivity|]. eapply to_string_error, He.
  - reflexivity.
  - intros vals n. apply sum_numbers_snoc.
  - intros vals v Hv. rewrite sum_numbers_snoc.
    destruct v; try reflexivity. now destruct (Hv n).
Qed.

Lemma breakdown_recorded_witness :
  exists metrics',
    Facebook.record_metric (node (scripted [])) ∅
      (insight "post_impressions"
         (VObj [("paid", VNum 40); ("organic", VNum 60); ("note", VStr "partial")]))
    = Ok metrics' /\
    Facebook.metric metrics' "post_impressions" = 100%float.
Proof.
  destruct (breakdown_recorded (node (scripted [])) ∅
              (insight "post_impressions"
                 (VObj [("paid", VNum 40); ("organic", VNum 60); ("note", VStr "partial")]))
              _ eq_refl eq_refl) as (Hrecorded & _).
  destruct (Hrecorded "post_impressions" eq_refl) as (metrics' & Hrec & Hsum & _).
  exists metrics'. split; [exact Hrec|].
  destruct Hsum as [Hsum _]; [discriminate|]. rewrite Hsum. reflexivity.
Defined.

Lemma facebook_assign_error E metrics name n e :
  Facebook.assign E metrics name n = Throw e -> e = TypeError.
Proof.
  unfold Facebook.assign, mbind, outcome_bind.
  destruct (to_string E name) eqn:Hname; [discriminate|].
  intros H. injection H as <-. eapply to_string_error, Hname.
Qed.

Lemma facebook_record_metric_error E metrics item e :
  Facebook.record_metric E metrics item = Throw e -> e = TypeError.
Proof.
  unfold Facebook.record_metric, get, mbind, outcome_bind.
  destruct (nullish item); [congruence|].
  destruct (opt_index _ 0 ?. "value"); try discriminate; apply facebook_assign_error.
Qed.

Lemma facebook_collect_error E items metrics e :
  Facebook.collect_metrics E items metrics = Throw e -> e = TypeError.
Proof.
  revert metrics. induction items as [|item items IH]; intros metrics; [discriminate|].
  cbn [Facebook.collect_metrics]. unfold mbind, outcome_bind.
  destruct (Facebook.record_metric E metrics item) as [metrics'|e'] eqn:Hturn.
  - apply IH.
  - intros H. injection H as <-. eapply facebook_record_metric_error, Hturn.
Qed.

Lemma facebook_assign_defined E metrics name n :
  printable E name = true -> exists metrics', Facebook.assign E metrics name n = Ok metrics'.
Proof.
  unfold printable, Facebook.assign, mbind, outcome_bind.
  destruct (to_string E name); [|discriminate]. intros _. eexists. reflexivity.
Qed.

Lemma facebook_record_metric_defined E metrics item :
  nullish item = false ->
  printable E (prop item "name") = true ->
  exists metrics', Facebook.record_metric E metrics item = Ok metrics'.
Proof.
  intros Hitem Hname. unfold Facebook.record_metric.
  rewrite (get_defined _ _ Hitem). unfold mbind, outcome_bind.
  destruct (opt_index _ 0 ?. "value");
    try (eexists; reflexivity); now apply facebook_assign_defined.
Qed.

(** A row that stops the loop of the Facebook adapter: [null] or
    [undefined], or a row with a figure under a name that has no string
    form. *)
Lemma facebook_collect_spoiled E items metrics :
  Exists (fun item => nullish item = true \/
                      (has_figure item = true /\ printable E (prop item "name") = false))
    items ->
  Facebook.collect_metrics E items metrics = Throw TypeError.
Proof.
  intros Hspoiled. revert metrics.
  induction items as [|item items IH]; intros metrics; [inversion Hspoiled|].
  cbn [Facebook.collect_metrics]. unfold mbind, outcome_bind.
  destruct (Facebook.record_metric E metrics item) as [metrics'|e] eqn:Hturn.
  - apply IH. inversion Hspoiled as [? ? Hhead|? ? Htail]; [|exact Htail].
    exfalso. destruct Hhead as [Hnull | [Hfigure Hname]].
    + unfold Facebook.record_metric, get in Hturn. now rewrite Hnull in Hturn.
    + unfold Facebook.record_metric, get, mbind, outcome_bind in Hturn.
      destruct (nullish item); [discriminate|].
      unfold has_figure, row_figure in Hfigure.
      unfold printable in Hname. unfold Facebook.assign, mbind, outcome_bind in Hturn.
      destruct (to_string E (prop item "name")); [discriminate|].
      destruct (opt_index _ 0 ?. "value"); discriminate.
  - f_equal. eapply facebook_record_metric_error, Hturn.
Qed.

Lemma facebook_collect_defined E items metrics :
  Forall (fun item => nullish item = false /\ printable E (prop item "name") = true) items ->
  exists metrics', Facebook.collect_metrics E items metrics = Ok metrics'.
Proof.
  intros Hitems. revert metrics.
  induction Hitems as [|item items [Hitem Hname] _ IH]; intros metrics;
    [eexists; reflexivity|].
  cbn [Facebook.collect_metrics].
  destruct (facebook_record_metric_defined E metrics item Hitem Hname) as (metrics' & ->).
  apply IH.
Qed.

Lemma instagram_record_metric_error E metrics item e :
  Instagram.record_metric E metrics item = Throw e -> e = TypeError.
Proof.
  unfold Instagram.record_metric, get, mbind, outcome_bind.
  destruct (nullish item); [congruence|].
  destruct (to_string E (prop item "name")) eqn:Hname; [discriminate|].
  intros H. injection H as <-. eapply to_string_error, Hname.
Qed.

(** A row that stops the loop of the Instagram adapter: [null] or
    [undefined], or a row under a name that has no string form. *)
Lemma instagram_collect_spoiled E items metrics :
  Exists (fun item => nullish item = true \/ printable E (prop item "name") = false) items ->
  Instagram.collect_metrics E items metrics = Throw TypeError.
Proof.
  intros Hspoiled. revert metrics.
  induction items as [|item items IH]; intros metrics; [inversion Hspoiled|].
  cbn [Instagram.collect_metrics]. unfold mbind, outcome_bind.
  destruct (Instagram.record_metric E metrics item) as [metrics'|e] eqn:Hturn.
  - apply IH. inversion Hspoiled as [? ? Hhead|? ? Htail]; [|exact Htail].
    exfalso. unfold Instagram.record_metric, get, mbind, outcome_bind in Hturn.
    destruct Hhead as [Hnull | Hname].
    + now rewrite Hnull in Hturn.
    + destruct (nullish item); [discriminate|].
      unfold printable in Hname.
      destruct (to_string E (prop item "name")); discriminate.
  - f_equal. eapply instagram_record_metric_error, Hturn.
Qed.

(** X11.  One bad row spoils the whole insights reply: a [null] row, or a
    row whose name has no string form (for the Facebook adapter, when the row
    holds a figure).  In [getPostMetrics] of the Facebook adapter the
    [TypeError] is caught and impressions, reach and engaged users all stay
    0, the figures of the other rows included; rows that are all objects
    with names that have a string form never have this effect.  In
    [getPostMetrics] of the Instagram adapter the [TypeError] ends the
    call. *)
Theorem null_row E accessToken postId w data items :
  nullish data = false ->
  truthy (prop data "error") = false ->
  prop data "data" = VArr items ->
  (net E (trace w) (http_get (Facebook.insights_url accessToken postId)) = Json data ->
   (Exists (fun item => nullish item = true \/
                        (has_figure item = true /\ printable E (prop item "name") = false))
      items ->
    fst (Facebook.insights E accessToken postId w) = Ok Facebook.no_insights) /\
   (Forall (fun item => nullish item = false /\ printable E (prop item "name") = true)
      items ->
    exists metrics,
      Facebook.collect_metrics E items ∅ = Ok metrics /\
      fst (Facebook.insights E accessToken postId w)
      = Ok (Facebook.metric metrics "post_impressions",
            Facebook.metric metrics "post_impressions_unique",
            Facebook.metric metrics "post_engaged_users"))) /\
  (net E (trace w) (http_get (Instagram.insights_url accessToken postId)) = Json data ->
   Exists (fun item => nullish item = true \/ printable E (prop item "name") = false)
     items ->
   fst (Instagram.getPostMetrics E accessToken postId w) = Throw TypeError).
Proof.
  intros Hdata Herr Hrows. split.
  - intros Hnet. split.
    + intros Hspoiled. unfold Facebook.insights, try_catch. run.
      rewrite Herr, Hrows. cbn [truthy iterate]. run.
      rewrite (facebook_collect_spoiled _ _ _ Hspoiled). run. reflexivity.
    + intros Hitems.
      destruct (facebook_collect_defined E items ∅ Hitems) as (metrics & Hcollect).
      exists metrics. split; [exact Hcollect|].
      apply (insights_of_payload E accessToken postId w data items metrics); auto.
      * now rewrite Hrows.
      * now rewrite Hrows.
  - intros Hnet Hspoiled. unfold Instagram.getPostMetrics. run.
    rewrite Hrows. cbn [coalesce nullish iterate]. run.
    rewrite (instagram_collect_spoiled _ _ _ Hspoiled). reflexivity.
Qed.

Lemma null_row_witness :
  fst (Facebook.insights (node (scripted [Json (rows_of spoiled_rows)]))
         "token" "1001_55" start)
  = Ok Facebook.no_insights.
Proof.
  destruct (null_row (node (scripted [Json (rows_of spoiled_rows)]))
              "token" "1001_55" start (rows_of spoiled_rows) spoiled_rows
              eq_refl eq_refl eq_refl) as [HF _].
  destruct (HF eq_refl) as [Hnull _]. apply Hnull.
  apply Exists_cons_tl, Exists_cons_hd. left. reflexivity.
Defined.

(** ** Shape of the metrics records *)

Lemma instagram_getPostMetrics_shape E accessToken postId w m w' :
  Instagram.getPostMetrics E accessToken postId w = (Ok m, w') ->
  views m = impressions m /\ watchTimeSeconds m = zero /\ avgWatchPercent m = zero.
Proof.
  intros H. unfold Instagram.getPostMetrics in H.
  unfold fetch in H. unfold mbind, M_bind, outcome_bind, mret, M_ret, lift, get in H.
  split_hyp H. injection H as <- _. repeat split.
Qed.

(** X12.  In every record [getPostMetrics] returns, on either adapter, views
    and impressions are the same figure and watch time and average watch
    percentage are 0; the Facebook adapter also reports 0 saves. *)
Theorem post_metrics_shape E accessToken postId w m w' :
  (Facebook.getPostMetrics E accessToken postId w = (Ok m, w') ->
   views m = impressions m /\ watchTimeSeconds m = zero /\ avgWatchPercent m = zero /\
   saves m = zero) /\
  (Instagram.getPostMetrics E accessToken postId w = (Ok m, w') ->
   views m = impressions m /\ watchTimeSeconds m = zero /\ avgWatchPercent m = zero).
Proof.
  split; [|apply instagram_getPostMetrics_shape].
  intros H.
  destruct (getPostMetrics_inversion _ _ _ _ _ _ H) as (? & ? & ? & ? & ? & _ & _ & ->).
  repeat split.
Qed.

Lemma post_metrics_shape_witness :
  exists m w',
    Instagram.getPostMetrics (node (scripted [Json (media_insights 450 200)]))
      "token" "17900000000000000" start = (Ok m, w') /\
    views m = impressions m.
Proof.
  eexists _, _. split; [reflexivity|].
  apply (proj2 (post_metrics_shape (node (scripted [Json (media_insights 450 200)]))
                  "token" "17900000000000000" start _ _) eq_refl).
Defined.

(** X13.  A record returned by [getAccountMetrics] carries one fetched
    figure, the follower count, read off the reply to the call's request, and
    0 in every other field.  The Facebook adapter takes [followers_count],
    else [fan_count], else 0; the Instagram adapter takes [followers_count],
    else 0, and does not look at [fan_count]. *)
Theorem account_metrics_shape E accessToken accountId w am w' :
  (Facebook.getAccountMetrics E accessToken accountId w = (Ok am, w') ->
   exists payload, last_reply E w' payload /\
     am = account_metrics
            (prop payload "followers_count" ?? prop payload "fan_count" ?? zero) /\
     (nullish (prop payload "followers_count") = true ->
      followers am = prop payload "fan_count" ?? zero)) /\
  (Instagram.getAccountMetrics E accessToken accountId w = (Ok am, w') ->
   exists payload, last_reply E w' payload /\
     am = account_metrics (prop payload "followers_count" ?? zero) /\
     (nullish (prop payload "followers_count") = true -> followers am = zero)).
Proof.
  split; intros H.
  - unfold Facebook.getAccountMetrics in H. unfold_run H. split_run H.
    injection H as <- <-. eexists. split; [|split; [reflexivity|]].
    + eexists _, _. split; [reflexivity|eassumption].
    + intros Hnone. cbn [followers account_metrics]. unfold coalesce at 2.
      now rewrite Hnone.
  - unfold Instagram.getAccountMetrics in H. unfold_run H. split_run H.
    injection H as <- <-. eexists. split; [|split; [reflexivity|]].
    + eexists _, _. split; [reflexivity|eassumption].
    + intros Hnone. cbn [followers account_metrics]. unfold coalesce.
      now rewrite Hnone.
Qed.

Lemma account_metrics_shape_witness :
  fst (Facebook.getAccountMetrics (node (scripted [Json fans_only])) "token" "1001" start)
  = Ok (account_metrics (VNum 340)) /\
  fst (Instagram.getAccountMetrics (node (scripted [Json fans_only])) "token" "1001" start)
  = Ok (account_metrics zero).
Proof.
  split.
  - destruct (proj1 (account_metrics_shape (node (scripted [Json fans_only]))
                       "token" "1001" start _ _) eq_refl) as (payload & _ & Ham & _).
    reflexivity.
  - destruct (proj2 (account_metrics_shape (node (scripted [Json fans_only]))
                       "token" "1001" start _ _) eq_refl) as (payload & _ & Ham & _).
    reflexivity.
Defined.

(** ** Errors of account resolution *)

(** X14.  A provider error in [getAccount] ends the call with the provider's
    message under the adapter's tag: on the pages request for either adapter,
    after that one request, and on the profile request for the Facebook
    adapter, after the two.  For the Instagram adapter a pages reply with
    neither error nor [data] is an empty list of pages: the call fails with
    the no-account error. *)
Theorem getAccount_provider_error E accessToken w :
  (forall pagesData,
     net E (trace w) (http_get (Facebook.pages_url accessToken)) = Json pagesData ->
     truthy (prop pagesData "error") = true ->
     Facebook.getAccount E accessToken w
     = (Throw (PlatformError "facebook" (prop (prop pagesData "error") "message") VUndef),
        {| trace := trace w ++ [http_get (Facebook.pages_url accessToken)];
           console := console w |})) /\
  (forall pagesData profile,
     net E (trace w) (http_get (Facebook.pages_url accessToken)) = Json pagesData ->
     nullish pagesData = false ->
     truthy (prop pagesData "error") = false ->
     truthy (opt_index (prop pagesData "data") 0) = false ->
     net E (trace w ++ [http_get (Facebook.pages_url accessToken)])%list
       (http_get (Facebook.profile_url accessToken)) = Json profile ->
     truthy (prop profile "error") = true ->
     Facebook.getAccount E accessToken w
     = (Throw (PlatformError "facebook" (prop (prop profile "error") "message") VUndef),
        {| trace := (trace w ++ [http_get (Facebook.pages_url accessToken)])
                    ++ [http_get (Facebook.profile_url accessToken)];
           console := console w |})) /\
  (forall pagesData,
     net E (trace w) (http_get (Instagram.pages_url accessToken)) = Json pagesData ->
     (truthy (prop pagesData "error") = true ->
      Instagram.getAccount E accessToken w
      = (Throw (PlatformError "instagram" (prop (prop pagesData "error") "message") VUndef),
         {| trace := trace w ++ [http_get (Instagram.pages_url accessToken)];
            console := console w |})) /\
     (nullish pagesData = false ->
      truthy (prop pagesData "error") = false ->
      nullish (prop pagesData "data") = true ->
      Instagram.getAccount E accessToken w
      = (Throw (PlatformError "instagram" (VStr Instagram.no_business_account) VUndef),
         {| trace := trace w ++ [http_get (Instagram.pages_url accessToken)];
            console := console w |}))).
Proof.
  split; [|split].
  - intros pagesData Hnet Herr. unfold Facebook.getAccount. run. now rewrite Herr.
  - intros pagesData profile Hnet Hdata Herr Hpage Hnet2 Herr2.
    unfold Facebook.getAccount. run. rewrite Herr, Hpage. run. now rewrite Herr2.
  - intros pagesData Hnet. split.
    + intros Herr. unfold Instagram.getAccount. run. now rewrite Herr.
    + intros Hdata Herr Hrows. unfold Instagram.getAccount. run. rewrite Herr.
      unfold coalesce. rewrite Hrows. reflexivity.
Qed.

Lemma getAccount_provider_error_witness :
  fst (Facebook.getAccount (node (scripted [Json (pages_of []); Json oauth_error]))
         "token" start)
  = Throw (PlatformError "facebook" (VStr "Invalid OAuth access token.") VUndef).
Proof.
  destruct (getAccount_provider_error
              (node (scripted [Json (pages_of []); Json oauth_error])) "token" start)
    as (_ & H & _).
  rewrite (H (pages_of []) oauth_error eq_refl eq_refl eq_refl eq_refl eq_refl eq_refl).
  reflexivity.
Defined.

(** ** Refreshing a token *)

(** X15.  With the credentials configured, [refreshToken] of either adapter
    makes one request, the long-lived exchange of the very token it was
    given, and goes by the payload's [error] first: with one it fails with
    the provider's message under the adapter's tag; without one it computes
    the expiry from the payload's hint, ending with the [TypeError] of the
    multiplication when the hint has no primitive form, and otherwise returns
    a pair holding the payload's [access_token] - [undefined] when the payload
    has none, the token given is not carried over - and that expiry. *)
Theorem refreshToken_exchange E token w data :
  present (META_APP_ID E) = true ->
  present (META_APP_SECRET E) = true ->
  let request :=
    http_get (exchange_url (default "" (META_APP_ID E)) (default "" (META_APP_SECRET E))
                token) in
  net E (trace w) request = Json data ->
  nullish data = false ->
  forall platform refreshToken granted,
    (platform, refreshToken, granted)
    = ("facebook", Facebook.refreshToken,
       ["pages_manage_posts"; "pages_read_engagement"]) \/
    (platform, refreshToken, granted)
    = ("instagram", Instagram.refreshToken,
       ["instagram_basic"; "instagram_content_publish"]) ->
    refreshToken E token w
    = (if truthy (prop data "error")
       then Throw (PlatformError platform (prop (prop data "error") "message") VUndef)
       else expires ← expiry E (prop data "expires_in");
            Ok {| accessToken := prop data "access_token";
                  expiresAt := expires;
                  scopes := granted |},
       {| trace := trace w ++ [request]; console := console w |}) /\
    (forall e, expiry E (prop data "expires_in") = Throw e -> e = TypeError).
Proof.
  intros Hid Hsecret request Hnet Hdata platform f granted Heq. split.
  - destruct Heq as [Heq | Heq]; injection Heq as -> -> ->; subst request.
    + unfold Facebook.refreshToken. run.
      destruct (truthy (prop data "error")); [reflexivity|]. run.
      now destruct (expiry E (prop data "expires_in")).
    + unfold Instagram.refreshToken. run.
      destruct (truthy (prop data "error")); [reflexivity|]. run.
      now destruct (expiry E (prop data "expires_in")).
  - intros e. unfold expiry, js_mul, mbind, outcome_bind.
    destruct (to_primitive E _) eqn:Hp; [discriminate|].
    intros H. injection H as <-. eapply to_primitive_error, Hp.
Qed.

Lemma refreshToken_exchange_witness :
  fst (Instagram.refreshToken (node (scripted [Json (VObj [])])) "long-lived" start)
  = Ok {| accessToken := VUndef;
          expiresAt := 1705184000000;
          scopes := ["instagram_basic"; "instagram_content_publish"] |}.
Proof.
  destruct (refreshToken_exchange (node (scripted [Json (VObj [])])) "long-lived" start
              (VObj []) eq_refl eq_refl eq_refl eq_refl _ _ _ (or_intror eq_refl))
    as [H _].
  rewrite H. reflexivity.
Defined.

(** ** The publish protocols *)

(** X16.  What the Instagram adapter puts in the media container: content
    with a [mediaUrl] is a reel ([media_type] "REELS" and [video_url]) when
    its [mediaType] is "video", and an image ([image_url], no [media_type])
    for any other [mediaType], an absent one included; content without
    [mediaUrl] has no container.  The caption and the access token are always
    in it. *)
Theorem instagram_container accessToken content url :
  mediaUrl content = Some url ->
  url <> "" ->
  (is_kind "video" (mediaType content) = true ->
   Instagram.containerParams accessToken content
   = Ok [("caption", VStr (render_caption content));
         ("access_token", VStr accessToken);
         ("media_type", VStr "REELS");
         ("video_url", VStr url)]) /\
  (is_kind "video" (mediaType content) = false ->
   Instagram.containerParams accessToken content
   = Ok [("caption", VStr (render_caption content));
         ("access_token", VStr accessToken);
         ("image_url", VStr url)]).
Proof.
  intros Hurl Hne.
  assert (present (mediaUrl content) = true) as Hpresent.
  { rewrite Hurl. simpl. now apply negb_true_iff, String.eqb_neq. }
  unfold Instagram.containerParams. rewrite Hpresent, Hurl.
  split; intros ->; reflexivity.
Qed.

Lemma instagram_container_witness :
  Instagram.containerParams "token" gif_post
  = Ok [("caption", VStr (render_caption gif_post));
        ("access_token", VStr "token");
        ("image_url", VStr "https://cdn.example/clip.gif")].
Proof.
  apply (instagram_container "token" gif_post "https://cdn.example/clip.gif" eq_refl).
  - discriminate.
  - reflexivity.
Defined.

(** X17.  The two-phase publish of the Instagram adapter, once the account is
    resolved and the container parameters are built.  An account id with no
    string form ends the call with the [TypeError] of the template literal
    before any container is created.  Otherwise the container is created
    under the account's id; if its reply carries an error the call fails with
    it and nothing is published; otherwise the container's id is published
    under the same account, and the call fails with the error of that last
    reply or returns the published id with the permalink
    [https://www.instagram.com/p/<id>] - or ends with a [TypeError] when the
    published id has no string form. *)
Theorem instagram_two_phase E accessToken content w account w1 params :
  Instagram.getAccount E accessToken w = (Ok account, w1) ->
  Instagram.containerParams accessToken content = Ok params ->
  (forall e, to_string E (platformAccountId account) = Throw e ->
     Instagram.publishContent E accessToken content w = (Throw e, w1)) /\
  (forall igId containerData,
     to_string E (platformAccountId account) = Ok igId ->
     let create := http_post (META_API_BASE +:+ "/" +:+ igId +:+ "/media") params in
     let publish :=
       http_post (META_API_BASE +:+ "/" +:+ igId +:+ "/media_publish")
         [("creation_id", prop containerData "id"); ("access_token", VStr accessToken)] in
     net E (trace w1) create = Json containerData ->
     nullish containerData = false ->
     (truthy (prop containerData "error") = true ->
      Instagram.publishContent E accessToken content w
      = (Throw (PlatformError "instagram" (prop (prop containerData "error") "message")
                  VUndef),
         {| trace := trace w1 ++ [create]; console := console w1 |})) /\
     (truthy (prop containerData "error") = false ->
      forall publishData,
        net E (trace w1 ++ [create])%list publish = Json publishData ->
        nullish publishData = false ->
        Instagram.publishContent E accessToken content w
        = (if truthy (prop publishData "error")
           then Throw (PlatformError "instagram"
                         (prop (prop publishData "error") "message") VUndef)
           else shortcode ← to_string E (prop publishData "id");
                Ok {| platformPostId := prop publishData "id";
                      platformPostUrl := "https://www.instagram.com/p/" +:+ shortcode |},
           {| trace := (trace w1 ++ [create]) ++ [publish]; console := console w1 |}))).
Proof.
  intros Haccount Hparams. split.
  - intros e Hid. unfold Instagram.publishContent.
    rewrite bind_run, Haccount. cbv beta iota. run. reflexivity.
  - intros igId containerData Hid create publish Hnet Hcontainer.
    subst create publish. split.
    + intros Herr. unfold Instagram.publishContent.
      rewrite bind_run, Haccount. cbv beta iota. run. now rewrite Herr.
    + intros Herr publishData Hnet2 Hpublish. unfold Instagram.publishContent.
      rewrite bind_run, Haccount. cbv beta iota. run. rewrite Herr. run.
      destruct (truthy (prop publishData "error")); [reflexivity|]. run.
      now destruct (to_string E (prop publishData "id")).
Qed.

Lemma instagram_two_phase_witness :
  fst (Instagram.publishContent
         (node (scripted [Json (pages_of [studio_page]); Json oauth_error]))
         "token" reel start)
  = Throw (PlatformError "instagram" (VStr "Invalid OAuth access token.") VUndef).
Proof.
  destruct (instagram_two_phase
              (node (scripted [Json (pages_of [studio_page]); Json oauth_error]))
              "token" reel start _ _ _ eq_refl eq_refl) as [_ H].
  destruct (H "17841400000000000" oauth_error eq_refl eq_refl eq_refl) as [Herr _].
  rewrite (Herr eq_refl). reflexivity.
Defined.

(** X18.  Where the Facebook adapter publishes: an image with a non-empty
    [mediaUrl] goes to the photos endpoint of the target with the URL as
    [url] and the caption as [message]; a video with one goes to the videos
    endpoint with the URL as [file_url] and the caption as [description];
    content whose [mediaUrl] is absent or empty is a feed post, whatever its
    [mediaType].  The target is the [accountId], or "me" when there is
    none. *)
Theorem facebook_publish_dispatch accessToken content :
  let target := default "me" (accountId content) in
  (forall url,
     mediaUrl content = Some url -> url <> "" ->
     (is_kind "image" (mediaType content) = true ->
      Facebook.publish_request accessToken content
      = http_post (META_API_BASE +:+ "/" +:+ target +:+ "/photos")
          [("url", VStr url); ("message", VStr (render_caption content));
           ("access_token", VStr accessToken)]) /\
     (is_kind "video" (mediaType content) = true ->
      Facebook.publish_request accessToken content
      = http_post (META_API_BASE +:+ "/" +:+ target +:+ "/videos")
          [("file_url", VStr url); ("description", VStr (render_caption content));
           ("access_token", VStr accessToken)])) /\
  (present (mediaUrl content) = false ->
   Facebook.publish_request accessToken content = feed_post accessToken content).
Proof.
  intros target. split.
  - intros url Hurl Hne.
    assert (present (mediaUrl content) = true) as Hpresent.
    { rewrite Hurl. simpl. now apply negb_true_iff, String.eqb_neq. }
    unfold Facebook.publish_request. rewrite Hpresent, Hurl. split.
    + intros ->. reflexivity.
    + intros Hvideo. rewrite Hvideo.
      destruct (mediaType content) as [kind|]; [|discriminate Hvideo].
      simpl in Hvideo |- *. apply String.eqb_eq in Hvideo. subst kind. reflexivity.
  - intros Hnone. unfold Facebook.publish_request. rewrite Hnone. reflexivity.
Qed.

Lemma facebook_publish_dispatch_witness :
  Facebook.publish_request "page-token" reel
  = http_post "https://graph.facebook.com/v21.0/me/videos"
      [("file_url", VStr "https://cdn.example/clip.mp4");
       ("description", VStr ("Hello" +:+ String "010" (String "010" "#launch")));
       ("access_token", VStr "page-token")].
Proof.
  destruct (facebook_publish_dispatch "page-token" reel) as [H _].
  destruct (H "https://cdn.example/clip.mp4" eq_refl) as [_ Hvideo]; [discriminate|].
  rewrite (Hvideo eq_refl). reflexivity.
Defined.

(** X19.  What [publishContent] of the Facebook adapter makes of the reply to
    its one request: an error fails the call with the provider's message
    under the adapter's tag, the error object attached; otherwise the post id
    is the payload's [id], or its [post_id] when there is no [id], and the
    permalink is [https://www.facebook.com/<post id>], the post id printed
    as a template literal prints it; a post id with no string form ends the
    call with a [TypeError]. *)
Theorem facebook_publish_outcome E accessToken content w data :
  net E (trace w) (Facebook.publish_request accessToken content) = Json data ->
  nullish data = false ->
  let postId := prop data "id" ?? prop data "post_id" in
  Facebook.publishContent E accessToken content w
  = (if truthy (prop data "error")
     then Throw (PlatformError "facebook" (prop (prop data "error") "message")
                   (prop data "error"))
     else id ← to_string E postId;
          Ok {| platformPostId := postId;
                platformPostUrl := "https://www.facebook.com/" +:+ id |},
     {| trace := trace w ++ [Facebook.publish_request accessToken content];
        console := console w |}) /\
  (nullish (prop data "id") = true -> postId = prop data "post_id") /\
  (forall s, postId = VStr s -> to_string E postId = Ok s) /\
  (forall e, to_string E postId = Throw e -> e = TypeError).
Proof.
  intros Hnet Hdata postId. split; [|split; [|split]].
  - unfold Facebook.publishContent. run.
    destruct (truthy (prop data "error")); [reflexivity|]. run. fold postId.
    now destruct (to_string E postId).
  - intros Hid. unfold postId, coalesce. now rewrite Hid.
  - intros s ->. reflexivity.
  - intros e. apply to_string_error.
Qed.

Lemma facebook_publish_outcome_witness :
  fst (Facebook.publishContent
         (node (scripted [Json (VObj [("post_id", VStr "1001_88")])]))
         "page-token" text_only start)
  = Ok {| platformPostId := VStr "1001_88";
          platformPostUrl := "https://www.facebook.com/1001_88" |}.
Proof.
  destruct (facebook_publish_outcome
              (node (scripted [Json (VObj [("post_id", VStr "1001_88")])]))
              "page-token" text_only start _ eq_refl eq_refl) as [H _].
  rewrite H. reflexivity.
Defined.

(** ** The authorize URL *)

Lemma encode_char_safe c : all_chars uri_safe (encodeURIComponent (String c EmptyString)) = true.
Proof. destruct c as [[] [] [] [] [] [] [] []]; reflexivity. Qed.

Lemma append_empty s : s +:+ "" = s.
Proof.
  induction s as [|c s IH]; [reflexivity|].
  change (String c (s +:+ "") = String c s). now rewrite IH.
Qed.

Lemma encodeURIComponent_safe s : all_chars uri_safe (encodeURIComponent s) = true.
Proof.
  induction s as [|c s IH]; [reflexivity|].
  pose proof (encode_char_safe c) as Hc.
  cbn [encodeURIComponent] in Hc |- *. rewrite append_empty in Hc.
  now rewrite all_chars_app, Hc, IH.
Qed.

Lemma all_chars_excludes p d s :
  p d = false -> all_chars p s = true -> occurs d s = false.
Proof.
  intros Hd. induction s as [|c s IH]; simpl; [reflexivity|].
  intros [Hc Hs]%andb_true_iff. rewrite (IH Hs), orb_false_r.
  destruct (Ascii.eqb c d) eqn:Heq; [|reflexivity].
  apply Ascii.eqb_eq in Heq. congruence.
Qed.

(** X20.  With the application id configured, [getAuthUrl] of either adapter
    touches neither the network nor the console, and the URL it returns is
    the dialog URL with, in this order, the application id, the redirect URI
    percent-encoded, the very state it returns, the adapter's scopes joined
    by commas, and [response_type=code].  No "&", "=", "?", "#", "/", ":" or
    space of the redirect URI survives the encoding. *)
Theorem getAuthUrl_url E userId redirectUri w :
  present (META_APP_ID E) = true ->
  (forall getAuthUrl requested,
     (getAuthUrl, requested)
     = (Facebook.getAuthUrl,
        "public_profile,pages_show_list,pages_read_engagement,pages_manage_posts") \/
     (getAuthUrl, requested)
     = (Instagram.getAuthUrl, "public_profile,pages_show_list,pages_read_engagement") ->
     exists o,
       getAuthUrl E userId redirectUri w = (Ok o, w) /\
       url o
       = "https://www.facebook.com/v21.0/dialog/oauth?"
         +:+ "client_id=" +:+ default "" (META_APP_ID E)
         +:+ "&redirect_uri=" +:+ encodeURIComponent redirectUri
         +:+ "&state=" +:+ state o
         +:+ "&scope=" +:+ requested
         +:+ "&response_type=code") /\
  Forall (fun c => occurs c (encodeURIComponent redirectUri) = false)
    ["&"; "="; "?"; "#"; "/"; ":"; " "]%char.
Proof.
  intros Hid. split.
  - intros f requested [Heq | Heq]; injection Heq as -> ->;
      [unfold Facebook.getAuthUrl | unfold Instagram.getAuthUrl];
      rewrite bind_run, appId_configured by exact Hid;
      eexists; split; reflexivity.
  - repeat constructor;
      (apply (all_chars_excludes uri_safe); [reflexivity|apply encodeURIComponent_safe]).
Qed.

Lemma getAuthUrl_url_witness :
  exists o,
    Instagram.getAuthUrl (node (scripted [])) "user-42" "https://app/cb?x=1&y=2" start
    = (Ok o, start) /\
    url o
    = "https://www.facebook.com/v21.0/dialog/oauth?client_id=app"
      +:+ "&redirect_uri=https%3A%2F%2Fapp%2Fcb%3Fx%3D1%26y%3D2"
      +:+ "&state=00112233445566778899aabbccddeeff:user-42"
      +:+ "&scope=public_profile,pages_show_list,pages_read_engagement"
      +:+ "&response_type=code".
Proof.
  destruct (getAuthUrl_url (node (scripted [])) "user-42" "https://app/cb?x=1&y=2" start
              eq_refl) as [H _].
  destruct (H _ _ (or_intror eq_refl)) as (o & Hrun & Hurl).
  exists o. split; [exact Hrun|]. rewrite Hurl.
  vm_compute in Hrun. injection Hrun as <-. reflexivity.
Defined.

(** ** Reading figures by name *)

Lemma find_snoc {A} (p : A -> bool) l x :
  find p (l ++ [x]) = match find p l with
                      | Some y => Some y
                      | None => if p x then Some x else None
                      end.
Proof.
  induction l as [|y l IH]; simpl; [reflexivity|].
  destruct (p y); [reflexivity|exact IH].
Qed.

Lemma instagram_assign_read metrics key v k :
  key <> "__proto__" ->
  Instagram.read (Instagram.assign metrics key v) k
  = if String.eqb key k then v else Instagram.read metrics k.
Proof.
  intros Hkey. apply String.eqb_neq in Hkey.
  unfold Instagram.assign. rewrite Hkey. cbn [andb]. unfold Instagram.read. cbn [Instagram.own Instagram.proto].
  destruct (String.eqb_spec key k) as [->|Hne].
  - now rewrite lookup_insert_eq.
  - now rewrite lookup_insert_ne.
Qed.

Lemma row_value_defined item : nullish (row_value item) = false.
Proof.
  unfold row_value, coalesce.
  destruct (nullish (opt_index (prop item "values") 0 ?. "value")) eqn:Hv;
    [reflexivity|exact Hv].
Qed.

Lemma instagram_collect_rows E items metrics :
  Forall (fun item => nullish item = false /\ plainly_named E item = true) items ->
  exists metrics',
    Instagram.collect_metrics E items metrics = Ok metrics' /\
    forall k,
      Instagram.metric metrics' k
      = match last_row E (fun _ => true) k items with
        | Some item => row_value item
        | None => Instagram.metric metrics k
        end.
Proof.
  intros Hitems. revert metrics.
  induction Hitems as [|item items [Hitem Hname] _ IH]; intros metrics.
  - eexists. split; reflexivity.
  - cbn [Instagram.collect_metrics]. unfold Instagram.record_metric.
    rewrite (get_defined _ _ Hitem). unfold mbind, outcome_bind.
    unfold plainly_named in Hname.
    destruct (to_string E (prop item "name")) as [key|] eqn:Hkey; [|discriminate].
    apply negb_true_iff, String.eqb_neq in Hname.
    destruct (IH (Instagram.assign metrics key
                    (opt_index (prop item "values") 0 ?. "value" ?? zero)))
      as (metrics' & Hcollect & Hread).
    exists metrics'. split; [exact Hcollect|].
    intros k. rewrite Hread. unfold last_row. cbn [rev]. rewrite find_snoc.
    destruct (find _ (rev items)); [reflexivity|].
    rewrite andb_true_r. unfold row_named, Instagram.metric. rewrite Hkey.
    rewrite (instagram_assign_read _ _ _ _ Hname).
    destruct (String.eqb key k); [|reflexivity].
    fold (row_value item). unfold coalesce. now rewrite row_value_defined.
Qed.

(** X21.  [getPostMetrics] of the Instagram adapter, on a reply whose rows
    are objects under names that have a string form other than [__proto__],
    reads each figure off the last row that bears its name - impressions for
    views and impressions, reach, likes, comments, shares, and saved for
    saves - taking the value of the row's first entry, and 0 when the row has
    none or no row bears the name. *)
Theorem instagram_figures E accessToken postId w data items :
  net E (trace w) (http_get (Instagram.insights_url accessToken postId)) = Json data ->
  prop data "data" = VArr items ->
  Forall (fun item => nullish item = false /\ plainly_named E item = true) items ->
  let figure k := match last_row E (fun _ => true) k items with
                  | Some item => row_value item
                  | None => zero
                  end in
  fst (Instagram.getPostMetrics E accessToken postId w)
  = Ok {| views := figure "impressions";
          likes := figure "likes";
          comments := figure "comments";
          shares := figure "shares";
          saves := figure "saved";
          watchTimeSeconds := zero;
          avgWatchPercent := zero;
          reachUnique := figure "reach";
          impressions := figure "impressions";
          engagementRate := 0%float |}.
Proof.
  intros Hnet Hrows Hitems figure.
  assert (nullish data = false) as Hdata.
  { apply (prop_not_nullish _ "data"). now rewrite Hrows. }
  destruct (instagram_collect_rows E items Instagram.empty_object Hitems)
    as (metrics & Hcollect & Hread).
  unfold Instagram.getPostMetrics. run. rewrite Hrows. cbn [coalesce nullish iterate]. run.
  cbn [fst]. rewrite !Hread. reflexivity.
Qed.

Lemma instagram_figures_witness :
  exists m,
    fst (Instagram.getPostMetrics (node (scripted [Json (media_insights 450 200)]))
           "token" "17900000000000000" start) = Ok m /\
    views m = VNum 450 /\ reachUnique m = VNum 200 /\ saves m = zero.
Proof.
  eexists. split.
  - apply (instagram_figures (node (scripted [Json (media_insights 450 200)]))
             "token" "17900000000000000" start (media_insights 450 200) _ eq_refl eq_refl).
    repeat constructor.
  - repeat split.
Defined.

Lemma facebook_record_metric_figure E metrics item :
  nullish item = false ->
  Facebook.record_metric E metrics item
  = match row_figure item with
    | Some n => Facebook.assign E metrics (prop item "name") n
    | None => Ok metrics
    end.
Proof.
  intros Hitem. unfold Facebook.record_metric, row_figure.
  rewrite (get_defined _ _ Hitem). unfold mbind, outcome_bind.
  now destruct (opt_index (prop item "values") 0 ?. "value").
Qed.

Lemma facebook_collect_rows E items metrics :
  Forall (fun item => nullish item = false /\ printable E (prop item "name") = true) items ->
  exists metrics',
    Facebook.collect_metrics E items metrics = Ok metrics' /\
    forall k, k <> "__proto__" ->
      Facebook.metric metrics' k
      = match last_row E has_figure k items with
        | Some item => default 0%float (row_figure item)
        | None => Facebook.metric metrics k
        end.
Proof.
  intros Hitems. revert metrics.
  induction Hitems as [|item items [Hitem Hname] _ IH]; intros metrics.
  - eexists. split; reflexivity.
  - cbn [Facebook.collect_metrics].
    rewrite (facebook_record_metric_figure _ _ _ Hitem).
    unfold printable in Hname.
    destruct (to_string E (prop item "name")) as [name|] eqn:Hkey; [|discriminate].
    assert (forall k,
              match last_row E has_figure k (item :: items) with
              | Some item0 => default 0%float (row_figure item0)
              | None => Facebook.metric metrics k
              end
              = match last_row E has_figure k items with
                | Some item0 => default 0%float (row_figure item0)
                | None =>
                    match row_figure item with
                    | Some n => if String.eqb name k then n else Facebook.metric metrics k
                    | None => Facebook.metric metrics k
                    end
                end) as Hlast.
    { intros k. unfold last_row. cbn [rev]. rewrite find_snoc.
      destruct (find _ (rev items)); [reflexivity|].
      unfold has_figure, row_named. rewrite Hkey.
      destruct (row_figure item) as [n|] eqn:Hfigure; [|now rewrite andb_false_r].
      rewrite andb_true_r.
      destruct (String.eqb name k); [now rewrite Hfigure|reflexivity]. }
    destruct (row_figure item) as [n|].
    + unfold Facebook.assign. rewrite Hkey. unfold mbind, outcome_bind.
      match goal with
      | |- context [Facebook.collect_metrics E items ?m] =>
          destruct (IH m) as (metrics' & Hcollect & Hread)
      end.
      exists metrics'. split; [exact Hcollect|].
      intros k Hk. rewrite (Hread k Hk), Hlast.
      destruct (last_row E has_figure k items); [reflexivity|].
      unfold Facebook.metric.
      destruct (String.eqb_spec name "__proto__") as [->|Hplain].
      * destruct (String.eqb_spec "__proto__" k) as [<-|_]; [now destruct Hk|reflexivity].
      * destruct (String.eqb_spec name k) as [->|Hne].
        -- now rewrite lookup_insert_eq.
        -- now rewrite lookup_insert_ne.
    + unfold mbind, outcome_bind.
      destruct (IH metrics) as (metrics' & Hcollect & Hread).
      exists metrics'. split; [exact Hcollect|].
      intros k Hk. now rewrite (Hread k Hk), Hlast.
Qed.

Lemma shares_supported socialData :
  nullish socialData = false ->
  truthy (prop socialData "error") = false ->
  Facebook.shares_unsupported socialData = Ok false.
Proof.
  intros Hdata Herr. unfold Facebook.shares_unsupported.
  rewrite (get_defined _ _ Hdata). unfold mbind, outcome_bind.
  destruct (prop socialData "error") as [| |b|n|s|l|fs]; try reflexivity;
    discriminate Herr.
Qed.

Lemma social_plain E accessToken postId (isPagePost : bool) w socialData :
  let first := http_get (Facebook.social_url accessToken postId
                           (if isPagePost then Facebook.fieldsWithShares
                            else Facebook.fieldsNoShares)) in
  net E (trace w) first = Json socialData ->
  nullish socialData = false ->
  truthy (prop socialData "error") = false ->
  exists w',
    Facebook.social E accessToken postId isPagePost w
    = (Ok (Facebook.social_counts socialData), w') /\
    trace w' = (trace w ++ [first])%list.
Proof.
  intros first Hnet Hdata Herr. subst first.
  unfold Facebook.social. rewrite try_catch_run. run.
  rewrite (shares_supported _ Hdata Herr). run. rewrite Herr.
  destruct (Facebook.social_counts socialData) as [[l c] s].
  unfold_goal. split_goal.
  all: eexists; split; reflexivity.
Qed.

(** X22.  [getPostMetrics] of the Facebook adapter on a page post, the
    insights reply carrying rows that are objects under names that have a
    string form, and the social reply carrying no error: impressions, reach
    and engaged users are read off the last row that bears the name
    [post_impressions], [post_impressions_unique] or [post_engaged_users] and
    holds a number or a breakdown (a breakdown counting for the sum of its
    numbers), 0 when there is no such row; likes, comments and shares are the
    totals of the social reply, 0 where it has none; two requests are made,
    and the call ends as [summarise] does on these six figures: with the
    record built around likes + comments + shares, or with the [TypeError] of
    that sum. *)
Theorem facebook_page_post E accessToken postId w data items socialData :
  string_includes "_" postId = true ->
  net E (trace w) (http_get (Facebook.insights_url accessToken postId)) = Json data ->
  truthy (prop data "error") = false ->
  prop data "data" = VArr items ->
  Forall (fun item => nullish item = false /\ printable E (prop item "name") = true) items ->
  net E (trace w ++ [http_get (Facebook.insights_url accessToken postId)])%list
    (http_get (Facebook.social_url accessToken postId Facebook.fieldsWithShares))
  = Json socialData ->
  nullish socialData = false ->
  truthy (prop socialData "error") = false ->
  let figure k := match last_row E has_figure k items with
                  | Some item => default 0%float (row_figure item)
                  | None => 0%float
                  end in
  let likes := prop socialData "reactions" ?. "summary" ?. "total_count" ?? zero in
  let comments := prop socialData "comments" ?. "summary" ?. "total_count" ?? zero in
  let shares := prop socialData "shares" ?. "count" ?? zero in
  fst (Facebook.getPostMetrics E accessToken postId w)
  = (total ← interactions E (likes, comments, shares);
     Ok (summary_record E (figure "post_impressions") (figure "post_impressions_unique")
           (figure "post_engaged_users") likes comments shares total)) /\
  trace (snd (Facebook.getPostMetrics E accessToken postId w))
  = (trace w ++ [http_get (Facebook.insights_url accessToken postId);
                 http_get (Facebook.social_url accessToken postId
                             Facebook.fieldsWithShares)])%list.
Proof.
  intros Hpage Hnet Herr Hrows Hitems Hnet2 Hsocial Herr2 figure likes' comments' shares'.
  assert (nullish data = false) as Hdata.
  { apply (prop_not_nullish _ "data"). now rewrite Hrows. }
  destruct (facebook_collect_rows E items ∅ Hitems) as (metrics & Hcollect & Hread).
  destruct (getPostMetrics_phases E accessToken postId w)
    as (imp & reach & eng & w1 & l & c & s & w2 & Hins & Htrace & Hsoc & Hrun).
  rewrite Hpage in Hins, Htrace, Hsoc.
  assert (fst (Facebook.insights E accessToken postId w)
          = Ok (Facebook.metric metrics "post_impressions",
                Facebook.metric metrics "post_impressions_unique",
                Facebook.metric metrics "post_engaged_users")) as Hfigures.
  { apply (insights_of_payload E accessToken postId w data items metrics); auto;
      now rewrite Hrows. }
  assert (forall k, Facebook.metric ∅ k = 0%float) as Hzero.
  { intros k. unfold Facebook.metric. now rewrite lookup_empty. }
  rewrite Hins, !Hread, !Hzero in Hfigures by discriminate. cbn [fst] in Hfigures.
  assert (imp = figure "post_impressions" /\ reach = figure "post_impressions_unique" /\
          eng = figure "post_engaged_users") as (-> & -> & ->).
  { unfold figure. repeat split; congruence. }
  rewrite <- Htrace in Hnet2.
  destruct (social_plain E accessToken postId true w1 socialData Hnet2 Hsocial Herr2)
    as (w' & Hplain & Htrace').
  rewrite Hsoc in Hplain.
  assert ((l, c, s) = Facebook.social_counts socialData /\ w2 = w') as [Hcounts <-]
    by (split; congruence).
  unfold Facebook.social_counts in Hcounts. injection Hcounts as -> -> ->.
  rewrite Hrun. cbn [fst snd]. split.
  - apply summarise_interactions.
  - rewrite Htrace', Htrace, <- app_assoc. reflexivity.
Qed.

Lemma facebook_page_post_witness :
  exists m w',
    Facebook.getPostMetrics
      (node (scripted [Json breakdown_insights; Json (post_counts 5 2)]))
      "page-token" "1001_55" start = (Ok m, w') /\
    impressions m = VNum 100 /\ reachUnique m = VNum 50 /\
    likes m = VNum 5 /\ shares m = zero.
Proof.
  assert (Forall (fun item => nullish item = false /\
                              printable (node (scripted [Json breakdown_insights;
                                                         Json (post_counts 5 2)]))
                                (prop item "name") = true)
            [insight "post_impressions"
               (VObj [("paid", VNum 40); ("organic", VNum 60); ("note", VStr "partial")]);
             insight "post_impressions_unique" (VNum 50)]) as Hitems
    by (repeat constructor).
  destruct (facebook_page_post
              (node (scripted [Json breakdown_insights; Json (post_counts 5 2)]))
              "page-token" "1001_55" start breakdown_insights _ (post_counts 5 2)
              eq_refl eq_refl eq_refl eq_refl Hitems eq_refl eq_refl eq_refl)
    as (Hrun & _).
  eexists _, _. split; [reflexivity|].
  repeat split; vm_compute; reflexivity.
Defined.

(** ** The state as a function of its parts *)

Lemma unhex_hex_of_byte b : unhex_byte (hex_of_byte b) = Some b.
Proof. destruct b; reflexivity. Qed.

Lemma hex_app_inj bytes bytes' t t' :
  length bytes = length bytes' ->
  hex bytes +:+ t = hex bytes' +:+ t' ->
  bytes = bytes' /\ t = t'.
Proof.
  revert bytes'. induction bytes as [|b bytes IH]; intros [|b' bytes'] Hlen Heq;
    try discriminate Hlen.
  - split; [reflexivity|exact Heq].
  - change (String (hex_digit (Byte.to_N b / 16))
              (String (hex_digit (Byte.to_N b mod 16)) (hex bytes +:+ t))
            = String (hex_digit (Byte.to_N b' / 16))
                (String (hex_digit (Byte.to_N b' mod 16)) (hex bytes' +:+ t'))) in Heq.
    injection Heq as Hhi Hlo Hrest.
    assert (hex_of_byte b = hex_of_byte b') as Hbyte.
    { unfold hex_of_byte. now rewrite Hhi, Hlo. }
    apply (f_equal unhex_byte) in Hbyte. rewrite !unhex_hex_of_byte in Hbyte.
    injection Hbyte as ->.
    destruct (IH bytes' (eq_add_S _ _ Hlen) Hrest) as [-> ->]. split; reflexivity.
Qed.

(** X23.  The state of [getAuthUrl] determines what it was made of: two calls
    of either adapter, each drawing 16 random bytes, return the same state
    only if they drew the same bytes and were given the same user id. *)
Theorem state_injective E E' userId userId' redirectUri redirectUri' w w' o o' :
  length (randomBytes16 E) = 16%nat ->
  length (randomBytes16 E') = 16%nat ->
  Facebook.getAuthUrl E userId redirectUri w = (Ok o, w) \/
  Instagram.getAuthUrl E userId redirectUri w = (Ok o, w) ->
  Facebook.getAuthUrl E' userId' redirectUri' w' = (Ok o', w') \/
  Instagram.getAuthUrl E' userId' redirectUri' w' = (Ok o', w') ->
  state o = state o' ->
  randomBytes16 E = randomBytes16 E' /\ userId = userId'.
Proof.
  intros Hlen Hlen' Hrun Hrun' Hstate.
  assert (state o = hex (randomBytes16 E) +:+ ":" +:+ userId) as Ho.
  { destruct Hrun as [H | H];
      [unfold Facebook.getAuthUrl in H | unfold Instagram.getAuthUrl in H];
      unfold_run H; split_run H; injection H as <-; reflexivity. }
  assert (state o' = hex (randomBytes16 E') +:+ ":" +:+ userId') as Ho'.
  { destruct Hrun' as [H | H];
      [unfold Facebook.getAuthUrl in H | unfold Instagram.getAuthUrl in H];
      unfold_run H; split_run H; injection H as <-; reflexivity. }
  rewrite Ho, Ho' in Hstate.
  destruct (hex_app_inj _ _ _ _ (eq_trans Hlen (eq_sym Hlen')) Hstate) as [Hbytes Htail].
  split; [exact Hbytes|]. now injection Htail.
Qed.

Lemma state_injective_witness :
  randomBytes16 (node (scripted [])) = randomBytes16 (node (constant (Json VNull))) /\
  "user-42" = "user-42".
Proof.
  eapply (state_injective (node (scripted [])) (node (constant (Json VNull)))
            "user-42" "user-42" "https://app/cb" "https://other/cb" start start
            _ _ eq_refl eq_refl (or_introl eq_refl) (or_intror eq_refl)).
  reflexivity.
Defined.

(** ** The two exchanges of [handleCallback] *)

(** X24.  With the credentials configured and no error in the payload of the
    code exchange, [handleCallback] goes on to the long-lived exchange of the
    [access_token] of that payload, as the template literal prints it - the
    token itself when it is a string, the text "undefined" when the payload
    has none - and ends with a [TypeError] after the one request when the
    token has no string form.  With no error in the second payload either,
    exactly two requests are made and the expiry is computed from the second
    payload's hint: the Facebook adapter returns the [access_token] of the
    second payload; the Instagram adapter returns it too, or the short-lived
    token when the second payload has none. *)
Theorem handleCallback_exchange E code redirectUri w data :
  present (META_APP_ID E) = true ->
  present (META_APP_SECRET E) = true ->
  let id := default "" (META_APP_ID E) in
  let secret := default "" (META_APP_SECRET E) in
  let first := http_get (code_url id secret redirectUri code) in
  net E (trace w) first = Json data ->
  nullish data = false ->
  truthy (prop data "error") = false ->
  (forall e,
     to_string E (prop data "access_token") = Throw e ->
     Facebook.handleCallback E code redirectUri w
     = (Throw e, {| trace := trace w ++ [first]; console := console w |}) /\
     Instagram.handleCallback E code redirectUri w
     = (Throw e, {| trace := trace w ++ [first]; console := console w |})) /\
  (forall token longData,
     to_string E (prop data "access_token") = Ok token ->
     let second := http_get (exchange_url id secret token) in
     net E (trace w ++ [first])%list second = Json longData ->
     nullish longData = false ->
     truthy (prop longData "error") = false ->
     Facebook.handleCallback E code redirectUri w
     = (expires ← expiry E (prop longData "expires_in");
        Ok {| accessToken := prop longData "access_token";
              expiresAt := expires;
              scopes := ["pages_manage_posts"; "pages_read_engagement"; "read_insights"] |},
        {| trace := (trace w ++ [first]) ++ [second]; console := console w |}) /\
     Instagram.handleCallback E code redirectUri w
     = (expires ← expiry E (prop longData "expires_in");
        Ok {| accessToken := prop longData "access_token" ?? prop data "access_token";
              expiresAt := expires;
              scopes := ["instagram_basic"; "instagram_content_publish";
                         "instagram_manage_insights"] |},
        {| trace := (trace w ++ [first]) ++ [second]; console := console w |})) /\
  (prop data "access_token" = VUndef ->
   to_string E (prop data "access_token") = Ok "undefined") /\
  (forall s, prop data "access_token" = VStr s ->
             to_string E (prop data "access_token") = Ok s).
Proof.
  intros Hid Hsecret id secret first Hnet Hdata Herr.
  split; [|split; [|split]].
  - intros e Htoken.
    now apply (callback_token_unprintable E code redirectUri w Hid Hsecret data e).
  - intros token longData Htoken second Hnet2 Hlong Herr2. split.
    + rewrite (facebook_callback_second E code redirectUri w Hid Hsecret data token longData)
        by assumption.
      now rewrite Herr2.
    + now apply instagram_callback_second.
  - intros ->. reflexivity.
  - intros s ->. reflexivity.
Qed.

Lemma handleCallback_exchange_witness :
  fst (Instagram.handleCallback
         (node (scripted [Json short_lived; Json (VObj [("expires_in", VNum 3600)])]))
         "code" "https://app/cb" start)
  = Ok {| accessToken := VStr "short-lived";
          expiresAt := 1700003600000;
          scopes := ["instagram_basic"; "instagram_content_publish";
                     "instagram_manage_insights"] |}.
Proof.
  destruct (handleCallback_exchange
              (node (scripted [Json short_lived; Json (VObj [("expires_in", VNum 3600)])]))
              "code" "https://app/cb" start short_lived
              eq_refl eq_refl eq_refl eq_refl eq_refl)
    as (_ & H & _).
  destruct (H "short-lived" (VObj [("expires_in", VNum 3600)])
              eq_refl eq_refl eq_refl eq_refl) as [_ HI].
  rewrite HI. reflexivity.
Defined.

(** ** Further sample instances *)

Lemma request_budget_witness :
  exists reqs,
    trace (snd (Instagram.publishContent
                  (node (scripted [Json (pages_of [studio_page]); Json oauth_error]))
                  "token" reel start)) = reqs /\
    (length reqs <= 3)%nat /\
    Forall graph_request reqs.
Proof.
  destruct (request_budget
              (node (scripted [Json (pages_of [studio_page]); Json oauth_error]))
              "token" "" reel) as [_ (_ & _ & _ & _ & H & _)].
  destruct (H start) as (reqs & Htrace & Hlen & Hall).
  exists reqs. split; [exact Htrace|]. split; assumption.
Defined.

Lemma credentials_unused_witness :
  Facebook.getAccount (with_credentials (node (scripted [Json (pages_of [bakery_page])]))
                         None None) "token" start
  = Facebook.getAccount (node (scripted [Json (pages_of [bakery_page])])) "token" start.
Proof.
  destruct (credentials_unused (node (scripted [Json (pages_of [bakery_page])]))
              None None "token" "" text_only) as [(H & _) _].
  now rewrite H.
Defined.

Lemma caption_hashtags_normalised_witness :
  render_caption (with_hashtags gif_post ["#launch"; "#lagos"]) = render_caption gif_post.
Proof.
  destruct (caption_hashtags_normalised gif_post) as (_ & _ & _ & H & _).
  exact H.
Defined.

Lemma getPostMetrics_requests_witness :
  trace (snd (Facebook.getPostMetrics
                (node (scripted [Json (post_insights 120 80 20); Json oauth_error]))
                "page-token" "1001_55" start))
  = [http_get (Facebook.insights_url "page-token" "1001_55");
     http_get (Facebook.social_url "page-token" "1001_55" Facebook.fieldsWithShares)].
Proof.
  destruct (getPostMetrics_requests
              (node (scripted [Json (post_insights 120 80 20); Json oauth_error]))
              "page-token" "1001_55" start) as (Htrace & _).
  rewrite Htrace. reflexivity.
Defined.
